(** * rdp2tcp server, tunnels management (server/tunnel.c)

    A shallow embedding of [tunnel.c]: the tunnel registry
    ([all_tunnels]), the identifier allocator, the answer codec and the
    per-tunnel event handlers, over an explicit heap of tunnel objects
    and an abstract environment answering the calls [tunnel.c] makes to
    the rest of the server (sockets, channel, event engine, processes). *)

From Stdlib Require Import ZArith List String Lia Bool.
From stdpp Require Import base option list gmap.

Local Open Scope Z_scope.

(** ** Constants of the headers used by [tunnel.c] *)

(** Winsock error codes (winsock2.h). *)
Definition WSAEACCES : Z := 10013.
Definition WSAEADDRNOTAVAIL : Z := 10049.
Definition WSAECONNREFUSED : Z := 10061.
Definition WSAHOST_NOT_FOUND : Z := 11001.
Definition ERROR_IO_PENDING : Z := 997.

(** Winsock network event bits (winsock2.h). *)
Definition FD_READ : Z := 1.
Definition FD_WRITE : Z := 2.
Definition FD_ACCEPT : Z := 8.
Definition FD_CONNECT : Z := 16.
Definition FD_CLOSE : Z := 32.

(** Address families (winsock2.h). *)
Definition AF_INET : Z := 2.
Definition AF_INET6 : Z := 23.

(** Modelled from the spec: the error taxonomy of rdp2tcp.h (section 7,
    one-byte codes on the wire); the header is not part of the sources. *)
Definition R2TERR_SUCCESS : Z := 0.
Definition R2TERR_GENERIC : Z := 1.
Definition R2TERR_FORBIDDEN : Z := 2.
Definition R2TERR_CONNREFUSED : Z := 3.
Definition R2TERR_NOTAVAIL : Z := 4.
Definition R2TERR_RESOLVE : Z := 5.

(** Modelled from the spec: address family codes on the wire (section 6). *)
Definition TUNAF_IPV4 : Z := 1.
Definition TUNAF_IPV6 : Z := 2.

(** Modelled from the spec: the channel commands of rdp2tcp.h (section 6);
    the header is not part of the sources. *)
Inductive r2tcmd :=
| R2TCMD_CONN | R2TCMD_CLOSE | R2TCMD_DATA | R2TCMD_BIND | R2TCMD_RCONN.

(** ** Data *)

(** [sock_t]: a socket and the event object watching it. *)
Record sock_t := { fd : Z; evt : Z }.

(** [netaddr_t] is a union of [sockaddr_in] and [sockaddr_in6].  The
    family and the port sit at the same offsets in both views; the ipv4
    address (offset 4) and the ipv6 address (offset 8) do not overlap.
    The port field is kept in network byte order by the socket API, so
    [sin_port] holds the port number whose memory image is [be16]. *)
Record netaddr_t := {
  sa_family : Z;
  sin_port : Z;
  sin_addr : list Z;
  sin6_addr : list Z
}.

Definition netaddr_af (a : netaddr_t) : Z := sa_family a.

(** Memory image of a 16-bit field stored in network byte order. *)
Definition be16 (p : Z) : list Z := [(p / 256) mod 256; p mod 256].

(** Modelled from the spec: [r2tmsg_connans_t] of rdp2tcp.h (not part of
    the sources), the packed answer of section 6: [err u8], [af u8],
    [port u16], then room for a 16-byte address. *)
Record r2tmsg_connans_t := {
  err : Z;
  af : Z;
  port : Z;
  addr16 : list Z
}.

(** The message after [memset] to zero. *)
Definition connans_zero : r2tmsg_connans_t :=
  {| err := 0; af := 0; port := 0; addr16 := repeat 0 16 |}.

(** [memcpy(dst, src, n)] on byte lists: the first [n] bytes of [dst] are
    replaced by the first [n] bytes of [src]. *)
Definition memcpy (dst src : list Z) (n : nat) : list Z :=
  firstn n src ++ skipn n dst.

(** The bytes of the answer as laid out in memory from [&msg->err]. *)
Definition connans_bytes (m : r2tmsg_connans_t) : list Z :=
  [err m; af m] ++ be16 (port m) ++ addr16 m.

(** What [channel_write(cmd, id, &ans.err, ans_len)] sends as payload. *)
Definition connans_payload (m : r2tmsg_connans_t) (len : Z) : list Z :=
  firstn (Z.to_nat len) (connans_bytes m).

(** [wsa_to_r2t_error] *)
Definition wsa_to_r2t_error (e : Z) : Z :=
  if e =? WSAEACCES then R2TERR_FORBIDDEN
  else if e =? WSAECONNREFUSED then R2TERR_CONNREFUSED
  else if e =? WSAEADDRNOTAVAIL then R2TERR_NOTAVAIL
  else if e =? WSAHOST_NOT_FOUND then R2TERR_RESOLVE
  else R2TERR_GENERIC.

(** [netaddr_to_connans]: the filled message and its length. *)
Definition netaddr_to_connans (a : netaddr_t) : r2tmsg_connans_t * Z :=
  let msg := connans_zero in
  let msg := {| err := R2TERR_SUCCESS; af := af msg; port := port msg;
                addr16 := addr16 msg |} in
  if netaddr_af a =? AF_INET then
    ({| err := err msg; af := TUNAF_IPV4; port := sin_port a;
        addr16 := memcpy (addr16 msg) (sin_addr a) 4 |}, 8)
  else
    ({| err := err msg; af := TUNAF_IPV6; port := sin_port a;
        addr16 := memcpy (addr16 msg) (sin6_addr a) 16 |}, 20).

(** A tunnel object ([tunnel_t]); tunnels are heap objects named by
    their address.  [proc] is the child process handle (0 for a socket
    tunnel); [rio_hEvent]/[wio_hEvent] are the event handles of the two
    overlapped I/O states; the two buffers hold their pending bytes. *)
Definition ptr := positive.

Record tunnel_t := {
  id : Z;
  connected : bool;
  server : bool;
  proc : Z;
  sock : sock_t;
  addr : netaddr_t;
  rfd : Z;
  wfd : Z;
  rio_buf : list Z;
  rio_hEvent : Z;
  wio_buf : list Z;
  wio_hEvent : Z
}.

(** [calloc]: every field is zero. *)
Definition tunnel_zero : tunnel_t :=
  {| id := 0; connected := false; server := false; proc := 0;
     sock := {| fd := 0; evt := 0 |};
     addr := {| sa_family := 0; sin_port := 0;
                sin_addr := repeat 0 4; sin6_addr := repeat 0 16 |};
     rfd := 0; wfd := 0;
     rio_buf := []; rio_hEvent := 0; wio_buf := []; wio_hEvent := 0 |}.

Definition set_id (i : Z) (t : tunnel_t) : tunnel_t :=
  {| id := i; connected := connected t; server := server t; proc := proc t;
     sock := sock t; addr := addr t; rfd := rfd t; wfd := wfd t;
     rio_buf := rio_buf t; rio_hEvent := rio_hEvent t;
     wio_buf := wio_buf t; wio_hEvent := wio_hEvent t |}.

Definition set_connected (b : bool) (t : tunnel_t) : tunnel_t :=
  {| id := id t; connected := b; server := server t; proc := proc t;
     sock := sock t; addr := addr t; rfd := rfd t; wfd := wfd t;
     rio_buf := rio_buf t; rio_hEvent := rio_hEvent t;
     wio_buf := wio_buf t; wio_hEvent := wio_hEvent t |}.

Definition set_server (b : bool) (t : tunnel_t) : tunnel_t :=
  {| id := id t; connected := connected t; server := b; proc := proc t;
     sock := sock t; addr := addr t; rfd := rfd t; wfd := wfd t;
     rio_buf := rio_buf t; rio_hEvent := rio_hEvent t;
     wio_buf := wio_buf t; wio_hEvent := wio_hEvent t |}.

Definition set_sock (k : sock_t) (t : tunnel_t) : tunnel_t :=
  {| id := id t; connected := connected t; server := server t; proc := proc t;
     sock := k; addr := addr t; rfd := rfd t; wfd := wfd t;
     rio_buf := rio_buf t; rio_hEvent := rio_hEvent t;
     wio_buf := wio_buf t; wio_hEvent := wio_hEvent t |}.

Definition set_addr (a : netaddr_t) (t : tunnel_t) : tunnel_t :=
  {| id := id t; connected := connected t; server := server t; proc := proc t;
     sock := sock t; addr := a; rfd := rfd t; wfd := wfd t;
     rio_buf := rio_buf t; rio_hEvent := rio_hEvent t;
     wio_buf := wio_buf t; wio_hEvent := wio_hEvent t |}.

Definition set_rio_buf (b : list Z) (t : tunnel_t) : tunnel_t :=
  {| id := id t; connected := connected t; server := server t; proc := proc t;
     sock := sock t; addr := addr t; rfd := rfd t; wfd := wfd t;
     rio_buf := b; rio_hEvent := rio_hEvent t;
     wio_buf := wio_buf t; wio_hEvent := wio_hEvent t |}.

Definition set_wio_buf (b : list Z) (t : tunnel_t) : tunnel_t :=
  {| id := id t; connected := connected t; server := server t; proc := proc t;
     sock := sock t; addr := addr t; rfd := rfd t; wfd := wfd t;
     rio_buf := rio_buf t; rio_hEvent := rio_hEvent t;
     wio_buf := b; wio_hEvent := wio_hEvent t |}.

(** The handles a started child process hands back. *)
Record proc_handles := {
  ph_proc : Z; ph_rfd : Z; ph_wfd : Z; ph_rio_hEvent : Z; ph_wio_hEvent : Z
}.

Definition set_proc (h : proc_handles) (t : tunnel_t) : tunnel_t :=
  {| id := id t; connected := true; server := server t; proc := ph_proc h;
     sock := sock t; addr := addr t; rfd := ph_rfd h; wfd := ph_wfd h;
     rio_buf := []; rio_hEvent := ph_rio_hEvent h;
     wio_buf := []; wio_hEvent := ph_wio_hEvent h |}.

(** ** The environment

    Calls that leave [tunnel.c], with the value each one returned, in
    the order they were made. *)
Inductive call :=
| Call_channel_write (cmd : r2tcmd) (i : Z) (payload : list Z) (ret : Z)
| Call_channel_forward (i : Z) (data : list Z) (ret : Z)
| Call_net_client (pref_af : Z) (host : string) (p : Z) (ret : Z)
| Call_net_server (pref_af : Z) (host : string) (p : Z) (ret : Z)
| Call_net_accept (k : sock_t) (ret : Z)
| Call_net_write (k : sock_t) (buf : list Z) (ret : Z)
| Call_net_read (k : sock_t) (ret : Z)
| Call_net_update_watch (k : sock_t) (ret : Z)
| Call_net_close (k : sock_t)
| Call_event_add_tunnel (e : Z) (i : Z) (ret : Z)
| Call_event_del_tunnel (i : Z)
| Call_process_start (host : string) (ret : Z)
| Call_process_stop (h : Z)
| Call_CancelIo (f : Z)
| Call_aio_read (f : Z) (ret : Z)
| Call_aio_write (f : Z) (buf : list Z) (ret : Z)
| Call_WSAEnumNetworkEvents (k : sock_t) (ret : Z).

(** What the rest of the server and the operating system answer.  [W] is
    the state of that outside world; every answer may depend on it and
    change it.  [error_ret] and [wsaerror_ret] are the values of the
    logging helpers [error()] and [wsaerror()] of print.h, which the
    callers in [tunnel.c] test with [< 0]. *)
Class Extern (W : Type) := {
  error_ret : Z;
  error_ret_neg : error_ret < 0;
  wsaerror_ret : Z;
  wsaerror_ret_neg : wsaerror_ret < 0;
  env_calloc : W -> bool * W;
  env_net_client : Z -> string -> Z -> W -> (Z * sock_t * netaddr_t * Z) * W;
  env_net_server : Z -> string -> Z -> W -> (Z * sock_t * netaddr_t * Z) * W;
  env_net_accept : sock_t -> W -> (Z * sock_t * netaddr_t) * W;
  env_net_write : sock_t -> list Z -> W -> (Z * Z) * W;
  env_net_read : sock_t -> W -> (Z * list Z) * W;
  env_net_update_watch : sock_t -> list Z -> W -> Z * W;
  env_channel_write : r2tcmd -> Z -> list Z -> W -> Z * W;
  env_channel_forward : Z -> list Z -> W -> Z * W;
  env_event_add_tunnel : Z -> Z -> W -> Z * W;
  env_process_start : string -> W -> (Z * proc_handles) * W;
  env_aio_read : Z -> W -> (Z * list Z) * W;
  env_aio_write : Z -> list Z -> W -> (Z * Z) * W;
  env_iobuf_append : list Z -> list Z -> W -> bool * W;
  env_WSAEnumNetworkEvents : sock_t -> W -> (Z * Z * Z) * W;
  env_WSAGetLastError : W -> Z * W
}.

(** ** Program state and the monad of [tunnel.c] *)

(** The globals of [tunnel.c] ([all_tunnels], the static [last_tid] of
    [tunnel_generate_id]), the heap of tunnel objects, the calls made so
    far and the outside world. *)
Record state (W : Type) := {
  heap : gmap ptr tunnel_t;
  next_ptr : ptr;
  all_tunnels : list ptr;
  last_tid : Z;
  trace : list call;
  world : W
}.
Arguments heap {W} _.
Arguments next_ptr {W} _.
Arguments all_tunnels {W} _.
Arguments last_tid {W} _.
Arguments trace {W} _.
Arguments world {W} _.

(** How a run can go wrong: a freed (or never linked) tunnel is used, or
    an [assert] fails. *)
Inductive fault := UseAfterFree | AssertionFailed.

Inductive result (S A : Type) :=
| Ok (a : A) (s : S)
| Fault (f : fault).
Arguments Ok {S A} _ _.
Arguments Fault {S A} _.

Definition M (W A : Type) : Type := state W -> result (state W) A.

#[global] Instance M_ret {W} : MRet (M W) := fun A a s => Ok a s.
#[global] Instance M_bind {W} : MBind (M W) := fun A B f m s =>
  match m s with
  | Ok a s' => f a s'
  | Fault e => Fault e
  end.

(** The program start: no tunnel, [last_tid = 0xff]. *)
Definition init_state {W} (w : W) : state W :=
  {| heap := ∅; next_ptr := 1%positive; all_tunnels := [];
     last_tid := 255; trace := []; world := w |}.

Section Tunnel.
Context {W : Type} {X : Extern W}.

Local Abbreviation M := (M W).

(** *** Primitive steps *)

Definition fail {A} (f : fault) : M A := fun _ => Fault f.

(** [assert(c)] *)
Definition assert (c : bool) : M unit :=
  if c then mret tt else fail AssertionFailed.

(** Read the object behind a tunnel pointer. *)
Definition deref (p : ptr) : M tunnel_t := fun s =>
  match heap s !! p with
  | Some t => Ok t s
  | None => Fault UseAfterFree
  end.

(** Update the object behind a tunnel pointer. *)
Definition modify (p : ptr) (f : tunnel_t -> tunnel_t) : M unit := fun s =>
  match heap s !! p with
  | Some t =>
      Ok tt {| heap := <[p := f t]> (heap s); next_ptr := next_ptr s;
               all_tunnels := all_tunnels s; last_tid := last_tid s;
               trace := trace s; world := world s |}
  | None => Fault UseAfterFree
  end.

(** [free(tun)] *)
Definition free (p : ptr) : M unit := fun s =>
  match heap s !! p with
  | Some _ =>
      Ok tt {| heap := delete p (heap s); next_ptr := next_ptr s;
               all_tunnels := all_tunnels s; last_tid := last_tid s;
               trace := trace s; world := world s |}
  | None => Fault UseAfterFree
  end.

(** Ask the environment and record the call. *)
Definition extern {A} (f : W -> A * W) (c : A -> call) : M A := fun s =>
  let '(a, w) := f (world s) in
  Ok a {| heap := heap s; next_ptr := next_ptr s;
          all_tunnels := all_tunnels s; last_tid := last_tid s;
          trace := trace s ++ [c a]; world := w |}.

(** Ask the environment about memory, which leaves no call behind. *)
Definition extern_quiet {A} (f : W -> A * W) : M A := fun s =>
  let '(a, w) := f (world s) in
  Ok a {| heap := heap s; next_ptr := next_ptr s;
          all_tunnels := all_tunnels s; last_tid := last_tid s;
          trace := trace s; world := w |}.

(** A call without a result. *)
Definition emit (c : call) : M unit := fun s =>
  Ok tt {| heap := heap s; next_ptr := next_ptr s;
           all_tunnels := all_tunnels s; last_tid := last_tid s;
           trace := trace s ++ [c]; world := world s |}.

(** [list_add_tail(&tun->list, &all_tunnels)] *)
Definition list_add_tail (p : ptr) : M unit := fun s =>
  Ok tt {| heap := heap s; next_ptr := next_ptr s;
           all_tunnels := all_tunnels s ++ [p]; last_tid := last_tid s;
           trace := trace s; world := world s |}.

(** [list_del(&tun->list)]: unlinking a node that is not linked follows
    the null links [calloc] left in it. *)
Definition list_del (p : ptr) : M unit := fun s =>
  if decide (p ∈ all_tunnels s) then
    Ok tt {| heap := heap s; next_ptr := next_ptr s;
             all_tunnels := filter (fun q => q ≠ p) (all_tunnels s);
             last_tid := last_tid s;
             trace := trace s; world := world s |}
  else Fault UseAfterFree.

(** A fresh heap object. *)
Definition new_object (t : tunnel_t) : M ptr := fun s =>
  Ok (next_ptr s)
     {| heap := <[next_ptr s := t]> (heap s);
        next_ptr := Pos.succ (next_ptr s);
        all_tunnels := all_tunnels s; last_tid := last_tid s;
        trace := trace s; world := world s |}.

Definition get_last_tid : M Z := fun s => Ok (last_tid s) s.

Definition set_last_tid (i : Z) : M unit := fun s =>
  Ok tt {| heap := heap s; next_ptr := next_ptr s;
           all_tunnels := all_tunnels s; last_tid := i;
           trace := trace s; world := world s |}.

(** *** The calls out of [tunnel.c] *)

Definition channel_write (cmd : r2tcmd) (i : Z) (payload : list Z) : M Z :=
  extern (env_channel_write cmd i payload) (Call_channel_write cmd i payload).

Definition net_update_watch (p : ptr) : M Z :=
  t ← deref p;
  extern (env_net_update_watch (sock t) (wio_buf t))
         (Call_net_update_watch (sock t)).

Definition event_add_tunnel (e i : Z) : M Z :=
  extern (env_event_add_tunnel e i) (Call_event_add_tunnel e i).

Definition event_del_tunnel (i : Z) : M unit := emit (Call_event_del_tunnel i).

Definition net_close (k : sock_t) : M unit := emit (Call_net_close k).

(** [iobuf_init2(&tun->rio.buf, &tun->wio.buf, ...)]: two empty buffers. *)
Definition iobuf_init2 (p : ptr) : M unit :=
  modify p (fun t => set_wio_buf [] (set_rio_buf [] t)).

(** [iobuf_kill2(&tun->rio.buf, &tun->wio.buf)]: the buffers are released. *)
Definition iobuf_kill2 (p : ptr) : M unit :=
  modify p (fun t => set_wio_buf [] (set_rio_buf [] t)).

(** Modelled from the spec: [net_write] of the socket driver (not part of
    the sources).  Section 4.3, data-out: bytes are consumed from [wio]
    to the endpoint, a partial write leaves the remainder queued.  The
    result is the status and the number of bytes written. *)
Definition net_write (p : ptr) : M (Z * Z) :=
  t ← deref p;
  '(ret, w) ← extern (env_net_write (sock t) (wio_buf t))
                     (fun r => Call_net_write (sock t) (wio_buf t) (fst r));
  (if 0 <=? ret
   then modify p (fun t => set_wio_buf (skipn (Z.to_nat w) (wio_buf t)) t)
   else mret tt);;
  mret (ret, w).

(** Modelled from the spec: [net_read] of the socket driver (not part of
    the sources).  Section 4.3, data-in: bytes read from the endpoint are
    added to [rio].  The result is the status and the number of bytes
    read. *)
Definition net_read (p : ptr) : M (Z * Z) :=
  t ← deref p;
  '(ret, data) ← extern (env_net_read (sock t))
                        (fun r => Call_net_read (sock t) (fst r));
  (if 0 <=? ret
   then modify p (fun t => set_rio_buf (rio_buf t ++ data) t)
   else mret tt);;
  mret (ret, if 0 <=? ret then Z.of_nat (length data) else 0).

(** Modelled from the spec: [channel_forward] of the channel dispatcher
    (not part of the sources).  Section 4.5: [tun.rio] is drained in data
    records addressed to [tun.id]; after draining, [rio] is empty. *)
Definition channel_forward (p : ptr) : M Z :=
  t ← deref p;
  ret ← extern (env_channel_forward (id t) (rio_buf t))
               (Call_channel_forward (id t) (rio_buf t));
  (if 0 <=? ret then modify p (set_rio_buf []) else mret tt);;
  mret ret.

(** Modelled from the spec: [iobuf_append] (not part of the sources).
    Section 4.2: [append(data)] adds the bytes or fails with buffer-full;
    the result tells whether the bytes were added. *)
Definition iobuf_append (p : ptr) (data : list Z) : M bool :=
  t ← deref p;
  ok ← extern_quiet (env_iobuf_append (wio_buf t) data);
  (if ok : bool then modify p (fun t => set_wio_buf (wio_buf t ++ data) t)
   else mret tt);;
  mret ok.

(** Modelled from the spec: [process_start] of the process driver (not
    part of the sources).  Section 4.3, create-process: the child is
    spawned with piped stdin/stdout; on success the tunnel is established
    and owns the child handle and the two pipe ends. *)
Definition process_start (p : ptr) (host : string) : M Z :=
  '(ret, h) ← extern (env_process_start host)
                     (fun r => Call_process_start host (fst r));
  (if 0 <=? ret then modify p (set_proc h) else mret tt);;
  mret ret.

Definition process_stop (p : ptr) : M unit :=
  t ← deref p;
  emit (Call_process_stop (proc t)).

Definition CancelIo (f : Z) : M unit := emit (Call_CancelIo f).

(** *** [tunnel.c] *)

(** The walk of [tunnel_lookup] over the list: the first linked tunnel
    with the given id.  [None] stands for a walk that reads a freed node. *)
Fixpoint lookup_walk (h : gmap ptr tunnel_t) (l : list ptr) (i : Z)
  : option (option ptr) :=
  match l with
  | [] => Some None
  | p :: l' =>
      match h !! p with
      | None => None
      | Some t => if id t =? i then Some (Some p) else lookup_walk h l' i
      end
  end.

(** [tunnel_lookup] *)
Definition tunnel_lookup (i : Z) : M (option ptr) := fun s =>
  match lookup_walk (heap s) (all_tunnels s) i with
  | Some r => Ok r s
  | None => Fault UseAfterFree
  end.

(** The loop of [tunnel_generate_id], [for (tid = last_tid+1; tid !=
    last_tid; ++tid)] over [unsigned char]: [Some (Some tid)] when the
    body returns [tid], [Some None] when the loop condition fails,
    [None] when [fuel] iterations were not enough. *)
Fixpoint generate_id_loop (fuel : nat) (last tid : Z) : M (option (option Z)) :=
  match fuel with
  | O => mret None
  | S fuel' =>
      if tid =? last then mret (Some None)
      else
        tun ← tunnel_lookup tid;
        match tun with
        | None => set_last_tid tid;; mret (Some (Some tid))
        | Some _ => generate_id_loop fuel' last ((tid + 1) mod 256)
        end
  end.

(** [tunnel_generate_id]; the loop stops within 256 iterations (lemma
    [tunnel_generate_id_fuel]). *)
Definition tunnel_generate_id : M Z :=
  last ← get_last_tid;
  r ← generate_id_loop 256 last ((last + 1) mod 256);
  match r with
  | Some (Some tid) => mret tid
  | _ => mret 255
  end.

(** [tunnel_socksend_event] *)
Definition tunnel_socksend_event (tun : ptr) : M Z :=
  '(ret, w) ← net_write tun;
  if ret <? 0 then mret error_ret else mret 0.

(** The answer [tunnel_connect_event] builds before it writes it:
    the updated [err], the message and its length. *)
Definition connect_answer (tun : ptr) (e : Z)
  : M (Z * r2tmsg_connans_t * Z) :=
  let ans := {| err := R2TERR_GENERIC; af := af connans_zero;
                port := port connans_zero; addr16 := addr16 connans_zero |} in
  let ans_len := 1 in
  if e =? 0 then
    modify tun (set_connected true);;
    r ← net_update_watch tun;
    if r =? 0 then
      t ← deref tun;
      e ← (if negb (length (wio_buf t) =? 0)%nat
           then r ← tunnel_socksend_event tun;
                mret (if r <? 0 then 1 else e)
           else mret e);
      if e =? 0 then
        t ← deref tun;
        let '(ans, ans_len) := netaddr_to_connans (addr t) in
        mret (e, ans, ans_len)
      else mret (e, ans, ans_len)
    else mret (e, ans, ans_len)
  else
    mret (e, {| err := wsa_to_r2t_error e; af := af ans; port := port ans;
                addr16 := addr16 ans |}, ans_len).

(** [tunnel_connect_event] *)
Definition tunnel_connect_event (tun : ptr) (e : Z) : M Z :=
  '(e, ans, ans_len) ← connect_answer tun e;
  t ← deref tun;
  r ← channel_write R2TCMD_CONN (id t) (connans_payload ans ans_len);
  if (0 <=? r) && (err ans =? R2TERR_SUCCESS) then mret 0 else mret (-1).

(** [host_connect] *)
Definition host_connect (tun : ptr) (pref_af : Z) (host : string) (p : Z)
  : M Z :=
  '(ret, k, a, e) ← extern (env_net_client pref_af host p)
        (fun r => Call_net_client pref_af host p (fst (fst (fst r))));
  modify tun (fun t => set_addr a (set_sock k t));;
  t ← deref tun;
  let failed :=
    channel_write R2TCMD_CONN (id t) [wsa_to_r2t_error e];;
    (if 0 <=? ret then net_close (sock t) else mret tt);;
    mret (-1) in
  if 0 <=? ret then
    r ← event_add_tunnel (evt (sock t)) (id t);
    if r =? 0 then
      iobuf_init2 tun;;
      if ret =? 0 then tunnel_connect_event tun 0 else mret ret
    else failed
  else failed.

(** [host_bind] *)
Definition host_bind (tun : ptr) (pref_af : Z) (host : string) (p : Z)
  : M Z :=
  let ans := connans_zero in
  let ans_len := 1 in
  '(ret, k, a, e) ← extern (env_net_server pref_af host p)
        (fun r => Call_net_server pref_af host p (fst (fst (fst r))));
  modify tun (fun t => set_addr a (set_sock k t));;
  t ← deref tun;
  '(ret, ans, ans_len) ←
    (if ret =? 0 then
       let '(ans, ans_len) := netaddr_to_connans (addr t) in
       let ans := {| err := 0; af := af ans; port := port ans;
                     addr16 := addr16 ans |} in
       r ← event_add_tunnel (evt (sock t)) (id t);
       if negb (r =? 0) then
         net_close (sock t);;
         mret (-1, {| err := R2TERR_GENERIC; af := af ans; port := port ans;
                      addr16 := addr16 ans |}, ans_len)
       else mret (ret, ans, ans_len)
     else
       mret (ret, {| err := wsa_to_r2t_error e; af := af ans;
                     port := port ans; addr16 := addr16 ans |}, ans_len));
  r ← channel_write R2TCMD_BIND (id t) (connans_payload ans ans_len);
  if (0 <=? r) && (err ans =? 0) then
    modify tun (fun t => set_server true (set_connected true t));;
    mret 0
  else
    (if ret =? 0 then event_del_tunnel (id t);; net_close (sock t)
     else mret tt);;
    mret (-1).

(** [tunnel_alloc]: [calloc] fails, or hands out an address never used
    before ([new_object]) with every field zero. *)
Definition tunnel_alloc (i : Z) : M (option ptr) :=
  ok ← extern_quiet env_calloc;
  if ok : bool then
    tun ← new_object tunnel_zero;
    modify tun (set_id i);;
    mret (Some tun)
  else mret None.

(** [tunnel_create]; [bind_socket] is the C truth value. *)
Definition tunnel_create (i pref_af : Z) (host : string) (p : Z)
    (bind_socket : Z) : M unit :=
  assert (negb (String.eqb host EmptyString));;
  tun ← tunnel_alloc i;
  match tun with
  | None => mret tt
  | Some tun =>
      ret ← (if 0 <? p then
               if bind_socket =? 0 then host_connect tun pref_af host p
               else host_bind tun pref_af host p
             else process_start tun host);
      if 0 <=? ret then list_add_tail tun else free tun
  end.

(** [tunnel_close] *)
Definition tunnel_close (tun : ptr) : M unit :=
  t ← deref tun;
  list_del tun;;
  event_del_tunnel (id t);;
  (if proc t =? 0 then
     (if server t then mret tt else iobuf_kill2 tun);;
     net_close (sock t)
   else
     CancelIo (rfd t);;
     CancelIo (wfd t);;
     process_stop tun);;
  free tun.

(** [tunnel_sockrecv_event] *)
Definition tunnel_sockrecv_event (tun : ptr) : M Z :=
  '(ret, r) ← net_read tun;
  if ret <? 0 then mret error_ret
  else if 0 <? r then
    f ← channel_forward tun;
    if f <? 0 then mret error_ret else mret 0
  else mret 0.

(** [on_read_completed] *)
Definition on_read_completed (tun : ptr) : M Z := channel_forward tun.

(** Modelled from the spec: [aio_read] of the overlapped I/O driver (not
    part of the sources).  Section 4.3, data-in: bytes read from the pipe
    are added to [rio] and, on a nonzero read, the completion callback is
    run and decides the result. *)
Definition aio_read (tun : ptr) (cb : ptr -> M Z) : M Z :=
  t ← deref tun;
  '(ret, data) ← extern (env_aio_read (rfd t))
                        (fun r => Call_aio_read (rfd t) (fst r));
  if ret <? 0 then mret ret
  else
    match data with
    | [] => mret ret
    | _ => modify tun (fun t => set_rio_buf (rio_buf t ++ data) t);; cb tun
    end.

(** Modelled from the spec: [aio_write] of the overlapped I/O driver (not
    part of the sources).  Section 4.3, data-out: bytes are consumed from
    [wio] to the pipe, a partial write leaves the remainder queued. *)
Definition aio_write (tun : ptr) : M Z :=
  t ← deref tun;
  '(ret, w) ← extern (env_aio_write (wfd t) (wio_buf t))
                     (fun r => Call_aio_write (wfd t) (wio_buf t) (fst r));
  (if 0 <=? ret
   then modify tun (fun t => set_wio_buf (skipn (Z.to_nat w) (wio_buf t)) t)
   else mret tt);;
  mret ret.

(** [tunnel_fdread_event] *)
Definition tunnel_fdread_event (tun : ptr) : M Z :=
  aio_read tun on_read_completed.

(** [tunnel_fdwrite_event] *)
Definition tunnel_fdwrite_event (tun : ptr) : M Z := aio_write tun.

(** [tunnel_accept_event].  The reverse-connect message has the layout
    of the answer with the new tunnel id in place of the error byte,
    which is what the cast of [&msg] relies on. *)
Definition tunnel_accept_event (tun : ptr) : M Z :=
  t ← deref tun;
  '(ret, cli_sock, a) ← extern (env_net_accept (sock t))
        (fun r => Call_net_accept (sock t) (fst (fst r)));
  if negb (ret =? 0) then mret wsaerror_ret
  else
    tid ← tunnel_generate_id;
    if tid =? 255 then net_close cli_sock;; mret 0
    else
      cli ← tunnel_alloc tid;
      match cli with
      | None => net_close cli_sock;; mret 0
      | Some cli =>
          r ← event_add_tunnel (evt cli_sock) tid;
          if negb (r =? 0) then net_close cli_sock;; free cli;; mret 0
          else
            modify cli (fun c =>
              set_id tid (set_connected true
                (set_sock {| fd := fd cli_sock; evt := evt cli_sock |} c)));;
            iobuf_init2 cli;;
            list_add_tail cli;;
            let '(msg, msg_len) := netaddr_to_connans a in
            let msg := {| err := tid; af := af msg; port := port msg;
                          addr16 := addr16 msg |} in
            t ← deref tun;
            w ← channel_write R2TCMD_RCONN (id t) (connans_payload msg msg_len);
            (if w <? 0 then tunnel_close tun else mret tt);;
            mret 0
      end.

(** [tunnel_close_event] *)
Definition tunnel_close_event (tun : ptr) : M Z :=
  t ← deref tun;
  channel_write R2TCMD_CLOSE (id t) [];;
  tunnel_close tun;;
  mret 0.

(** The common end of [tunnel_event]: [if (ret < 0) tunnel_close(tun);
    return 0;]. *)
Definition tunnel_event_end (tun : ptr) (ret : Z) : M Z :=
  (if ret <? 0 then tunnel_close tun else mret tt);;
  mret 0.

(** The handler chosen by the first of the accept, connect and write
    bits of the event set. *)
Definition socket_dispatch (tun : ptr) (ev cerr : Z) : M Z :=
  if negb (Z.land ev FD_ACCEPT =? 0) then tunnel_accept_event tun
  else if negb (Z.land ev FD_CONNECT =? 0) then
    ret ← tunnel_connect_event tun cerr;
    if ret =? 0 then
      t ← deref tun;
      assert (connected t);;
      ret ← tunnel_socksend_event tun;
      if 0 <=? ret then tunnel_sockrecv_event tun else mret ret
    else mret ret
  else if negb (Z.land ev FD_WRITE =? 0) then tunnel_socksend_event tun
  else mret 0.

(** The handlers [tunnel_event] runs for an event set: the dispatched
    one, then the receive handler when the read bit is set and nothing
    failed so far.  The result is the value of [ret] they leave. *)
Definition socket_handlers (tun : ptr) (ev cerr : Z) : M Z :=
  ret ← socket_dispatch tun ev cerr;
  if (0 <=? ret) && negb (Z.land ev FD_READ =? 0)
  then tunnel_sockrecv_event tun else mret ret.

(** The handler [tunnel_event] runs for a process tunnel when a pipe
    event is signalled. *)
Definition pipe_handlers (tun : ptr) (t : tunnel_t) (h : Z) : M Z :=
  if h =? rio_hEvent t then tunnel_fdread_event tun
  else assert (h =? wio_hEvent t);; tunnel_fdwrite_event tun.

(** [tunnel_event]; [h] is the signalled handle. *)
Definition tunnel_event (tun : ptr) (h : Z) : M Z :=
  assert (negb (h =? 0));;
  t ← deref tun;
  if negb (proc t =? 0) then
    if h =? proc t then tunnel_close_event tun
    else
      ret ← pipe_handlers tun t h;
      tunnel_event_end tun ret
  else
    '(q, ev, cerr) ← extern (env_WSAEnumNetworkEvents (sock t))
          (fun r => Call_WSAEnumNetworkEvents (sock t) (fst (fst r)));
    if q =? 0 then
      ret ← socket_handlers tun ev cerr;
      if negb (Z.land ev FD_CLOSE =? 0) then tunnel_close_event tun
      else tunnel_event_end tun ret
    else
      e ← extern_quiet env_WSAGetLastError;
      if negb (e =? ERROR_IO_PENDING) then mret wsaerror_ret
      else tunnel_event_end tun 0.

(** [tunnel_write]; [data] stands for the [len] bytes at [data]. *)
Definition tunnel_write (tun : ptr) (data : list Z) : M Z :=
  assert (negb (length data =? 0)%nat);;
  t ← deref tun;
  let used := length (wio_buf t) in
  ok ← (if (0 <? length data)%nat then iobuf_append tun data else mret true);
  if negb ok then mret error_ret
  else if negb (used =? 0)%nat || negb (connected t) then mret 0
  else if negb (proc t =? 0) then tunnel_fdwrite_event tun
  else
    r ← net_update_watch tun;
    if negb (r =? 0) then mret wsaerror_ret
    else tunnel_socksend_event tun.

(** [tunnels_kill]: [tunnel_close] on every linked tunnel. *)
Definition tunnels_kill : M unit := fun s =>
  (fix go (l : list ptr) : M unit :=
     match l with
     | [] => mret tt
     | p :: l' => tunnel_close p;; go l'
     end) (all_tunnels s) s.

End Tunnel.

(** ** A scripted environment

    An outside world that answers from a script, one entry per call, in
    order; a call that finds no entry of its shape gets a plain success.
    It is used to run the model on concrete scenarios. *)
Inductive answer :=
| AInt (z : Z)
| ABool (b : bool)
| AIntInt (z w : Z)
| ABytes (z : Z) (data : list Z)
| ASock (z : Z) (k : sock_t) (a : netaddr_t) (e : Z)
| AProc (z : Z) (h : proc_handles)
| AEvents (q ev cerr : Z).

Definition script := list answer.

Definition any_addr : netaddr_t :=
  {| sa_family := AF_INET; sin_port := 0;
     sin_addr := [0; 0; 0; 0]; sin6_addr := repeat 0 16 |}.

Definition no_handles : proc_handles :=
  {| ph_proc := 0; ph_rfd := 0; ph_wfd := 0;
     ph_rio_hEvent := 0; ph_wio_hEvent := 0 |}.

Definition tail_of (w : script) : script :=
  match w with [] => [] | _ :: w' => w' end.

Definition script_int (w : script) : Z * script :=
  (match w with AInt z :: _ => z | _ => 0 end, tail_of w).

Definition script_bool (w : script) : bool * script :=
  (match w with ABool b :: _ => b | _ => true end, tail_of w).

Definition script_int_int (w : script) : (Z * Z) * script :=
  (match w with AIntInt z n :: _ => (z, n) | _ => (0, 0) end, tail_of w).

Definition script_bytes (w : script) : (Z * list Z) * script :=
  (match w with ABytes z d :: _ => (z, d) | _ => (0, []) end, tail_of w).

Definition script_sock (w : script) : (Z * sock_t * netaddr_t * Z) * script :=
  (match w with
   | ASock z k a e :: _ => (z, k, a, e)
   | _ => (0, {| fd := 0; evt := 0 |}, any_addr, 0)
   end, tail_of w).

Definition script_accept (w : script) : (Z * sock_t * netaddr_t) * script :=
  (match w with
   | ASock z k a _ :: _ => (z, k, a)
   | _ => (0, {| fd := 0; evt := 0 |}, any_addr)
   end, tail_of w).

Definition script_proc (w : script) : (Z * proc_handles) * script :=
  (match w with AProc z h :: _ => (z, h) | _ => (0, no_handles) end, tail_of w).

Definition script_events (w : script) : (Z * Z * Z) * script :=
  (match w with AEvents q ev c :: _ => (q, ev, c) | _ => (0, 0, 0) end,
   tail_of w).

Lemma minus_one_neg : -1 < 0.
Proof. reflexivity. Defined.

#[global] Instance scripted : Extern script := {|
  error_ret := -1;
  error_ret_neg := minus_one_neg;
  wsaerror_ret := -1;
  wsaerror_ret_neg := minus_one_neg;
  env_calloc := script_bool;
  env_net_client := fun _ _ _ => script_sock;
  env_net_server := fun _ _ _ => script_sock;
  env_net_accept := fun _ => script_accept;
  env_net_write := fun _ _ => script_int_int;
  env_net_read := fun _ => script_bytes;
  env_net_update_watch := fun _ _ => script_int;
  env_channel_write := fun _ _ _ => script_int;
  env_channel_forward := fun _ _ => script_int;
  env_event_add_tunnel := fun _ _ => script_int;
  env_process_start := fun _ => script_proc;
  env_aio_read := fun _ => script_bytes;
  env_aio_write := fun _ _ => script_int_int;
  env_iobuf_append := fun _ _ => script_bool;
  env_WSAEnumNetworkEvents := fun _ => script_events;
  env_WSAGetLastError := script_int
|}.

(** The linked tunnel objects, in list order, and their ids. *)
Definition linked_tunnels {W} (s : state W) : list tunnel_t :=
  omap (fun p => heap s !! p) (all_tunnels s).

Definition registry_ids {W} (s : state W) : list Z :=
  id <$> linked_tunnels s.

Definition scenario_addr : netaddr_t :=
  {| sa_family := AF_INET; sin_port := 8080;
     sin_addr := [127; 0; 0; 1]; sin6_addr := repeat 0 16 |}.

Definition scenario_sock : sock_t := {| fd := 7; evt := 9 |}.

(** ** Specification vocabulary *)

Section Vocabulary.
Context {W : Type} {X : Extern W}.

(** Total correctness: the computation returns from [s], and its result
    and final state satisfy [Q]. *)
Definition wp {A} (m : M W A) (Q : A -> state W -> Prop) (s : state W) : Prop :=
  exists a s', m s = Ok a s' /\ Q a s'.

(** A tunnel is live when its object is allocated. *)
Definition live (s : state W) (p : ptr) : Prop := is_Some (heap s !! p).

(** The registry of a well-formed state: the linked tunnels are exactly
    the live ones, each linked once, no two with the same id, and every
    address in use was handed out by the allocator. *)
Record registry_ok (s : state W) : Prop := {
  reg_nodup : NoDup (all_tunnels s);
  reg_live : forall p, p ∈ all_tunnels s <-> live s p;
  reg_ids : NoDup (registry_ids s);
  reg_fresh : forall p, live s p -> (p < next_ptr s)%positive
}.

(** Between two states no tunnel object changed its id. *)
Definition ids_stable (s s' : state W) : Prop :=
  forall p t t', heap s !! p = Some t -> heap s' !! p = Some t' -> id t' = id t.

(** A close record on the channel. *)
Definition is_close (c : call) : Prop :=
  match c with
  | Call_channel_write R2TCMD_CLOSE _ _ _ => True
  | _ => False
  end.

(** Any record on the channel: an answer, a close, or forwarded data. *)
Definition is_record (c : call) : Prop :=
  match c with
  | Call_channel_write _ _ _ _ => True
  | Call_channel_forward _ _ _ => True
  | _ => False
  end.

(** The calls made between two states. *)
Definition calls_between (s s' : state W) (l : list call) : Prop :=
  trace s' = trace s ++ l.

(** [s'] comes from [s] by work on the tunnel [tun] alone: every other
    object, the list, the allocator and [last_tid] are as before; [tun]
    keeps its id and stays connected if it was; no close record was
    written. *)
Record evolves (tun : ptr) (s s' : state W) : Prop := {
  ev_others : forall q, q <> tun -> heap s' !! q = heap s !! q;
  ev_tun : forall t, heap s !! tun = Some t ->
           exists t', heap s' !! tun = Some t' /\ id t' = id t /\
                      (connected t = true -> connected t' = true);
  ev_list : all_tunnels s' = all_tunnels s;
  ev_next : next_ptr s' = next_ptr s;
  ev_last : last_tid s' = last_tid s;
  ev_trace : exists l, calls_between s s' l /\ Forall (fun c => ~ is_close c) l
}.

(** Every tunnel other than [tun] that was there before is there after,
    unchanged and still linked. *)
Definition others_untouched (tun : ptr) (s s' : state W) : Prop :=
  forall q t, q <> tun -> heap s !! q = Some t ->
    heap s' !! q = Some t /\ (q ∈ all_tunnels s -> q ∈ all_tunnels s').

(** The tunnel is gone: unlinked and freed. *)
Definition destroyed (s : state W) (tun : ptr) : Prop :=
  (tun ∉ all_tunnels s) /\ heap s !! tun = None.

End Vocabulary.

Section VocabularyRegistry.
Context {W : Type}.

(** The ids read off a list of addresses in a heap. *)
Definition ids_of (h : gmap ptr tunnel_t) (l : list ptr) : list Z :=
  id <$> omap (fun p => h !! p) l.

(** Two states differ at most in [last_tid]. *)
Record only_last_tid (s s' : state W) : Prop := {
  ol_heap : heap s' = heap s;
  ol_list : all_tunnels s' = all_tunnels s;
  ol_next : next_ptr s' = next_ptr s;
  ol_trace : trace s' = trace s;
  ol_world : world s' = world s
}.

(** [tun] was freed and unlinked between [s] and [s']. *)
Record removed (tun : ptr) (s s' : state W) : Prop := {
  rm_heap : heap s' = delete tun (heap s);
  rm_list : all_tunnels s' = filter (fun q => q ≠ tun) (all_tunnels s);
  rm_next : next_ptr s' = next_ptr s;
  rm_last : last_tid s' = last_tid s
}.

(** [s'] comes from [s] by [tunnel_close tun]: the object is freed and
    unlinked, nothing is written on the channel. *)
Record closed (tun : ptr) (s s' : state W) : Prop := {
  cl_heap : heap s' = delete tun (heap s);
  cl_list : all_tunnels s' = filter (fun q => q ≠ tun) (all_tunnels s);
  cl_next : next_ptr s' = next_ptr s;
  cl_last : last_tid s' = last_tid s;
  cl_trace : exists l, calls_between s s' l /\ Forall (fun c => ~ is_record c) l
}.

End VocabularyRegistry.

Section VocabularyCreate.
Context {W : Type} {X : Extern W}.

(** What [tunnel_create] leaves: the registry as it was, or with one
    more tunnel of the given id at its tail; the tunnels that were there
    are as they were. *)
Record created (i : Z) (s s' : state W) : Prop := {
  cr_ok : registry_ok s';
  cr_ids : ids_stable s s';
  cr_old : forall p t, heap s !! p = Some t -> heap s' !! p = Some t;
  cr_list : all_tunnels s' = all_tunnels s \/
            exists t', all_tunnels s' = all_tunnels s ++ [next_ptr s] /\
                       heap s' !! next_ptr s = Some t' /\ id t' = i
}.

End VocabularyCreate.

Section VocabularyAccept.
Context {W : Type} {X : Extern W}.

(** What [tunnel_accept_event] on the listener [tun] leaves. *)
Record accepted (tun : ptr) (s : state W) (r : Z) (s' : state W) : Prop := {
  acc_ok : registry_ok s';
  acc_ids : ids_stable s s';
  acc_others : others_untouched tun s s';
  acc_trace : exists l, calls_between s s' l /\ Forall (fun c => ~ is_close c) l;
  acc_tun : (r = 0 /\ destroyed s' tun) \/
            (heap s' !! tun = heap s !! tun /\ tun ∈ all_tunnels s');
  acc_ret : r = 0 \/ r = wsaerror_ret;
  acc_new : forall i, i ∈ registry_ids s' -> i ∈ registry_ids s \/ i <> 255
}.

End VocabularyAccept.

Section VocabularyEvent.
Context {W : Type} {X : Extern W}.

(** The query of the socket's event set that opens [tunnel_event] on a
    socket tunnel. *)
Definition query_events (t : tunnel_t) : M W (Z * Z * Z) :=
  extern (env_WSAEnumNetworkEvents (sock t))
         (fun r => Call_WSAEnumNetworkEvents (sock t) (fst (fst r))).

(** The query fails, and not because I/O is pending. *)
Definition query_failed (t : tunnel_t) (w : W) : bool :=
  let '(q, _, _, w1) := env_WSAEnumNetworkEvents (sock t) w in
  negb (q =? 0) && negb (fst (env_WSAGetLastError w1) =? ERROR_IO_PENDING).

(** The event tells that the endpoint is gone: the process handle is
    signalled, or the event set of the socket carries the close bit. *)
Definition close_signalled (t : tunnel_t) (h : Z) (w : W) : bool :=
  if negb (proc t =? 0) then h =? proc t
  else
    let '(q, ev, _, _) := env_WSAEnumNetworkEvents (sock t) w in
    (q =? 0) && negb (Z.land ev FD_CLOSE =? 0).

(** The events [tunnel_event] is called with: the handle is not null;
    for a process tunnel it is one of the three handles of the tunnel;
    for a socket, an event set with the accept bit (a listener's) has
    neither the read nor the close bit. *)
Definition event_expected (t : tunnel_t) (h : Z) (w : W) : Prop :=
  h <> 0 /\
  if negb (proc t =? 0)
  then h = proc t \/ h = rio_hEvent t \/ h = wio_hEvent t
  else
    let '(q, ev, _, _) := env_WSAEnumNetworkEvents (sock t) w in
    q = 0 -> Z.land ev FD_ACCEPT <> 0 ->
    Z.land ev FD_READ = 0 /\ Z.land ev FD_CLOSE = 0.

(** The handlers [tunnel_event] runs for the event return a negative
    value. *)
Definition handlers_fail (tun : ptr) (t : tunnel_t) (h : Z) (s : state W)
  : Prop :=
  if negb (proc t =? 0) then
    h <> proc t /\
    exists ret s2, pipe_handlers tun t h s = Ok ret s2 /\ ret < 0
  else
    exists q ev cerr s1 ret s2,
      query_events t s = Ok (q, ev, cerr) s1 /\ q = 0 /\
      socket_handlers tun ev cerr s1 = Ok ret s2 /\ ret < 0.

(** What the handlers of one event leave: the registry is well formed,
    no other tunnel was touched, no close record was written, and [tun]
    is still linked with its id, unless ([gone]) it was destroyed with
    [ret = 0]. *)
Record handlers_done (tun : ptr) (i : Z) (gone : Prop)
    (s : state W) (ret : Z) (s' : state W) : Prop := {
  hdn_ok : registry_ok s';
  hdn_others : others_untouched tun s s';
  hdn_trace : exists l, calls_between s s' l /\ Forall (fun c => ~ is_close c) l;
  hdn_tun : (ret = 0 /\ destroyed s' tun /\ gone) \/
            (exists t', heap s' !! tun = Some t' /\ id t' = i /\
                        tun ∈ all_tunnels s')
}.

(** What [tunnel_event] leaves.  With [closing], one close record for
    the tunnel's id was written, after which nothing else went to the
    channel, and the tunnel is destroyed; without, no close record was
    written. *)
Record handled (tun : ptr) (i : Z) (closing : bool)
    (s s' : state W) : Prop := {
  hd_ok : registry_ok s';
  hd_others : others_untouched tun s s';
  hd_trace : exists l, calls_between s s' l /\
    if closing then
      exists l1 ret l2,
        l = l1 ++ Call_channel_write R2TCMD_CLOSE i [] ret :: l2 /\
        Forall (fun c => ~ is_close c) l1 /\
        Forall (fun c => ~ is_record c) l2
    else Forall (fun c => ~ is_close c) l;
  hd_closing : closing = true -> destroyed s' tun
}.

End VocabularyEvent.

Section VocabularyWrite.
Context {W : Type} {X : Extern W}.

(** The calls by which [tunnel.c] drains [wio] to the endpoint.  A
    socket drain starts with the update of the socket's watch and goes
    on with [net_write]; a pipe drain is [aio_write]. *)
Definition is_drain (c : call) : Prop :=
  match c with
  | Call_net_update_watch _ _ => True
  | Call_net_write _ _ _ => True
  | Call_aio_write _ _ _ => True
  | _ => False
  end.

(** [tunnel_write] may drain at once: the tunnel is established and
    [wio] is empty. *)
Definition drains_at_once (t : tunnel_t) : bool :=
  connected t && (length (wio_buf t) =? 0)%nat.

(** The calls a drain of the buffer [buf] of tunnel [t] consists of. *)
Definition drain_calls (t : tunnel_t) (buf : list Z) (l : list call) : Prop :=
  if negb (proc t =? 0) then
    exists ret, l = [Call_aio_write (wfd t) buf ret]
  else
    (exists ru, ru <> 0 /\ l = [Call_net_update_watch (sock t) ru]) \/
    (exists ret, l = [Call_net_update_watch (sock t) 0;
                      Call_net_write (sock t) buf ret]).

(** What [tunnel_write] of accepted bytes leaves: the tunnel object with
    the bytes appended to [wio], less what a drain already took. *)
Record written (tun : ptr) (t : tunnel_t) (data : list Z)
    (s : state W) (r : Z) (s' : state W) : Prop := {
  wr_tun : exists t' n, heap s' !! tun = Some t' /\
             wio_buf t' = skipn n (wio_buf t ++ data) /\
             (drains_at_once t = false -> n = 0%nat);
  wr_calls : exists l, calls_between s s' l /\
             if drains_at_once t then drain_calls t (wio_buf t ++ data) l
             else l = [] /\ r = 0
}.

End VocabularyWrite.

Definition is_ipv4 (a : netaddr_t) : Prop :=
  netaddr_af a = AF_INET /\ length (sin_addr a) = 4%nat.

Definition is_ipv6 (a : netaddr_t) : Prop :=
  netaddr_af a = AF_INET6 /\ length (sin6_addr a) = 16%nat.

Section VocabularyBind.
Context {W : Type} {X : Extern W}.

(** The environment lets a bind request through: memory, the socket
    bound to [a] on [k], the registration of its event and the answer on
    the channel (returning [cw]), one after the other from the world [w]. *)
Definition bind_succeeds (i pref_af : Z) (host : string) (n : Z)
    (k : sock_t) (a : netaddr_t) (cw : Z) (w : W) : Prop :=
  exists w1 w2 w3 w4 e,
    env_calloc w = (true, w1) /\
    env_net_server pref_af host n w1 = (0, k, a, e, w2) /\
    env_event_add_tunnel (evt k) i w2 = (0, w3) /\
    env_channel_write R2TCMD_BIND i
      (connans_payload (fst (netaddr_to_connans a)) (snd (netaddr_to_connans a)))
      w3 = (cw, w4) /\
    0 <= cw.

(** A call that starts a child process. *)
Definition is_process_start (c : call) : Prop :=
  match c with Call_process_start _ _ => True | _ => False end.

End VocabularyBind.

(** ** Concrete scenarios, run in the scripted environment *)

(** An established tcp-client tunnel with id 5 at address 1, empty
    buffers, and the script [w] still to be played. *)
Definition client_tunnel : tunnel_t :=
  {| id := 5; connected := true; server := false; proc := 0;
     sock := scenario_sock; addr := scenario_addr; rfd := 0; wfd := 0;
     rio_buf := []; rio_hEvent := 0; wio_buf := []; wio_hEvent := 0 |}.

Definition one_tunnel (t : tunnel_t) (last : Z) (w : script) : state script :=
  {| heap := {[ 1%positive := t ]}; next_ptr := 2%positive;
     all_tunnels := [1%positive]; last_tid := last; trace := [];
     world := w |}.

(** A pending tcp-client tunnel holding two bytes. *)
Definition pending_tunnel : tunnel_t :=
  {| id := 5; connected := false; server := false; proc := 0;
     sock := scenario_sock; addr := scenario_addr; rfd := 0; wfd := 0;
     rio_buf := []; rio_hEvent := 0; wio_buf := [104; 105]; wio_hEvent := 0 |}.

(** The state a run ends in ([d] when it does not return). *)
Definition state_of {A} (r : result (state script) A) (d : state script)
  : state script :=
  match r with Ok _ s => s | Fault _ => d end.

(** A bind request for port 0: [calloc] succeeds and the rest answers
    success. *)
Definition bind_port0 : result (state script) unit :=
  tunnel_create 32 1 "0.0.0.0" 0 1 (init_state [ABool true; AProc 0 no_handles]).

(** A bind request for port 4000 that succeeds: the listener is bound to
    [scenario_addr]. *)
Definition bind_port4000 : result (state script) unit :=
  tunnel_create 32 1 "0.0.0.0" 4000 1
    (init_state [ABool true; ASock 0 scenario_sock scenario_addr 0;
                 AInt 0; AInt 0]).

(** Two connect requests with the same id 5, both in progress. *)
Definition connect_twice : result (state script) unit :=
  (tunnel_create 5 1 "host" 80 0;; tunnel_create 5 1 "host" 80 0)
    (init_state [ABool true; ASock 1 scenario_sock scenario_addr 0; AInt 0;
                 ABool true; ASock 1 scenario_sock scenario_addr 0; AInt 0]).

(** A connect request that completes at once: tunnel 5 is established
    to [scenario_addr] and the success answer is written. *)
Definition connect_done : result (state script) unit :=
  tunnel_create 5 1 "host" 80 0
    (init_state [ABool true; ASock 0 scenario_sock scenario_addr 0;
                 AInt 0; AInt 0; AInt 0]).

(** The program after the bind request for port 4000: the listener
    0x20 at address 1. *)
Definition listening_state : state script :=
  state_of bind_port4000 (init_state []).

(** One accepted connection on the listener at address 1: the event set
    with the accept bit, then successes. *)
Definition accept_script : script :=
  [AEvents 0 FD_ACCEPT 0; AInt 0; ABool true; AInt 0; AInt 0].

(** [n] events on the listener at address 1, one after the other; the
    record of calls is restarted at each event. *)
Fixpoint accept_events (n : nat) (s : state script) : state script :=
  match n with
  | O => s
  | S n' =>
      let s1 := accept_events n' s in
      state_of (tunnel_event 1%positive 9
                  {| heap := heap s1; next_ptr := next_ptr s1;
                     all_tunnels := all_tunnels s1; last_tid := last_tid s1;
                     trace := []; world := accept_script |}) s1
  end.

(** The listener 0x20 after 254 accepted connections, which took the
    ids 0..0xfe but 0x20 and left [last_tid = 0xfe]; then the peer of
    the first of them (id 0, address 2) closes, which frees id 0. *)
Definition busy_state : state script :=
  let s1 := accept_events 254 listening_state in
  state_of (tunnel_event 2%positive 9
              {| heap := heap s1; next_ptr := next_ptr s1;
                 all_tunnels := all_tunnels s1; last_tid := last_tid s1;
                 trace := []; world := [AEvents 0 FD_CLOSE 0] |}) s1.

(** One more connection arrives at the listener of [busy_state]. *)
Definition busy_accept : result (state script) Z :=
  tunnel_event 1%positive 9
    {| heap := heap busy_state; next_ptr := next_ptr busy_state;
       all_tunnels := all_tunnels busy_state; last_tid := last_tid busy_state;
       trace := []; world := accept_script |}.

(** A read event on the established tunnel 5 whose [net_read] fails. *)
Definition read_error : result (state script) Z :=
  tunnel_event 1%positive 9
    (one_tunnel client_tunnel 255 [AEvents 0 FD_READ 0; ABytes (-1) []]).

(** Two bytes written to the established tunnel 5, whose buffer is
    empty, when [iobuf_append] refuses them. *)
Definition write_refused : result (state script) Z :=
  tunnel_write 1%positive [104; 105]
    (one_tunnel client_tunnel 255 [ABool false]).

(** A bind request whose socket is bound to [scenario_addr] but whose
    event cannot be registered. *)
Definition bind_unregistered : result (state script) Z :=
  host_bind 1%positive 1 "0.0.0.0" 4000
    (one_tunnel (set_id 32 tunnel_zero) 255
       [ASock 0 scenario_sock scenario_addr 0; AInt 1; AInt 0]).

Section VocabularyHandlers.
Context {W : Type} {X : Extern W}.

(** A computation works on [tun] alone: started in a state reached from
    [s0] by work on [tun], with [tun] live, it returns, and its final
    state is again reached from [s0] by work on [tun]; [R] is what is
    known in addition about its result. *)
Definition respects {A} (tun : ptr) (m : M W A) (R : A -> state W -> Prop)
  : Prop :=
  forall s0 s (Q : A -> state W -> Prop),
    evolves tun s0 s -> live s0 tun ->
    (forall a s', evolves tun s0 s' -> R a s' -> Q a s') ->
    wp m Q s.

Definition anything {A} : A -> state W -> Prop := fun _ _ => True.

(** An update of a tunnel object that keeps its id and does not
    disconnect it. *)
Definition keeps (f : tunnel_t -> tunnel_t) : Prop :=
  forall t, id (f t) = id t /\ (connected t = true -> connected (f t) = true).

Definition connected_at (tun : ptr) (s : state W) : Prop :=
  exists t, heap s !! tun = Some t /\ connected t = true.

End VocabularyHandlers.

(** ** Vocabulary of the teardown and of the identifier scan *)

Section VocabularyTeardown.
Context {W : Type} {X : Extern W}.

(** The loop of [tunnels_kill] over the nodes of the list. *)
Fixpoint close_each (l : list ptr) : M W unit :=
  match l with
  | [] => mret tt
  | p :: l' => tunnel_close p;; close_each l'
  end.

(** The calls by which [tunnel_close] releases what the tunnel [t]
    owns: its registration with the event engine, then the socket of a
    socket tunnel, or the two pipes and the child of a process tunnel. *)
Definition close_calls (t : tunnel_t) : list call :=
  Call_event_del_tunnel (id t) ::
  (if proc t =? 0 then [Call_net_close (sock t)]
   else [Call_CancelIo (rfd t); Call_CancelIo (wfd t);
         Call_process_stop (proc t)]).

(** The state after the assignment [last_tid = tid]. *)
Definition with_last_tid (tid : Z) (s : state W) : state W :=
  {| heap := heap s; next_ptr := next_ptr s; all_tunnels := all_tunnels s;
     last_tid := tid; trace := trace s; world := world s |}.

(** [tid] is the first id after [last_tid], in the cyclic order of
    [unsigned char] and short of [last_tid] itself, that no linked
    tunnel has; it is [k] steps away. *)
Definition first_free (s : state W) (k tid : Z) : Prop :=
  1 <= k < 256 /\ tid = (last_tid s + k) mod 256 /\
  (tid ∉ registry_ids s) /\
  forall j, 1 <= j < k -> (last_tid s + j) mod 256 ∈ registry_ids s.

(** Every id other than [last_tid] is the id of a linked tunnel. *)
Definition all_in_use (s : state W) : Prop :=
  forall j, 1 <= j < 256 -> (last_tid s + j) mod 256 ∈ registry_ids s.

(** The reverse-connect message that announces the tunnel [tid] accepted
    from the address [a]: the layout of the answer, with the id of the
    new tunnel in the place of the error byte. *)
Definition rconn_payload (tid : Z) (a : netaddr_t) : list Z :=
  let '(msg, msg_len) := netaddr_to_connans a in
  connans_payload {| err := tid; af := af msg; port := port msg;
                     addr16 := addr16 msg |} msg_len.

(** The environment lets a connection to the listener [t] through up to
    the message on the channel: the accept gives the socket [k] of the
    peer [a], then memory and the registration of the socket's event
    under the id [tid] succeed, and the channel answers [cw] to the
    message, one after the other from the world [w]. *)
Definition accept_passes (t : tunnel_t) (tid : Z) (k : sock_t)
    (a : netaddr_t) (cw : Z) (w : W) : Prop :=
  exists w1 w2 w3 w4,
    env_net_accept (sock t) w = (0, k, a, w1) /\
    env_calloc w1 = (true, w2) /\
    env_event_add_tunnel (evt k) tid w2 = (0, w3) /\
    env_channel_write R2TCMD_RCONN (id t) (rconn_payload tid a) w3 = (cw, w4).

(** The same, with the message taken by the channel. *)
Definition accept_succeeds (t : tunnel_t) (tid : Z) (k : sock_t)
    (a : netaddr_t) (cw : Z) (w : W) : Prop :=
  accept_passes t tid k a cw w /\ 0 <= cw.

End VocabularyTeardown.

(** The success answer for the address [a], as [channel_write] gets it
    from [netaddr_to_connans]. *)
Definition success_answer (a : netaddr_t) : list Z :=
  connans_payload (fst (netaddr_to_connans a)) (snd (netaddr_to_connans a)).

(** A failure answer: the single error byte [b], which is one of the
    error codes and not the success code. *)
Definition failure_answer (payload : list Z) (b : Z) : Prop :=
  payload = [b] /\ 1 <= b <= 5.

Section VocabularyAnswer.
Context {W : Type} {X : Extern W}.

(** What [tunnel_connect_event] has done when it is about to write its
    answer. *)
Definition answer_ready (tun : ptr) (t : tunnel_t) (e : Z) (s : state W)
    (r : Z * r2tmsg_connans_t * Z) (s1 : state W) : Prop :=
  exists l t1,
    calls_between s s1 l /\ Forall (fun c => ~ is_record c) l /\
    heap s1 !! tun = Some t1 /\ id t1 = id t /\
    (forall q, q <> tun -> heap s1 !! q = heap s !! q) /\
    all_tunnels s1 = all_tunnels s /\
    ((err (snd (fst r)) = 0 /\ e = 0 /\ connected t1 = true /\
      connans_payload (snd (fst r)) (snd r) = success_answer (addr t)) \/
     (err (snd (fst r)) <> 0 /\
      failure_answer (connans_payload (snd (fst r)) (snd r)) (err (snd (fst r))) /\
      (e <> 0 -> err (snd (fst r)) = wsa_to_r2t_error e /\ s1 = s))).

(** The environment lets a connect request through at once: memory,
    the socket [k] connected to [a], the registration of its event, the
    update of its watch and the answer on the channel (returning [cw]),
    one after the other from the world [w]. *)
Definition connect_succeeds (i pref_af : Z) (host : string) (n : Z)
    (k : sock_t) (a : netaddr_t) (cw : Z) (w : W) : Prop :=
  exists w1 w2 w3 w4 w5 e,
    env_calloc w = (true, w1) /\
    env_net_client pref_af host n w1 = (0, k, a, e, w2) /\
    env_event_add_tunnel (evt k) i w2 = (0, w3) /\
    env_net_update_watch k [] w3 = (0, w4) /\
    env_channel_write R2TCMD_CONN i (success_answer a) w4 = (cw, w5) /\
    0 <= cw.

(** The environment starts a connect that does not complete at once:
    memory, the socket [k] connecting to [a] ([ret > 0]) and the
    registration of its event. *)
Definition connect_pending (i pref_af : Z) (host : string) (n ret : Z)
    (k : sock_t) (a : netaddr_t) (w : W) : Prop :=
  exists w1 w2 w3 e,
    env_calloc w = (true, w1) /\
    env_net_client pref_af host n w1 = (ret, k, a, e, w2) /\
    env_event_add_tunnel (evt k) i w2 = (0, w3) /\
    0 < ret.

End VocabularyAnswer.

(** ** Further scenarios *)

(** A listener with id 0x20 bound to [scenario_addr]. *)
Definition listener_tunnel : tunnel_t :=
  {| id := 32; connected := true; server := true; proc := 0;
     sock := scenario_sock; addr := scenario_addr; rfd := 0; wfd := 0;
     rio_buf := []; rio_hEvent := 0; wio_buf := []; wio_hEvent := 0 |}.

(** A process tunnel with id 7: the child 11, its pipes 12 and 13 and
    the events 14 and 15 of their overlapped I/O. *)
Definition process_tunnel : tunnel_t :=
  {| id := 7; connected := true; server := false; proc := 11;
     sock := {| fd := 0; evt := 0 |}; addr := addr tunnel_zero;
     rfd := 12; wfd := 13;
     rio_buf := []; rio_hEvent := 14; wio_buf := []; wio_hEvent := 15 |}.

(** A pending tcp-client tunnel with id 5 and empty buffers. *)
Definition connecting_tunnel : tunnel_t :=
  {| id := 5; connected := false; server := false; proc := 0;
     sock := scenario_sock; addr := scenario_addr; rfd := 0; wfd := 0;
     rio_buf := []; rio_hEvent := 0; wio_buf := []; wio_hEvent := 0 |}.

(** The socket and the address of a peer that connects to the listener. *)
Definition peer_sock : sock_t := {| fd := 21; evt := 22 |}.

Definition peer_addr : netaddr_t :=
  {| sa_family := AF_INET; sin_port := 5000;
     sin_addr := [10; 0; 0; 2]; sin6_addr := repeat 0 16 |}.

(** ** Vocabulary of the reports of [tunnel_event] *)

(** A call of the teardown of a tunnel: those [tunnel_close] makes. *)
Definition is_teardown (c : call) : Prop :=
  match c with
  | Call_event_del_tunnel _ => True
  | Call_net_close _ => True
  | Call_CancelIo _ => True
  | Call_process_stop _ => True
  | _ => False
  end.

(** A call of the handlers: neither a close record nor a call of the
    teardown. *)
Definition is_handler_call (c : call) : Prop :=
  ~ is_close c /\ ~ is_teardown c.

Section VocabularyReport.
Context {W : Type} {X : Extern W}.

(** Every call a computation makes, when it returns, satisfies [P]. *)
Definition emits (P : call -> Prop) {A} (m : M W A) : Prop :=
  forall s a s', m s = Ok a s' ->
    exists l, calls_between s s' l /\ Forall P l.

(** What [tunnel_event] on the tunnel [tun], whose object was [t],
    leaves, [l] being the calls it made.  The registry is well formed
    and no other tunnel was touched.  With [closing], the tunnel is
    destroyed and the calls are, in this order: the calls of the
    handlers, among them no close record and no call of the teardown;
    one close record for the tunnel's id, with an empty payload; the
    calls of the teardown, which end the list.  Without [closing], no
    close record was written; if moreover the handlers failed
    ([failing]), the tunnel is destroyed and the calls of its teardown
    end the list. *)
Record reported (tun : ptr) (t : tunnel_t) (closing : bool) (failing : Prop)
    (s s' : state W) (l : list call) : Prop := {
  rp_ok : registry_ok s';
  rp_others : others_untouched tun s s';
  rp_calls : calls_between s s' l;
  rp_closing : closing = true ->
    destroyed s' tun /\
    exists l1 ret t',
      l = l1 ++ Call_channel_write R2TCMD_CLOSE (id t) [] ret :: close_calls t' /\
      id t' = id t /\ Forall is_handler_call l1;
  rp_quiet : closing = false -> Forall (fun c => ~ is_close c) l;
  rp_failing : closing = false -> failing ->
    destroyed s' tun /\
    exists l1 t', l = l1 ++ close_calls t' /\ id t' = id t
}.

End VocabularyReport.

(** * Basic facts *)

(** The error byte is never the success code. *)
Lemma wsa_to_r2t_error_nonzero (e : Z) : wsa_to_r2t_error e <> 0.
Proof.
  unfold wsa_to_r2t_error.
  repeat match goal with |- context [if ?b then _ else _] => destruct b end;
    discriminate.
Qed.

Lemma wsa_to_r2t_error_range (e : Z) : 1 <= wsa_to_r2t_error e <= 5.
Proof.
  unfold wsa_to_r2t_error.
  repeat match goal with |- context [if ?b then _ else _] => destruct b end;
    cbv; split; discriminate.
Qed.


(** * Reasoning rules *)

Section Rules.
Context {W : Type} {X : Extern W}.
Implicit Types (s : state W) (p tun : ptr).

Lemma wp_ret {A} (a : A) (Q : A -> state W -> Prop) s :
  Q a s -> wp (mret a : M W A) Q s.
Proof. intros H. exists a, s. split; [reflexivity | exact H]. Qed.

Lemma wp_bind {A B} (m : M W A) (f : A -> M W B) (Q : B -> state W -> Prop) s :
  wp m (fun a s' => wp (f a) Q s') s -> wp (m ≫= f) Q s.
Proof.
  intros (a & s1 & Hm & b & s2 & Hf & HQ).
  exists b, s2. split; [|exact HQ].
  unfold mbind, M_bind. rewrite Hm. exact Hf.
Qed.

Lemma wp_mono {A} (m : M W A) (Q Q' : A -> state W -> Prop) s :
  wp m Q s -> (forall a s', Q a s' -> Q' a s') -> wp m Q' s.
Proof. intros (a & s1 & Hm & HQ) H. exists a, s1. auto. Qed.

Lemma wp_assert (c : bool) (Q : unit -> state W -> Prop) s :
  c = true -> Q tt s -> wp (assert c) Q s.
Proof. intros -> H. exists tt, s. split; [reflexivity | exact H]. Qed.

Lemma wp_deref p t (Q : tunnel_t -> state W -> Prop) s :
  heap s !! p = Some t -> Q t s -> wp (deref p) Q s.
Proof.
  intros Hp H. exists t, s. split; [|exact H].
  unfold deref. rewrite Hp. reflexivity.
Qed.

Lemma wp_modify p f t (Q : unit -> state W -> Prop) s :
  heap s !! p = Some t ->
  Q tt {| heap := <[p := f t]> (heap s); next_ptr := next_ptr s;
          all_tunnels := all_tunnels s; last_tid := last_tid s;
          trace := trace s; world := world s |} ->
  wp (modify p f) Q s.
Proof.
  intros Hp H. eexists _, _. split; [|exact H].
  unfold modify. rewrite Hp. reflexivity.
Qed.

Lemma wp_free p t (Q : unit -> state W -> Prop) s :
  heap s !! p = Some t ->
  Q tt {| heap := delete p (heap s); next_ptr := next_ptr s;
          all_tunnels := all_tunnels s; last_tid := last_tid s;
          trace := trace s; world := world s |} ->
  wp (free p) Q s.
Proof.
  intros Hp H. eexists _, _. split; [|exact H].
  unfold free. rewrite Hp. reflexivity.
Qed.

Lemma wp_extern {A} (f : W -> A * W) (c : A -> call)
    (Q : A -> state W -> Prop) s :
  (forall a w, f (world s) = (a, w) ->
     Q a {| heap := heap s; next_ptr := next_ptr s;
            all_tunnels := all_tunnels s; last_tid := last_tid s;
            trace := trace s ++ [c a]; world := w |}) ->
  wp (extern f c) Q s.
Proof.
  intros H. unfold wp, extern.
  destruct (f (world s)) as [a w] eqn:E.
  eexists _, _. split; [reflexivity | apply H; reflexivity].
Qed.

Lemma wp_extern_quiet {A} (f : W -> A * W) (Q : A -> state W -> Prop) s :
  (forall a w, f (world s) = (a, w) ->
     Q a {| heap := heap s; next_ptr := next_ptr s;
            all_tunnels := all_tunnels s; last_tid := last_tid s;
            trace := trace s; world := w |}) ->
  wp (extern_quiet f) Q s.
Proof.
  intros H. unfold wp, extern_quiet.
  destruct (f (world s)) as [a w] eqn:E.
  eexists _, _. split; [reflexivity | apply H; reflexivity].
Qed.

Lemma wp_extern_eq {A} (f : W -> A * W) (c : A -> call)
    (Q : A -> state W -> Prop) s a w :
  f (world s) = (a, w) ->
  Q a {| heap := heap s; next_ptr := next_ptr s;
         all_tunnels := all_tunnels s; last_tid := last_tid s;
         trace := trace s ++ [c a]; world := w |} ->
  wp (extern f c) Q s.
Proof.
  intros E H. apply wp_extern. intros a' w' E'.
  rewrite E in E'. inversion E'; subst. exact H.
Qed.

Lemma wp_extern_quiet_eq {A} (f : W -> A * W) (Q : A -> state W -> Prop) s a w :
  f (world s) = (a, w) ->
  Q a {| heap := heap s; next_ptr := next_ptr s;
         all_tunnels := all_tunnels s; last_tid := last_tid s;
         trace := trace s; world := w |} ->
  wp (extern_quiet f) Q s.
Proof.
  intros E H. apply wp_extern_quiet. intros a' w' E'.
  rewrite E in E'. inversion E'; subst. exact H.
Qed.

Lemma wp_emit (c : call) (Q : unit -> state W -> Prop) s :
  Q tt {| heap := heap s; next_ptr := next_ptr s;
          all_tunnels := all_tunnels s; last_tid := last_tid s;
          trace := trace s ++ [c]; world := world s |} ->
  wp (emit c) Q s.
Proof. intros H. eexists _, _. split; [reflexivity | exact H]. Qed.

Lemma wp_list_add_tail p (Q : unit -> state W -> Prop) s :
  Q tt {| heap := heap s; next_ptr := next_ptr s;
          all_tunnels := all_tunnels s ++ [p]; last_tid := last_tid s;
          trace := trace s; world := world s |} ->
  wp (list_add_tail p) Q s.
Proof. intros H. eexists _, _. split; [reflexivity | exact H]. Qed.

Lemma wp_list_del p (Q : unit -> state W -> Prop) s :
  p ∈ all_tunnels s ->
  Q tt {| heap := heap s; next_ptr := next_ptr s;
          all_tunnels := filter (fun q => q ≠ p) (all_tunnels s);
          last_tid := last_tid s; trace := trace s; world := world s |} ->
  wp (list_del p) Q s.
Proof.
  intros Hp H. eexists _, _. split; [|exact H].
  unfold list_del. destruct (decide (p ∈ all_tunnels s)); [reflexivity|].
  contradiction.
Qed.

Lemma wp_new_object (t : tunnel_t) (Q : ptr -> state W -> Prop) s :
  Q (next_ptr s)
    {| heap := <[next_ptr s := t]> (heap s);
       next_ptr := Pos.succ (next_ptr s);
       all_tunnels := all_tunnels s; last_tid := last_tid s;
       trace := trace s; world := world s |} ->
  wp (new_object t) Q s.
Proof. intros H. eexists _, _. split; [reflexivity | exact H]. Qed.

Lemma wp_get_last_tid (Q : Z -> state W -> Prop) s :
  Q (last_tid s) s -> wp get_last_tid Q s.
Proof. intros H. eexists _, _. split; [reflexivity | exact H]. Qed.

Lemma wp_set_last_tid (i : Z) (Q : unit -> state W -> Prop) s :
  Q tt {| heap := heap s; next_ptr := next_ptr s;
          all_tunnels := all_tunnels s; last_tid := i;
          trace := trace s; world := world s |} ->
  wp (set_last_tid i) Q s.
Proof. intros H. eexists _, _. split; [reflexivity | exact H]. Qed.

(** *** [evolves] is a preorder, and the primitive steps on [tun] respect it *)

Lemma evolves_refl tun s : evolves tun s s.
Proof.
  split; auto.
  - intros t Ht. exists t. auto.
  - exists []. split; [unfold calls_between; by rewrite app_nil_r | constructor].
Qed.

Lemma evolves_trans tun s1 s2 s3 :
  evolves tun s1 s2 -> evolves tun s2 s3 -> evolves tun s1 s3.
Proof.
  intros [A1 B1 C1 D1 E1 (l1 & F1 & G1)] [A2 B2 C2 D2 E2 (l2 & F2 & G2)].
  split.
  - intros q Hq. rewrite A2, A1; auto.
  - intros t Ht. destruct (B1 t Ht) as (t1 & H1 & I1 & K1).
    destruct (B2 t1 H1) as (t2 & H2 & I2 & K2).
    exists t2. repeat split; [exact H2 | congruence | auto].
  - congruence.
  - congruence.
  - congruence.
  - exists (l1 ++ l2). split.
    + unfold calls_between in *. rewrite F2, F1. by rewrite app_assoc.
    + apply Forall_app. auto.
Qed.

Lemma evolves_live tun s s' : evolves tun s s' -> live s tun -> live s' tun.
Proof.
  intros H [t Ht]. destruct (ev_tun _ _ _ H t Ht) as (t' & Ht' & _).
  by exists t'.
Qed.

Lemma evolves_modify tun s t f :
  heap s !! tun = Some t ->
  id (f t) = id t ->
  (connected t = true -> connected (f t) = true) ->
  evolves tun s
    {| heap := <[tun := f t]> (heap s); next_ptr := next_ptr s;
       all_tunnels := all_tunnels s; last_tid := last_tid s;
       trace := trace s; world := world s |}.
Proof.
  intros Ht Hid Hc. split; cbn; auto.
  - intros q Hq. by rewrite lookup_insert_ne.
  - intros t0 Ht0. exists (f t). rewrite lookup_insert_eq.
    assert (t0 = t) by congruence. subst. auto.
  - exists []. split; [unfold calls_between; cbn; by rewrite app_nil_r | constructor].
Qed.

Lemma evolves_call tun s c w :
  ~ is_close c ->
  evolves tun s
    {| heap := heap s; next_ptr := next_ptr s;
       all_tunnels := all_tunnels s; last_tid := last_tid s;
       trace := trace s ++ [c]; world := w |}.
Proof.
  intros Hc. split; cbn; auto.
  - intros t Ht. exists t. auto.
  - exists [c]. split; [reflexivity | by constructor].
Qed.

Lemma evolves_world tun s w :
  evolves tun s
    {| heap := heap s; next_ptr := next_ptr s;
       all_tunnels := all_tunnels s; last_tid := last_tid s;
       trace := trace s; world := w |}.
Proof.
  split; cbn; auto.
  - intros t Ht. exists t. auto.
  - exists []. split; [unfold calls_between; cbn; by rewrite app_nil_r | constructor].
Qed.

End Rules.

(** Symbolic execution of one step of a computation under [wp]. *)
Ltac wp_lookup :=
  cbn [heap];
  first [ apply lookup_insert_eq
        | eassumption
        | rewrite lookup_insert_ne by congruence; wp_lookup ].

Ltac wp_normalize :=
  cbn [heap next_ptr all_tunnels last_tid trace world fst snd
       id connected server proc sock addr rfd wfd rio_buf rio_hEvent
       wio_buf wio_hEvent fd evt
       set_id set_connected set_server set_sock set_addr set_rio_buf
       set_wio_buf set_proc].

Ltac wp_branch :=
  match goal with
  | H : ?b = true |- wp (if ?b then _ else _) _ _ => rewrite H
  | H : ?b = false |- wp (if ?b then _ else _) _ _ => rewrite H
  | |- wp (if ?b then _ else _) _ _ =>
      let v := eval cbv in b in
      first [constr_eq v true | constr_eq v false];
      change b with v; cbv iota
  | |- wp (if ?b then _ else _) _ _ => destruct b eqn:?
  | H : ?x = (_, _) |- wp (let '(_, _) := ?x in _) _ _ => rewrite H
  | |- wp (let '(_, _) := ?x in _) _ _ => destruct x eqn:?
  end.

Ltac wp_step_raw :=
  first
    [ progress cbv beta iota
    | apply wp_ret
    | apply wp_bind
    | eapply wp_deref; [wp_lookup|]
    | eapply wp_modify; [wp_lookup|]
    | eapply wp_free; [wp_lookup|]
    | eapply wp_extern_eq; [cbn [world]; eassumption|]
    | eapply wp_extern_quiet_eq; [cbn [world]; eassumption|]
    | apply wp_extern; intros ? ? _
    | apply wp_extern_quiet; intros ? ? _
    | apply wp_emit
    | apply wp_list_add_tail
    | apply wp_new_object
    | wp_branch ].

Ltac wp_step := wp_step_raw; wp_normalize.

Section Handlers.
Context {W : Type} {X : Extern W}.
Implicit Types (s : state W) (p tun : ptr).

Lemma respects_weaken {A} tun (m : M W A) (R R' : A -> state W -> Prop) :
  respects tun m R -> (forall a s, R a s -> R' a s) -> respects tun m R'.
Proof.
  intros Hm HR s0 s Q He Hl HQ. apply (Hm s0 s Q He Hl).
  intros a s' He' HRa. apply HQ; auto.
Qed.

Lemma respects_ret {A} tun (a : A) : respects tun (mret a : M W A) anything.
Proof. intros s0 s Q He Hl HQ. apply wp_ret. apply HQ; [exact He | exact I]. Qed.

Lemma respects_bind {A B} tun (m : M W A) (f : A -> M W B) R :
  respects tun m anything ->
  (forall a, respects tun (f a) R) ->
  respects tun (m ≫= f) R.
Proof.
  intros Hm Hf s0 s Q He Hl HQ. apply wp_bind.
  apply (Hm s0 s _ He Hl). intros a s1 He1 _.
  apply (Hf a s0 s1 Q He1 Hl HQ).
Qed.

Lemma respects_deref tun : respects (W:=W) tun (deref tun) anything.
Proof.
  intros s0 s Q He Hl HQ.
  destruct (evolves_live _ _ _ He Hl) as [t Ht].
  eapply wp_deref; [exact Ht|]. apply HQ; [exact He | exact I].
Qed.

Lemma respects_modify tun f :
  keeps f -> respects (W:=W) tun (modify tun f) anything.
Proof.
  intros Hf s0 s Q He Hl HQ.
  destruct (evolves_live _ _ _ He Hl) as [t Ht].
  eapply wp_modify; [exact Ht|]. apply HQ; [|exact I].
  eapply evolves_trans; [exact He|].
  apply evolves_modify; [exact Ht | apply Hf | apply Hf].
Qed.

Lemma respects_extern {A} tun (f : W -> A * W) (c : A -> call) :
  (forall a, ~ is_close (c a)) -> respects tun (extern f c) anything.
Proof.
  intros Hc s0 s Q He Hl HQ. apply wp_extern. intros a w _.
  apply HQ; [|exact I].
  eapply evolves_trans; [exact He|]. apply evolves_call, Hc.
Qed.

Lemma respects_extern_quiet {A} tun (f : W -> A * W) :
  respects tun (extern_quiet f) anything.
Proof.
  intros s0 s Q He Hl HQ. apply wp_extern_quiet. intros a w _.
  apply HQ; [|exact I].
  eapply evolves_trans; [exact He|]. apply evolves_world.
Qed.

Lemma respects_emit tun (c : call) :
  ~ is_close c -> respects (W:=W) tun (emit c) anything.
Proof.
  intros Hc s0 s Q He Hl HQ. apply wp_emit.
  apply HQ; [|exact I].
  eapply evolves_trans; [exact He|]. apply evolves_call, Hc.
Qed.

Lemma keeps_set_rio_buf b : keeps (set_rio_buf b).
Proof. intros t. split; auto. Qed.

Lemma keeps_set_wio_buf b : keeps (set_wio_buf b).
Proof. intros t. split; auto. Qed.

Lemma keeps_set_sock k : keeps (set_sock k).
Proof. intros t. split; auto. Qed.

Lemma keeps_set_addr a : keeps (set_addr a).
Proof. intros t. split; auto. Qed.

Lemma keeps_set_server b : keeps (set_server b).
Proof. intros t. split; auto. Qed.

Lemma keeps_set_connected_true : keeps (set_connected true).
Proof. intros t. split; auto. Qed.

Lemma keeps_set_proc h : keeps (set_proc h).
Proof. intros t. split; auto. Qed.

Lemma keeps_compose f g : keeps f -> keeps g -> keeps (fun t => f (g t)).
Proof.
  intros Hf Hg t. destruct (Hf (g t)) as [A B], (Hg t) as [C D].
  split; [congruence | auto].
Qed.

End Handlers.

Create HintDb keeps.

#[global] Hint Resolve keeps_set_rio_buf keeps_set_wio_buf keeps_set_sock
  keeps_set_addr keeps_set_server keeps_set_connected_true keeps_set_proc
  keeps_compose : keeps.

(** One step of a proof that a computation works on its tunnel alone. *)
Ltac respects_step :=
  first
    [ apply respects_ret
    | apply respects_deref
    | apply respects_extern_quiet
    | apply respects_extern; intros; cbn; tauto
    | apply respects_emit; cbn; tauto
    | apply respects_modify; first
        [ solve [auto with keeps]
        | intros ?; split; [reflexivity | cbn; tauto] ]
    | apply respects_bind; [|intros]
    | match goal with
      | |- respects _ (let '(_, _) := ?x in _) _ => destruct x
      | |- respects _ (if ?b then _ else _) _ => destruct b
      | |- respects _ (match ?x with _ => _ end) _ => destruct x
      end ].

Section HandlerSpecs.
Context {W : Type} {X : Extern W}.
Implicit Types (s : state W) (p tun : ptr).

Lemma respects_net_write tun : respects tun (net_write tun) anything.
Proof. unfold net_write. repeat respects_step. Qed.

Lemma respects_net_read tun : respects tun (net_read tun) anything.
Proof. unfold net_read. repeat respects_step. Qed.

Lemma respects_channel_forward tun : respects tun (channel_forward tun) anything.
Proof. unfold channel_forward. repeat respects_step. Qed.

Lemma respects_net_update_watch tun : respects tun (net_update_watch tun) anything.
Proof. unfold net_update_watch. repeat respects_step. Qed.

Lemma respects_socksend tun : respects tun (tunnel_socksend_event tun) anything.
Proof.
  unfold tunnel_socksend_event.
  apply respects_bind; [apply respects_net_write|intros].
  repeat respects_step.
Qed.

Lemma respects_sockrecv tun : respects tun (tunnel_sockrecv_event tun) anything.
Proof.
  unfold tunnel_sockrecv_event.
  apply respects_bind; [apply respects_net_read|intros [ret r]].
  destruct (ret <? 0); [respects_step|].
  destruct (0 <? r); [|respects_step].
  apply respects_bind; [apply respects_channel_forward|intros].
  repeat respects_step.
Qed.

Lemma respects_fdwrite tun : respects tun (tunnel_fdwrite_event tun) anything.
Proof. unfold tunnel_fdwrite_event, aio_write. repeat respects_step. Qed.

Lemma respects_fdread tun : respects tun (tunnel_fdread_event tun) anything.
Proof.
  unfold tunnel_fdread_event, aio_read, on_read_completed.
  apply respects_bind; [respects_step|intros t].
  apply respects_bind; [respects_step|intros [ret data]].
  destruct (ret <? 0); [respects_step|].
  destruct data; [respects_step|].
  apply respects_bind; [respects_step|intros].
  apply respects_channel_forward.
Qed.

Lemma respects_process_start tun host :
  respects tun (process_start tun host) anything.
Proof. unfold process_start. repeat respects_step. Qed.

End HandlerSpecs.

Section ConnectSpecs.
Context {W : Type} {X : Extern W}.
Implicit Types (s : state W) (p tun : ptr).

Lemma respects_from {A} tun (m : M W A) R s0 s (Q : A -> state W -> Prop) :
  respects tun m R ->
  evolves tun s0 s -> live s0 tun ->
  (forall a s', evolves tun s0 s' -> evolves tun s s' -> R a s' -> Q a s') ->
  wp m Q s.
Proof.
  intros Hm He Hl HQ.
  apply (Hm s s _ (evolves_refl tun s) (evolves_live _ _ _ He Hl)).
  intros a s' He' HR. apply HQ; [|exact He'|exact HR].
  eapply evolves_trans; eassumption.
Qed.

Lemma connected_at_evolves tun s s' :
  connected_at tun s -> evolves tun s s' -> connected_at tun s'.
Proof.
  intros (t & Ht & Hc) He.
  destruct (ev_tun _ _ _ He t Ht) as (t' & Ht' & _ & Hc').
  exists t'. auto.
Qed.

Lemma respects_channel_write tun cmd i payload :
  cmd <> R2TCMD_CLOSE ->
  respects tun (channel_write cmd i payload) anything.
Proof.
  intros Hc. unfold channel_write. apply respects_extern.
  intros a. destruct cmd; cbn; tauto.
Qed.

Lemma respects_connect_answer tun e :
  respects tun (connect_answer tun e)
    (fun r s' => err (snd (fst r)) = 0 -> connected_at tun s').
Proof.
  intros s0 s Q He Hl HQ. unfold connect_answer.
  destruct (e =? 0) eqn:E0.
  - destruct (evolves_live _ _ _ He Hl) as [t Ht].
    apply wp_bind. eapply wp_modify; [exact Ht|].
    set (s1 := {| heap := <[tun:=set_connected true t]> (heap s) |}).
    assert (He1 : evolves tun s0 s1).
    { eapply evolves_trans; [exact He|].
      apply evolves_modify; [exact Ht|reflexivity|reflexivity]. }
    assert (Hc1 : connected_at tun s1).
    { exists (set_connected true t). split; [apply lookup_insert_eq|reflexivity]. }
    eapply (respects_from tun _ anything s0 s1); [|exact He1|exact Hl|].
    + apply respects_bind; [apply respects_net_update_watch|intros r].
      destruct (r =? 0); [|respects_step].
      apply respects_bind; [respects_step|intros t1].
      apply respects_bind.
      { destruct (negb _); [|respects_step].
        apply respects_bind; [apply respects_socksend|intros]. respects_step. }
      intros e1. destruct (e1 =? 0); [|respects_step].
      apply respects_bind; [respects_step|intros t2].
      destruct (netaddr_to_connans (addr t2)). respects_step.
    + intros a s' He' He1' _. apply HQ; [exact He'|].
      intros _. eapply connected_at_evolves; eassumption.
  - apply wp_ret. apply HQ; [exact He|]. cbn.
    intros H. exfalso. exact (wsa_to_r2t_error_nonzero e H).
Qed.

Lemma respects_connect_event tun e :
  respects tun (tunnel_connect_event tun e)
    (fun r s' => r = 0 -> connected_at tun s').
Proof.
  intros s0 s Q He Hl HQ. unfold tunnel_connect_event.
  apply wp_bind.
  apply (respects_connect_answer tun e s0 s _ He Hl).
  intros [[e1 ans] len] s1 He1 HR. cbn in HR.
  destruct (evolves_live _ _ _ He1 Hl) as [t1 Ht1].
  apply wp_bind. eapply wp_deref; [exact Ht1|].
  apply wp_bind. unfold channel_write. apply wp_extern. intros r w _.
  match goal with |- wp _ _ ?s => set (s2 := s) end.
  assert (He12 : evolves tun s1 s2) by (apply evolves_call; cbn; tauto).
  assert (He2 : evolves tun s0 s2) by (eapply evolves_trans; eassumption).
  destruct ((0 <=? r) && (err ans =? R2TERR_SUCCESS)) eqn:Eb;
    apply wp_ret; (apply HQ; [exact He2|]).
  - intros _. apply andb_true_iff in Eb as [_ Eb].
    apply Z.eqb_eq in Eb.
    eapply connected_at_evolves; [apply HR, Eb | exact He12].
  - discriminate.
Qed.

Lemma respects_host_connect tun pref_af host (n : Z) :
  respects tun (host_connect tun pref_af host n) anything.
Proof.
  unfold host_connect.
  apply respects_bind; [respects_step|intros [[[ret k] a] e]].
  apply respects_bind; [respects_step|intros _].
  apply respects_bind; [respects_step|intros t].
  cbv zeta.
  assert (Hfail : respects tun
    (channel_write R2TCMD_CONN (id t) [wsa_to_r2t_error e];;
     (if 0 <=? ret then net_close (sock t) else mret tt);; mret (-1)) anything).
  { apply respects_bind; [apply respects_channel_write; discriminate|intros _].
    unfold net_close. repeat respects_step. }
  destruct (0 <=? ret); [|exact Hfail].
  unfold event_add_tunnel, iobuf_init2.
  apply respects_bind; [respects_step|intros r].
  destruct (r =? 0); [|exact Hfail].
  apply respects_bind; [respects_step|intros _].
  destruct (ret =? 0); [|respects_step].
  eapply respects_weaken; [apply respects_connect_event|]. intros; exact I.
Qed.

Lemma respects_host_bind tun pref_af host (n : Z) :
  respects tun (host_bind tun pref_af host n) anything.
Proof.
  unfold host_bind.
  apply respects_bind; [respects_step|intros [[[ret k] a] e]].
  apply respects_bind; [respects_step|intros _].
  apply respects_bind; [respects_step|intros t].
  unfold event_add_tunnel, event_del_tunnel, net_close.
  apply respects_bind.
  { destruct (ret =? 0); [|respects_step].
    destruct (netaddr_to_connans (addr t)).
    repeat respects_step. }
  intros [[ret1 ans] len].
  apply respects_bind; [apply respects_channel_write; discriminate|intros r].
  repeat respects_step.
Qed.

End ConnectSpecs.

Section Registry.
Context {W : Type} {X : Extern W}.
Implicit Types (s : state W) (p tun : ptr) (h : gmap ptr tunnel_t).

Lemma registry_ids_ids_of s : registry_ids s = ids_of (heap s) (all_tunnels s).
Proof. reflexivity. Qed.

Lemma ids_of_cons h p (l : list ptr) :
  ids_of h (p :: l)
  = match h !! p with Some t => id t :: ids_of h l | None => ids_of h l end.
Proof. unfold ids_of. cbn [omap list_omap]. by destruct (h !! p). Qed.

Lemma ids_of_ext h h' (l : list ptr) :
  (forall p, p ∈ l -> id <$> (h' !! p) = id <$> (h !! p)) ->
  ids_of h' l = ids_of h l.
Proof.
  induction l as [|p l IH]; intros H; [reflexivity|].
  rewrite !ids_of_cons. rewrite IH by (intros q Hq; apply H; by right).
  specialize (H p (list_elem_of_here _ _)).
  destruct (h' !! p), (h !! p); cbn in H; congruence.
Qed.

Lemma ids_of_app h (l1 l2 : list ptr) : ids_of h (l1 ++ l2) = ids_of h l1 ++ ids_of h l2.
Proof. unfold ids_of. by rewrite omap_app, fmap_app. Qed.

Lemma ids_of_elem h (l : list ptr) i :
  i ∈ ids_of h l <-> exists p t, p ∈ l /\ h !! p = Some t /\ id t = i.
Proof.
  unfold ids_of. rewrite list_elem_of_fmap. split.
  - intros (t & -> & Ht). apply list_elem_of_omap in Ht as (p & Hp & Hpt).
    exists p, t. auto.
  - intros (p & t & Hp & Hpt & <-). exists t. split; [reflexivity|].
    apply list_elem_of_omap. exists p. auto.
Qed.

Lemma ids_of_remove_NoDup h tun (l : list ptr) :
  NoDup (ids_of h l) ->
  NoDup (ids_of (delete tun h) (filter (fun q => q ≠ tun) l)).
Proof.
  induction l as [|p l IH]; intros Hnd; [constructor|].
  rewrite ids_of_cons in Hnd.
  destruct (decide (p = tun)) as [->|Hne].
  - rewrite filter_cons_False by (intros H; by apply H).
    apply IH. destruct (h !! tun); [by inversion Hnd|exact Hnd].
  - rewrite filter_cons_True by exact Hne. rewrite ids_of_cons.
    rewrite lookup_delete_ne by congruence.
    destruct (h !! p) as [t|] eqn:Hp; [|apply IH, Hnd].
    inversion Hnd as [|? ? Hnin Hnd']; subst.
    constructor; [|apply IH, Hnd'].
    intros Hin. apply Hnin.
    apply ids_of_elem in Hin as (q & u & Hq & Hqu & Hid).
    apply ids_of_elem. apply list_elem_of_filter in Hq as [Hq1 Hq2].
    rewrite lookup_delete_ne in Hqu by congruence.
    exists q, u. auto.
Qed.

Lemma lookup_walk_cons h p (l : list ptr) i :
  lookup_walk h (p :: l) i
  = match h !! p with
    | None => None
    | Some t => if id t =? i then Some (Some p) else lookup_walk h l i
    end.
Proof. reflexivity. Qed.

(** *** The walk of [tunnel_lookup] *)

Lemma lookup_walk_live h (l : list ptr) i :
  (forall p, p ∈ l -> is_Some (h !! p)) ->
  exists r, lookup_walk h l i = Some r /\
    match r with
    | None => i ∉ ids_of h l
    | Some q => q ∈ l /\ exists t, h !! q = Some t /\ id t = i
    end.
Proof.
  induction l as [|p l IH]; intros Hl.
  - exists None. split; [reflexivity|]. apply not_elem_of_nil.
  - destruct (Hl p) as [t Ht]; [left|].
    rewrite lookup_walk_cons, ids_of_cons, Ht.
    destruct (Z.eqb_spec (id t) i) as [E|E].
    + exists (Some p). split; [reflexivity|]. split; [left|]. eauto.
    + destruct IH as (r & Hr & Hspec); [intros q Hq; apply Hl; by right|].
      exists r. split; [exact Hr|]. destruct r as [q|].
      * destruct Hspec as [Hq Hqt]. split; [by right | exact Hqt].
      * intros Hin. apply elem_of_cons in Hin as [Hin|Hin]; [congruence|].
        contradiction.
Qed.

Lemma wp_tunnel_lookup i s (Q : option ptr -> state W -> Prop) :
  registry_ok s ->
  (forall r,
     match r with
     | None => i ∉ registry_ids s
     | Some q => q ∈ all_tunnels s /\ exists t, heap s !! q = Some t /\ id t = i
     end -> Q r s) ->
  wp (tunnel_lookup i) Q s.
Proof.
  intros Hok HQ.
  destruct (lookup_walk_live (heap s) (all_tunnels s) i) as (r & Hr & Hspec).
  { intros p Hp. by apply (reg_live _ Hok). }
  exists r, s. split; [|by apply HQ].
  unfold tunnel_lookup. by rewrite Hr.
Qed.

(** *** Preservation of the registry invariant *)

Lemma registry_ok_same s s' :
  heap s' = heap s -> all_tunnels s' = all_tunnels s ->
  next_ptr s' = next_ptr s ->
  registry_ok s -> registry_ok s'.
Proof.
  intros Hh Hl Hn [A B C D].
  split; unfold live, registry_ids, linked_tunnels in *; rewrite ?Hh, ?Hl, ?Hn; auto.
Qed.

Lemma registry_ok_evolves tun s s' :
  evolves tun s s' -> live s tun -> registry_ok s -> registry_ok s'.
Proof.
  intros He Hl [A B C D].
  assert (Hlive : forall p, live s' p <-> live s p).
  { intros p. unfold live. destruct (decide (p = tun)) as [->|Hne].
    - split; intros _; [exact Hl | by apply (evolves_live _ _ _ He)].
    - by rewrite (ev_others _ _ _ He p Hne). }
  split.
  - by rewrite (ev_list _ _ _ He).
  - intros p. rewrite (ev_list _ _ _ He), Hlive. apply B.
  - rewrite registry_ids_ids_of in *. rewrite (ev_list _ _ _ He).
    rewrite (ids_of_ext (heap s) (heap s')); [exact C|].
    intros p _. destruct (decide (p = tun)) as [->|Hne].
    + destruct Hl as [t Ht].
      destruct (ev_tun _ _ _ He t Ht) as (t' & Ht' & Hid & _).
      rewrite Ht, Ht'. cbn. by rewrite Hid.
    + by rewrite (ev_others _ _ _ He p Hne).
  - intros p Hp. rewrite (ev_next _ _ _ He). apply D, Hlive, Hp.
Qed.

End Registry.

Section AllocatorAndClose.
Context {W : Type} {X : Extern W}.
Implicit Types (s : state W) (p tun : ptr) (h : gmap ptr tunnel_t).

Lemma only_last_tid_registry_ok s s' :
  only_last_tid s s' -> registry_ok s -> registry_ok s'.
Proof. intros [A B C _ _]. by apply registry_ok_same. Qed.

Lemma only_last_tid_ids s s' :
  only_last_tid s s' -> registry_ids s' = registry_ids s.
Proof.
  intros [A B _ _ _]. unfold registry_ids, linked_tunnels. by rewrite A, B.
Qed.

(** The loop of [tunnel_generate_id] returns, touches nothing but
    [last_tid], and a tid it returns from its body is not in the
    registry. *)
Lemma wp_generate_id_loop fuel last tid s
    (Q : option (option Z) -> state W -> Prop) :
  registry_ok s ->
  (forall r s', only_last_tid s s' ->
     match r with
     | Some (Some t) => (t ∉ registry_ids s) /\ last_tid s' = t
     | _ => last_tid s' = last_tid s
     end -> Q r s') ->
  wp (generate_id_loop fuel last tid) Q s.
Proof.
  intros Hok. revert tid. induction fuel as [|fuel IH]; intros tid HQ.
  - apply wp_ret. apply HQ; [by split|reflexivity].
  - cbn [generate_id_loop]. destruct (tid =? last).
    + apply wp_ret. apply HQ; [by split|reflexivity].
    + apply wp_bind. apply wp_tunnel_lookup; [exact Hok|].
      intros [q|] Hr.
      * apply IH, HQ.
      * apply wp_bind. apply wp_set_last_tid. apply wp_ret.
        apply HQ; [by split|]. cbn. auto.
Qed.

Lemma wp_tunnel_generate_id s (Q : Z -> state W -> Prop) :
  registry_ok s ->
  (forall tid s', only_last_tid s s' ->
     (tid <> 255 -> tid ∉ registry_ids s) -> Q tid s') ->
  wp tunnel_generate_id Q s.
Proof.
  intros Hok HQ. unfold tunnel_generate_id.
  apply wp_bind, wp_get_last_tid. apply wp_bind.
  apply wp_generate_id_loop; [exact Hok|].
  intros r s' Hs' Hr. destruct r as [[t|]|]; apply wp_ret; apply HQ; try exact Hs'.
  - intros _. apply Hr.
  - congruence.
  - congruence.
Qed.

(** The loop stops by its own condition within 256 iterations. *)
Lemma generate_id_loop_fuel (fuel : nat) last tid s r s' :
  0 <= last < 256 -> 0 <= tid < 256 ->
  (last - tid) mod 256 < Z.of_nat fuel ->
  generate_id_loop fuel last tid s = Ok r s' -> r <> None.
Proof.
  intros Hlast. revert tid s. induction fuel as [|fuel IH]; intros tid s Htid Hd.
  - exfalso. pose proof (Z.mod_pos_bound (last - tid) 256). lia.
  - cbn [generate_id_loop]. destruct (Z.eqb_spec tid last) as [E|E].
    + intros H. inversion H. discriminate.
    + unfold mbind, M_bind.
      destruct (tunnel_lookup tid s) as [[q|] s1|] eqn:El; [| |discriminate].
      * assert (s1 = s) as ->.
        { unfold tunnel_lookup in El.
          destruct (lookup_walk _ _ _); inversion El; reflexivity. }
        apply IH.
        -- apply Z.mod_pos_bound. lia.
        -- rewrite Zminus_mod_idemp_r.
           assert (Hne : (last - tid) mod 256 <> 0).
           { intros H0. apply E.
             apply Z.mod_divide in H0; [|lia]. destruct H0 as [k Hk]. lia. }
           replace (last - (tid + 1)) with ((last - tid) - 1) by lia.
           pose proof (Z.mod_pos_bound (last - tid) 256 ltac:(lia)).
           rewrite <- Zminus_mod_idemp_l.
           rewrite Z.mod_small by lia. lia.
      * cbn. intros H. inversion H. discriminate.
Qed.

Lemma tunnel_generate_id_fuel s r s' :
  0 <= last_tid s < 256 ->
  generate_id_loop 256 (last_tid s) ((last_tid s + 1) mod 256) s = Ok r s' ->
  r <> None.
Proof.
  intros Hlast. apply generate_id_loop_fuel; [exact Hlast| |].
  - apply Z.mod_pos_bound. lia.
  - pose proof (Z.mod_pos_bound (last_tid s - (last_tid s + 1) mod 256) 256).
    change (Z.of_nat 256) with 256. lia.
Qed.

(** *** [tunnel_close] *)

Lemma wp_tunnel_close tun t s (Q : unit -> state W -> Prop) :
  heap s !! tun = Some t -> tun ∈ all_tunnels s ->
  (forall s', closed tun s s' -> Q tt s') ->
  wp (tunnel_close tun) Q s.
Proof.
  intros Ht Hin HQ. unfold tunnel_close.
  apply wp_bind. eapply wp_deref; [exact Ht|].
  apply wp_bind. apply wp_list_del; [exact Hin|].
  apply wp_bind. apply wp_emit.
  apply wp_bind.
  assert (Hfin : forall (s1 : state W) u,
    heap s1 !! tun = Some u ->
    delete tun (heap s1) = delete tun (heap s) ->
    all_tunnels s1 = filter (fun q => q ≠ tun) (all_tunnels s) ->
    next_ptr s1 = next_ptr s -> last_tid s1 = last_tid s ->
    (exists l, calls_between s s1 l /\ Forall (fun c => ~ is_record c) l) ->
    wp (free tun) Q s1).
  { intros s1 u Hu Hh Hl Hn Hla Htr. eapply wp_free; [exact Hu|].
    apply HQ. split; cbn; auto. }
  destruct (proc t =? 0).
  - apply wp_bind. destruct (server t).
    + apply wp_ret. apply wp_emit. eapply Hfin; cbn; eauto.
      exists [Call_event_del_tunnel (id t); Call_net_close (sock t)].
      split; [unfold calls_between; cbn; by rewrite <- app_assoc|].
      repeat constructor; cbn; tauto.
    + unfold iobuf_kill2. eapply wp_modify; [exact Ht|].
      apply wp_emit. eapply Hfin; cbn.
      * apply lookup_insert_eq.
      * by rewrite delete_insert_eq.
      * reflexivity.
      * reflexivity.
      * reflexivity.
      * exists [Call_event_del_tunnel (id t); Call_net_close (sock t)].
        split; [unfold calls_between; cbn; by rewrite <- app_assoc|].
        repeat constructor; cbn; tauto.
  - unfold CancelIo, process_stop.
    apply wp_bind, wp_emit. apply wp_bind, wp_emit.
    apply wp_bind. eapply wp_deref; [exact Ht|]. apply wp_emit.
    eapply Hfin; cbn; eauto.
    exists [Call_event_del_tunnel (id t); Call_CancelIo (rfd t);
            Call_CancelIo (wfd t); Call_process_stop (proc t)].
    split; [unfold calls_between; cbn; by rewrite <- !app_assoc|].
    repeat constructor; cbn; tauto.
Qed.

Lemma closed_removed tun s s' : closed tun s s' -> removed tun s s'.
Proof. intros [A B C D _]. by split. Qed.

Lemma registry_ok_removed tun s s' :
  removed tun s s' -> registry_ok s -> registry_ok s'.
Proof.
  intros [Hh Hl Hn _] [A B C D]. split.
  - rewrite Hl. by apply NoDup_filter.
  - intros p. unfold live. rewrite Hl, Hh, list_elem_of_filter.
    destruct (decide (p = tun)) as [->|Hne].
    + rewrite lookup_delete_eq. split; [intros [H _]; by destruct H|].
      intros [? ?]; discriminate.
    + rewrite lookup_delete_ne by congruence. rewrite B. unfold live. tauto.
  - rewrite registry_ids_ids_of, Hl, Hh. by apply ids_of_remove_NoDup.
  - intros p [t Ht]. rewrite Hn. apply D.
    rewrite Hh in Ht. exists t.
    destruct (decide (p = tun)) as [->|Hne].
    + by rewrite lookup_delete_eq in Ht.
    + by rewrite lookup_delete_ne in Ht by congruence.
Qed.

Lemma removed_destroyed tun s s' : removed tun s s' -> destroyed s' tun.
Proof.
  intros [Hh Hl _ _]. split.
  - rewrite Hl, list_elem_of_filter. intros [H _]. by apply H.
  - rewrite Hh. apply lookup_delete_eq.
Qed.

Lemma removed_ids_stable tun s s' : removed tun s s' -> ids_stable s s'.
Proof.
  intros [Hh _ _ _] p t t' Ht Ht'. rewrite Hh in Ht'.
  destruct (decide (p = tun)) as [->|Hne].
  - by rewrite lookup_delete_eq in Ht'.
  - rewrite lookup_delete_ne in Ht' by congruence. congruence.
Qed.

Lemma registry_ok_closed tun s s' :
  closed tun s s' -> registry_ok s -> registry_ok s'.
Proof. intros H. eapply registry_ok_removed, closed_removed, H. Qed.

Lemma closed_destroyed tun s s' : closed tun s s' -> destroyed s' tun.
Proof. intros H. eapply removed_destroyed, closed_removed, H. Qed.

Lemma closed_ids_stable tun s s' : closed tun s s' -> ids_stable s s'.
Proof. intros H. eapply removed_ids_stable, closed_removed, H. Qed.

(** *** What happens to the other tunnels *)

Lemma others_untouched_refl tun s : others_untouched tun s s.
Proof. intros q t _ Ht. auto. Qed.

Lemma others_untouched_trans tun s1 s2 s3 :
  others_untouched tun s1 s2 -> others_untouched tun s2 s3 ->
  others_untouched tun s1 s3.
Proof.
  intros H1 H2 q t Hq Ht. destruct (H1 q t Hq Ht) as [A B].
  destruct (H2 q t Hq A) as [C D]. auto.
Qed.

Lemma evolves_others_untouched tun s s' :
  evolves tun s s' -> others_untouched tun s s'.
Proof.
  intros He q t Hq Ht. rewrite (ev_others _ _ _ He q Hq), (ev_list _ _ _ He).
  auto.
Qed.

Lemma removed_others_untouched tun s s' :
  removed tun s s' -> others_untouched tun s s'.
Proof.
  intros [Hh Hl _ _] q t Hq Ht. rewrite Hh, Hl. split.
  - by rewrite lookup_delete_ne by congruence.
  - intros Hin. apply list_elem_of_filter. auto.
Qed.

Lemma closed_others_untouched tun s s' :
  closed tun s s' -> others_untouched tun s s'.
Proof. intros H. eapply removed_others_untouched, closed_removed, H. Qed.

End AllocatorAndClose.

Section Create.
Context {W : Type} {X : Extern W}.
Implicit Types (s : state W) (p tun : ptr) (h : gmap ptr tunnel_t).

Lemma registry_ok_unchanged s s' :
  registry_ok s ->
  (forall p, heap s' !! p = heap s !! p) ->
  all_tunnels s' = all_tunnels s ->
  (next_ptr s <= next_ptr s')%positive ->
  registry_ok s'.
Proof.
  intros [A B C D] Hh Hl Hn. split.
  - by rewrite Hl.
  - intros p. unfold live. rewrite Hl, Hh. apply B.
  - rewrite registry_ids_ids_of in *. rewrite Hl.
    rewrite (ids_of_ext (heap s) (heap s')); [exact C|].
    intros p _. by rewrite Hh.
  - intros p Hp. unfold live in Hp. rewrite Hh in Hp.
    specialize (D p Hp). lia.
Qed.

Lemma registry_ok_add s s' tun t' :
  registry_ok s ->
  tun = next_ptr s ->
  (forall p, p <> tun -> heap s' !! p = heap s !! p) ->
  heap s' !! tun = Some t' ->
  id t' ∉ registry_ids s ->
  all_tunnels s' = all_tunnels s ++ [tun] ->
  next_ptr s' = Pos.succ (next_ptr s) ->
  registry_ok s'.
Proof.
  intros [A B C D] -> Hh Ht Hid Hl Hn.
  assert (Hfresh : forall p, p ∈ all_tunnels s -> p <> next_ptr s).
  { intros p Hp ->. apply B, D in Hp. lia. }
  split.
  - rewrite Hl. apply NoDup_app. repeat split; [exact A| |apply NoDup_singleton].
    intros p Hp Hin. apply list_elem_of_singleton in Hin. by apply (Hfresh p).
  - intros p. rewrite Hl, elem_of_app, list_elem_of_singleton. unfold live.
    destruct (decide (p = next_ptr s)) as [->|Hne].
    + rewrite Ht. split; [eauto|auto].
    + rewrite (Hh p Hne). rewrite B. unfold live. tauto.
  - rewrite registry_ids_ids_of in *. rewrite Hl, ids_of_app.
    rewrite (ids_of_ext (heap s) (heap s') (all_tunnels s)).
    + rewrite ids_of_cons, Ht. apply NoDup_app. repeat split; [exact C| |].
      * intros x Hx Hin. apply list_elem_of_singleton in Hin. subst. contradiction.
      * apply NoDup_singleton.
    + intros p Hp. rewrite (Hh p); [reflexivity|]. by apply Hfresh.
  - intros p Hp. rewrite Hn. unfold live in Hp.
    destruct (decide (p = next_ptr s)) as [->|Hne]; [lia|].
    rewrite (Hh p Hne) in Hp. specialize (D p Hp). lia.
Qed.

Lemma not_live_next s : registry_ok s -> heap s !! next_ptr s = None.
Proof.
  intros Hok. destruct (heap s !! next_ptr s) as [t|] eqn:E; [|reflexivity].
  assert (H : live s (next_ptr s)) by (by exists t).
  apply (reg_fresh _ Hok) in H. lia.
Qed.

Lemma wp_tunnel_create i pref_af host (n bind_socket : Z) s
    (Q : unit -> state W -> Prop) :
  registry_ok s -> host <> EmptyString -> i ∉ registry_ids s ->
  (forall s', created i s s' -> Q tt s') ->
  wp (tunnel_create i pref_af host n bind_socket) Q s.
Proof.
  intros Hok Hhost Hi HQ. unfold tunnel_create.
  apply wp_bind. apply wp_assert.
  { apply negb_true_iff. by apply String.eqb_neq. }
  apply wp_bind. unfold tunnel_alloc.
  apply wp_bind. apply wp_extern_quiet. intros ok w _.
  pose proof (not_live_next s Hok) as Hnone.
  destruct ok.
  - apply wp_bind. apply wp_new_object. apply wp_bind.
    eapply wp_modify; [apply lookup_insert_eq|]. cbn. apply wp_ret.
    rewrite insert_insert_eq.
    set (tun := next_ptr s).
    match goal with |- wp _ _ ?st => set (s1 := st) end.
    assert (Hl1 : live s1 tun).
    { exists (set_id i tunnel_zero). apply lookup_insert_eq. }
    apply wp_bind.
    eapply (respects_from tun _ anything s1 s1);
      [|apply evolves_refl|exact Hl1|].
    { destruct (0 <? n); [destruct (bind_socket =? 0)|].
      - apply respects_host_connect.
      - apply respects_host_bind.
      - apply respects_process_start. }
    intros ret s2 He _ _.
    destruct (ev_tun _ _ _ He _ (lookup_insert_eq _ _ _)) as (t' & Ht' & Hid & _).
    assert (Hold : forall p, p <> tun -> heap s2 !! p = heap s !! p).
    { intros p Hp. rewrite (ev_others _ _ _ He p Hp). cbn.
      by rewrite lookup_insert_ne. }
    assert (Hold' : forall p t, heap s !! p = Some t -> p <> tun).
    { intros p t Hp ->. unfold tun in Hp. congruence. }
    destruct (0 <=? ret).
    + apply wp_list_add_tail. apply HQ. split.
      * eapply (registry_ok_add s _ tun t'); cbn; eauto.
        -- by rewrite Hid.
        -- by rewrite (ev_list _ _ _ He).
        -- by rewrite (ev_next _ _ _ He).
      * intros p t t2 Hp Hp2. cbn in Hp2.
        rewrite (Hold p) in Hp2 by (eapply Hold'; eauto). congruence.
      * intros p t Hp. cbn. rewrite (Hold p) by (eapply Hold'; eauto). exact Hp.
      * right. exists t'. cbn. rewrite (ev_list _ _ _ He). auto.
    + eapply wp_free; [exact Ht'|]. apply HQ.
      assert (Hall : forall p, delete tun (heap s2) !! p = heap s !! p).
      { intros p. destruct (decide (p = tun)) as [->|Hne].
        - by rewrite lookup_delete_eq.
        - rewrite lookup_delete_ne by congruence. by apply Hold. }
      split.
      * eapply (registry_ok_unchanged s); cbn; eauto.
        -- by rewrite (ev_list _ _ _ He).
        -- rewrite (ev_next _ _ _ He). cbn. lia.
      * intros p t t2 Hp Hp2. cbn in Hp2. rewrite Hall in Hp2. congruence.
      * intros p t Hp. cbn. by rewrite Hall.
      * left. cbn. by rewrite (ev_list _ _ _ He).
  - apply wp_ret. apply wp_ret. apply HQ. split.
    + eapply registry_ok_same; [| | |exact Hok]; reflexivity.
    + intros p t t2 Hp Hp2. cbn in Hp2. congruence.
    + intros p t Hp. exact Hp.
    + by left.
Qed.

End Create.

(** Closes a goal about the calls made, once the trace is explicit. *)
Ltac solve_calls :=
  eexists; split;
  [ unfold calls_between; cbn; rewrite <- ?app_assoc; reflexivity
  | repeat constructor; cbn; tauto ].

Section Accept.
Context {W : Type} {X : Extern W}.
Implicit Types (s : state W) (p tun : ptr) (h : gmap ptr tunnel_t).

Lemma accepted_nothing tun s s' r :
  registry_ok s -> tun ∈ all_tunnels s ->
  (forall p, heap s' !! p = heap s !! p) ->
  all_tunnels s' = all_tunnels s ->
  (next_ptr s <= next_ptr s')%positive ->
  (exists l, calls_between s s' l /\ Forall (fun c => ~ is_close c) l) ->
  r = 0 \/ r = wsaerror_ret ->
  accepted tun s r s'.
Proof.
  intros Hok Hin Hh Hl Hn Htr Hr. split; auto.
  - eapply registry_ok_unchanged; eauto.
  - intros p u u' Hp Hp'. rewrite Hh in Hp'. congruence.
  - intros q u _ Hq. rewrite Hh, Hl. auto.
  - right. rewrite Hh, Hl. auto.
  - intros i Hi. left. rewrite registry_ids_ids_of in *. rewrite Hl in Hi.
    rewrite (ids_of_ext (heap s)) in Hi; [exact Hi|].
    intros p _. by rewrite Hh.
Qed.

Lemma wp_tunnel_accept_event tun t s (Q : Z -> state W -> Prop) :
  registry_ok s -> heap s !! tun = Some t ->
  (forall r s', accepted tun s r s' -> Q r s') ->
  wp (tunnel_accept_event tun) Q s.
Proof.
  intros Hok Ht HQ.
  assert (Hin : tun ∈ all_tunnels s) by (apply (reg_live _ Hok); by exists t).
  unfold tunnel_accept_event.
  apply wp_bind. eapply wp_deref; [exact Ht|].
  apply wp_bind. apply wp_extern. intros [[ret cli_sock] a] w _.
  match goal with |- wp _ _ ?st => set (s1 := st) end.
  assert (Hok1 : registry_ok s1) by (eapply registry_ok_same; [| | |exact Hok]; reflexivity).
  destruct (negb (ret =? 0)).
  { apply wp_ret. apply HQ. apply accepted_nothing; auto.
    - reflexivity.
    - solve_calls. }
  apply wp_bind. apply wp_tunnel_generate_id; [exact Hok1|].
  intros tid s2 [Hh2 Hl2 Hn2 Htr2 Hw2] Htid.
  cbn in Hh2, Hl2, Hn2, Htr2, Hw2.
  destruct (Z.eqb_spec tid 255) as [E255|E255].
  { unfold net_close. apply wp_bind, wp_emit. apply wp_ret. apply HQ.
    apply accepted_nothing; cbn; auto.
    - intros p. by rewrite Hh2.
    - rewrite Hn2. reflexivity.
    - unfold calls_between. cbn. rewrite Htr2.
      eexists; split; [rewrite <- ?app_assoc; reflexivity|].
      repeat constructor; cbn; tauto. }
  specialize (Htid E255).
  assert (Hids1 : registry_ids s1 = registry_ids s) by reflexivity.
  rewrite Hids1 in Htid.
  apply wp_bind. unfold tunnel_alloc.
  apply wp_bind. apply wp_extern_quiet. intros ok w3 _.
  destruct ok.
  2:{ apply wp_ret. unfold net_close. apply wp_bind, wp_emit. apply wp_ret.
      apply HQ. apply accepted_nothing; cbn; auto.
      - intros p. by rewrite Hh2.
      - rewrite Hn2. reflexivity.
      - unfold calls_between. cbn. rewrite Htr2.
        eexists; split; [rewrite <- ?app_assoc; reflexivity|].
        repeat constructor; cbn; tauto. }
  apply wp_bind. apply wp_new_object. apply wp_bind.
  eapply wp_modify; [apply lookup_insert_eq|]. cbn. apply wp_ret.
  rewrite insert_insert_eq, Hh2, Hl2, Hn2, Htr2.
  set (cli := next_ptr s).
  pose proof (not_live_next s Hok) as Hnone. fold cli in Hnone.
  assert (Hne : tun <> cli) by congruence.
  unfold event_add_tunnel. apply wp_bind. apply wp_extern. intros r w4 _.
  destruct (negb (r =? 0)).
  { unfold net_close. apply wp_bind, wp_emit. apply wp_bind.
    eapply wp_free; [apply lookup_insert_eq|]. cbn. apply wp_ret.
    rewrite delete_insert_eq.
    apply HQ. apply accepted_nothing; cbn; auto.
    - intros p. destruct (decide (p = cli)) as [->|Hp].
      + by rewrite lookup_delete_eq.
      + by rewrite lookup_delete_ne by congruence.
    - lia.
    - solve_calls. }
  apply wp_bind. eapply wp_modify; [apply lookup_insert_eq|]. cbn.
  rewrite insert_insert_eq.
  unfold iobuf_init2. apply wp_bind.
  eapply wp_modify; [apply lookup_insert_eq|]. cbn.
  rewrite insert_insert_eq.
  apply wp_bind. apply wp_list_add_tail. cbn.
  destruct (netaddr_to_connans a) as [msg msg_len].
  match goal with |- wp _ _ ?st => set (s5 := st) end.
  set (c := set_wio_buf [] _) in s5.
  assert (Hc : id c = tid) by reflexivity.
  assert (Hok5 : registry_ok s5).
  { eapply (registry_ok_add s s5 cli c); cbn; eauto.
    all: try (intros p Hp; by rewrite lookup_insert_ne).
    all: try apply lookup_insert_eq.
    all: try (by rewrite Hc). }
  assert (Ht5 : heap s5 !! tun = Some t).
  { cbn. by rewrite lookup_insert_ne. }
  assert (Hold5 : forall p u, heap s !! p = Some u -> heap s5 !! p = Some u).
  { intros p u Hp. cbn. rewrite lookup_insert_ne; [exact Hp|congruence]. }
  assert (Hnew5 : forall i, i ∈ registry_ids s5 -> i ∈ registry_ids s \/ i <> 255).
  { intros i Hi. rewrite registry_ids_ids_of in Hi.
    unfold s5 in Hi. cbn [heap all_tunnels] in Hi.
    rewrite ids_of_app in Hi. apply elem_of_app in Hi as [Hi|Hi].
    - left. rewrite registry_ids_ids_of.
      rewrite (ids_of_ext (<[cli:=c]> (heap s))); [exact Hi|].
      intros p Hp. rewrite lookup_insert_ne; [reflexivity|].
      intros <-. apply (reg_live _ Hok) in Hp. destruct Hp; congruence.
    - right. rewrite ids_of_cons, lookup_insert_eq in Hi.
      apply list_elem_of_singleton in Hi. congruence. }
  apply wp_bind. eapply wp_deref; [exact Ht5|].
  apply wp_bind. unfold channel_write. apply wp_extern. intros wr w6 _.
  match goal with |- wp _ _ ?st => set (s6 := st) end.
  assert (Hok6 : registry_ok s6) by (eapply registry_ok_same; [| | |exact Hok5]; reflexivity).
  apply wp_bind.
  destruct (wr <? 0).
  - eapply wp_tunnel_close; [exact Ht5| |].
    { cbn. apply elem_of_app. by left. }
    intros s7 Hcl. apply wp_ret. apply HQ. split; auto.
    + eapply registry_ok_closed; eauto.
    + intros p u u' Hp Hp'. 
      apply (closed_ids_stable _ _ _ Hcl p u u'); [|exact Hp'].
      by apply Hold5.
    + eapply others_untouched_trans; [|apply closed_others_untouched; exact Hcl].
      intros q u _ Hq. split; [by apply Hold5|].
      intros Hq'. cbn. apply elem_of_app. by left.
    + destruct (cl_trace _ _ _ Hcl) as (l & Hl & Hrec).
      unfold calls_between in *. cbn in Hl. rewrite Hl.
      eexists; split; [rewrite <- ?app_assoc; reflexivity|].
      repeat (apply Forall_cons; split; [cbn; tauto|]).
      eapply Forall_impl; [exact Hrec|]. intros c0 Hc0 Hcl0. apply Hc0.
      destruct c0; cbn in *; tauto.
    + left. split; [reflexivity|]. eapply closed_destroyed; eauto.
    + intros i Hi. apply Hnew5.
      rewrite registry_ids_ids_of in *. rewrite (cl_heap _ _ _ Hcl), (cl_list _ _ _ Hcl) in Hi.
      apply ids_of_elem in Hi as (q & u & Hq & Hqu & Hid).
      apply list_elem_of_filter in Hq as [Hq1 Hq2].
      rewrite lookup_delete_ne in Hqu by congruence.
      apply ids_of_elem. exists q, u. auto.
  - apply wp_ret. apply wp_ret. apply HQ. split; auto.
    + intros p u u' Hp Hp'. apply Hold5 in Hp. cbn in Hp, Hp'. congruence.
    + intros q u _ Hq. split; [by apply Hold5|].
      intros Hq'. cbn. apply elem_of_app. by left.
    + solve_calls.
    + right. split; [cbn in *; congruence|]. cbn. apply elem_of_app. by left.
Qed.

End Accept.

Section Event.
Context {W : Type} {X : Extern W}.
Implicit Types (s : state W) (p tun : ptr) (h : Z).

Lemma wp_bind_eq {A B} (m : M W A) (f : A -> M W B)
    (Q : B -> state W -> Prop) s a s1 :
  m s = Ok a s1 -> wp (f a) Q s1 -> wp (m ≫= f) Q s.
Proof. intros Hm Hf. apply wp_bind. exists a, s1. auto. Qed.

Lemma not_record_not_close (l : list call) :
  Forall (fun c => ~ is_record c) l -> Forall (fun c => ~ is_close c) l.
Proof.
  intros H. eapply Forall_impl; [exact H|].
  intros c Hc Hcl. apply Hc. destruct c; cbn in *; tauto.
Qed.

Lemma handlers_done_evolves tun t gone s0 s s' ret :
  registry_ok s0 -> heap s0 !! tun = Some t -> tun ∈ all_tunnels s0 ->
  evolves tun s0 s' ->
  handlers_done tun (id t) gone s0 ret s'.
Proof.
  intros Hok Ht Hin He. split.
  - eapply registry_ok_evolves; [exact He| |exact Hok]. by exists t.
  - by apply evolves_others_untouched.
  - apply (ev_trace _ _ _ He).
  - right. destruct (ev_tun _ _ _ He t Ht) as (t' & Ht' & Hid & _).
    exists t'. rewrite (ev_list _ _ _ He). auto.
Qed.

Lemma handlers_done_accepted tun t (gone : Prop) s r s' :
  heap s !! tun = Some t -> gone ->
  accepted tun s r s' -> handlers_done tun (id t) gone s r s'.
Proof.
  intros Ht Hg [A B C D E F G]. split; auto.
  destruct E as [[E1 E2]|[E1 E2]]; [left; auto|right].
  exists t. rewrite E1. auto.
Qed.

(** Without the accept bit, the dispatched handler works on [tun] alone. *)
Lemma respects_socket_dispatch tun ev cerr :
  Z.land ev FD_ACCEPT = 0 ->
  respects tun (socket_dispatch tun ev cerr) anything.
Proof.
  intros Hacc. unfold socket_dispatch. rewrite Hacc. cbn [Z.eqb negb].
  destruct (negb (Z.land ev FD_CONNECT =? 0)).
  - intros s0 s Q He Hl HQ. apply wp_bind.
    apply (respects_connect_event tun cerr s0 s _ He Hl).
    intros ret s1 He1 Hc.
    destruct (Z.eqb_spec ret 0) as [E|E].
    + destruct (Hc E) as (t1 & Ht1 & Hcon).
      apply wp_bind. eapply wp_deref; [exact Ht1|].
      apply wp_bind. apply wp_assert; [exact Hcon|].
      eapply (respects_from tun _ anything s0 s1); [|exact He1|exact Hl|].
      * apply respects_bind; [apply respects_socksend|intros r].
        destruct (0 <=? r); [apply respects_sockrecv|respects_step].
      * intros a s' He' _ _. apply HQ; [exact He'|exact I].
    + apply wp_ret. apply HQ; [exact He1|exact I].
  - destruct (negb (Z.land ev FD_WRITE =? 0)).
    + apply respects_socksend.
    + respects_step.
Qed.

Lemma respects_socket_handlers tun ev cerr :
  Z.land ev FD_ACCEPT = 0 ->
  respects tun (socket_handlers tun ev cerr) anything.
Proof.
  intros Hacc. unfold socket_handlers.
  apply respects_bind; [by apply respects_socket_dispatch|intros ret].
  destruct (_ && _); [apply respects_sockrecv|respects_step].
Qed.

Lemma wp_socket_handlers tun t ev cerr s (Q : Z -> state W -> Prop) :
  registry_ok s -> heap s !! tun = Some t ->
  (Z.land ev FD_ACCEPT <> 0 -> Z.land ev FD_READ = 0) ->
  (forall ret s',
     handlers_done tun (id t) (Z.land ev FD_ACCEPT <> 0) s ret s' -> Q ret s') ->
  wp (socket_handlers tun ev cerr) Q s.
Proof.
  intros Hok Ht Hev HQ.
  assert (Hin : tun ∈ all_tunnels s) by (apply (reg_live _ Hok); by exists t).
  destruct (Z.eq_dec (Z.land ev FD_ACCEPT) 0) as [Hacc|Hacc].
  - eapply (respects_from tun _ anything s s);
      [by apply respects_socket_handlers|apply evolves_refl|by exists t|].
    intros ret s' He _ _. apply HQ. by eapply handlers_done_evolves.
  - unfold socket_handlers, socket_dispatch.
    apply Z.eqb_neq in Hacc as Hb. rewrite Hb. cbn [negb].
    apply wp_bind. eapply wp_tunnel_accept_event; [exact Hok|exact Ht|].
    intros r s' Hacc'. rewrite (Hev Hacc). cbn [Z.eqb negb]. rewrite andb_false_r.
    apply wp_ret. apply HQ. by apply handlers_done_accepted.
Qed.

Lemma wp_tunnel_close_event tun t s (Q : Z -> state W -> Prop) :
  heap s !! tun = Some t -> tun ∈ all_tunnels s ->
  (forall s' ret l,
     removed tun s s' ->
     calls_between s s' (Call_channel_write R2TCMD_CLOSE (id t) [] ret :: l) ->
     Forall (fun c => ~ is_record c) l ->
     Q 0 s') ->
  wp (tunnel_close_event tun) Q s.
Proof.
  intros Ht Hin HQ. unfold tunnel_close_event.
  apply wp_bind. eapply wp_deref; [exact Ht|].
  apply wp_bind. unfold channel_write. apply wp_extern. intros ret w _.
  apply wp_bind. eapply wp_tunnel_close; [exact Ht|exact Hin|].
  intros s' [Hh Hl Hn Hla (l & Hl' & Hrec)]. apply wp_ret.
  apply (HQ s' ret l); [by split| |exact Hrec].
  unfold calls_between in *. cbn in Hl'. rewrite Hl'. by rewrite <- app_assoc.
Qed.

Lemma others_untouched_same tun s s' :
  heap s' = heap s -> all_tunnels s' = all_tunnels s ->
  others_untouched tun s s'.
Proof. intros Hh Hl q t _ Hq. rewrite Hh, Hl. auto. Qed.

(** [tunnel_event] on a socket tunnel. *)
Lemma tunnel_event_socket tun t h s q ev cerr w1 :
  registry_ok s -> heap s !! tun = Some t -> proc t = 0 ->
  event_expected t h (world s) ->
  env_WSAEnumNetworkEvents (sock t) (world s) = (q, ev, cerr, w1) ->
  exists r s',
    tunnel_event tun h s = Ok r s' /\
    handled tun (id t) (close_signalled t h (world s)) s s' /\
    r = (if query_failed t (world s) then wsaerror_ret else 0) /\
    (handlers_fail tun t h s -> destroyed s' tun).
Proof.
  intros Hok Ht Hproc [Hh Hexp] Henum.
  assert (Hfail : forall s', 
    (forall s1 ret s2,
       query_events t s = Ok (q, ev, cerr) s1 -> q = 0 ->
       socket_handlers tun ev cerr s1 = Ok ret s2 -> ret < 0 ->
       destroyed s' tun) ->
    handlers_fail tun t h s -> destroyed s' tun).
  { intros s' H. unfold handlers_fail. rewrite Hproc. cbn [Z.eqb negb].
    intros (q' & ev' & cerr' & s1 & ret & s2 & Hq' & Hq0 & Hrun & Hneg).
    assert (Heq : (q', ev', cerr') = (q, ev, cerr)).
    { unfold query_events, extern in Hq'. rewrite Henum in Hq'. by inversion Hq'. }
    inversion Heq; subst. eapply H; eauto. }
  cut (exists r s',
    tunnel_event tun h s = Ok r s' /\
    handled tun (id t) (close_signalled t h (world s)) s s' /\
    r = (if query_failed t (world s) then wsaerror_ret else 0) /\
    (forall s1 ret s2,
       query_events t s = Ok (q, ev, cerr) s1 -> q = 0 ->
       socket_handlers tun ev cerr s1 = Ok ret s2 -> ret < 0 ->
       destroyed s' tun)).
  { intros (r & s' & H1 & H2 & H3 & H4). exists r, s'. auto. }
  clear Hfail.
  unfold close_signalled, query_failed. unfold event_expected in Hexp.
  rewrite Hproc in *. cbn [Z.eqb negb] in *. rewrite Henum in *.
  assert (Hin : tun ∈ all_tunnels s) by (apply (reg_live _ Hok); by exists t).
  change (wp (tunnel_event tun h) (fun r s' =>
    handled tun (id t) ((q =? 0) && negb (Z.land ev FD_CLOSE =? 0)) s s' /\
    r = (if negb (q =? 0) &&
            negb ((env_WSAGetLastError w1).1 =? ERROR_IO_PENDING)
         then wsaerror_ret else 0) /\
    (forall s1 ret s2,
       query_events t s = Ok (q, ev, cerr) s1 -> q = 0 ->
       socket_handlers tun ev cerr s1 = Ok ret s2 -> ret < 0 ->
       destroyed s' tun)) s).
  unfold tunnel_event.
  apply wp_bind. apply wp_assert; [by apply negb_true_iff, Z.eqb_neq|].
  apply wp_bind. eapply wp_deref; [exact Ht|].
  rewrite Hproc. cbn [Z.eqb negb].
  assert (Hq : query_events t s = Ok (q, ev, cerr)
     {| heap := heap s; next_ptr := next_ptr s; all_tunnels := all_tunnels s;
        last_tid := last_tid s;
        trace := trace s ++ [Call_WSAEnumNetworkEvents (sock t) q];
        world := w1 |}).
  { unfold query_events, extern. by rewrite Henum. }
  eapply wp_bind_eq; [exact Hq|]. cbv beta iota.
  match type of Hq with _ = Ok _ ?st => set (s1 := st) in * end.
  assert (Hok1 : registry_ok s1) by (eapply registry_ok_same; [| | |exact Hok]; reflexivity).
  assert (Ht1 : heap s1 !! tun = Some t) by exact Ht.
  assert (Ho1 : others_untouched tun s s1) by (by apply others_untouched_same).
  destruct (Z.eqb_spec q 0) as [Eq|Eq]; cbn [negb andb].
  - specialize (Hexp Eq).
    destruct (wp_socket_handlers tun t ev cerr s1
               (handlers_done tun (id t) (Z.land ev FD_ACCEPT <> 0) s1)
               Hok1 Ht1) as (ret & s2 & Hrun & [Hok2 Ho2 (l & Hl & Hnc) Htun]).
    { intros Hacc. by apply Hexp. }
    { auto. }
    eapply wp_bind_eq; [exact Hrun|].
    destruct (Z.eqb_spec (Z.land ev FD_CLOSE) 0) as [Ec|Ec]; cbn [negb].
    + (* no close bit *)
      unfold tunnel_event_end. apply wp_bind.
      destruct (Z.ltb_spec ret 0) as [Er|Er].
      * destruct Htun as [(Hr & _)|(t' & Ht' & Hid & Hin')]; [lia|].
        eapply wp_tunnel_close; [exact Ht'|exact Hin'|].
        intros s3 Hcl. apply wp_ret. split; [|split; [reflexivity|]].
        -- split.
           ++ eapply registry_ok_closed; eauto.
           ++ eapply others_untouched_trans; [exact Ho1|].
              eapply others_untouched_trans; [exact Ho2|].
              by apply closed_others_untouched.
           ++ destruct (cl_trace _ _ _ Hcl) as (l3 & Hl3 & Hrec).
              exists ([Call_WSAEnumNetworkEvents (sock t) q] ++ l ++ l3). split.
              ** unfold calls_between in *. rewrite Hl3, Hl. cbn.
                 by rewrite <- !app_assoc.
              ** apply Forall_app. split; [repeat constructor; cbn; tauto|].
                 apply Forall_app. split; [exact Hnc|].
                 by apply not_record_not_close.
           ++ discriminate.
        -- intros _ _ _ _ _ _ _. eapply closed_destroyed; eauto.
      * apply wp_ret. apply wp_ret. split; [|split; [reflexivity|]].
        -- split.
           ++ exact Hok2.
           ++ eapply others_untouched_trans; [exact Ho1|exact Ho2].
           ++ exists ([Call_WSAEnumNetworkEvents (sock t) q] ++ l). split.
              ** unfold calls_between in *. rewrite Hl. cbn.
                 by rewrite <- !app_assoc.
              ** apply Forall_app. split; [repeat constructor; cbn; tauto|exact Hnc].
           ++ discriminate.
        -- intros s1' ret' s2' Hq' _ Hrun' Hneg.
           rewrite Hq in Hq'. inversion Hq'; subst s1'.
           rewrite Hrun in Hrun'. inversion Hrun'; subst. lia.
    + (* close bit *)
      destruct Htun as [(_ & _ & Hacc)|(t' & Ht' & Hid & Hin')].
      { exfalso. apply Ec. by apply Hexp. }
      eapply wp_tunnel_close_event; [exact Ht'|exact Hin'|].
      intros s3 cret l3 Hrm Hl3 Hrec. split; [|split; [reflexivity|]].
      * split.
        -- eapply registry_ok_removed; eauto.
        -- eapply others_untouched_trans; [exact Ho1|].
           eapply others_untouched_trans; [exact Ho2|].
           by apply removed_others_untouched.
        -- eexists. split.
           ++ unfold calls_between in *. rewrite Hl3, Hl. cbn.
              rewrite <- !app_assoc. reflexivity.
           ++ exists ([Call_WSAEnumNetworkEvents (sock t) q] ++ l), cret, l3.
              split; [by rewrite Hid, <- app_assoc|]. split; [|exact Hrec].
              apply Forall_app. split; [repeat constructor; cbn; tauto|exact Hnc].
        -- intros _. eapply removed_destroyed; eauto.
      * intros _ _ _ _ _ _ _. eapply removed_destroyed; eauto.
  - apply wp_bind. apply wp_extern_quiet. intros e w2 Hgle.
    cbn [world s1] in Hgle. rewrite Hgle. cbn [fst].
    assert (Hhd : forall w', handled tun (id t) false s
        {| heap := heap s1; next_ptr := next_ptr s1;
           all_tunnels := all_tunnels s1; last_tid := last_tid s1;
           trace := trace s1; world := w' |}).
    { intros w'. split.
      - eapply registry_ok_same; [| | |exact Hok]; reflexivity.
      - by apply others_untouched_same.
      - exists [Call_WSAEnumNetworkEvents (sock t) q]. split; [reflexivity|].
        repeat constructor; cbn; tauto.
      - discriminate. }
    destruct (negb (e =? ERROR_IO_PENDING)).
    + apply wp_ret. split; [apply Hhd|]. split; [reflexivity|].
      intros; contradiction.
    + unfold tunnel_event_end. cbn [Z.ltb Z.compare].
      apply wp_bind. apply wp_ret. apply wp_ret.
      split; [apply Hhd|]. split; [reflexivity|]. intros; contradiction.
Qed.

Lemma respects_pipe_handlers tun t h :
  h = rio_hEvent t \/ h = wio_hEvent t ->
  respects tun (pipe_handlers tun t h) anything.
Proof.
  intros Hh. unfold pipe_handlers.
  destruct (Z.eqb_spec h (rio_hEvent t)) as [E|E]; [apply respects_fdread|].
  destruct Hh as [Hh|Hh]; [contradiction|].
  apply Z.eqb_eq in Hh. rewrite Hh.
  apply respects_bind; [|intros _; apply respects_fdwrite].
  unfold assert. respects_step.
Qed.

(** [tunnel_event] on a process tunnel. *)
Lemma tunnel_event_process tun t h s :
  registry_ok s -> heap s !! tun = Some t -> proc t <> 0 ->
  event_expected t h (world s) ->
  exists r s',
    tunnel_event tun h s = Ok r s' /\
    handled tun (id t) (close_signalled t h (world s)) s s' /\
    r = 0 /\
    (handlers_fail tun t h s -> destroyed s' tun).
Proof.
  intros Hok Ht Hproc [Hh Hexp].
  cut (exists r s',
    tunnel_event tun h s = Ok r s' /\
    handled tun (id t) (close_signalled t h (world s)) s s' /\
    r = 0 /\
    (forall ret s2,
       h <> proc t -> pipe_handlers tun t h s = Ok ret s2 -> ret < 0 ->
       destroyed s' tun)).
  { intros (r & s' & H1 & H2 & H3 & H4). exists r, s'.
    split; [exact H1|]. split; [exact H2|]. split; [exact H3|].
    unfold handlers_fail. apply Z.eqb_neq in Hproc. rewrite Hproc. cbn [negb].
    intros (Hne & ret & s2 & Hrun & Hneg). eapply H4; eauto. }
  unfold close_signalled. unfold event_expected in Hexp.
  apply Z.eqb_neq in Hproc as Hb. rewrite Hb in *. cbn [negb] in *.
  assert (Hin : tun ∈ all_tunnels s) by (apply (reg_live _ Hok); by exists t).
  change (wp (tunnel_event tun h) (fun r s' =>
    handled tun (id t) (h =? proc t) s s' /\ r = 0 /\
    (forall ret s2,
       h <> proc t -> pipe_handlers tun t h s = Ok ret s2 -> ret < 0 ->
       destroyed s' tun)) s).
  unfold tunnel_event.
  apply wp_bind. apply wp_assert; [by apply negb_true_iff, Z.eqb_neq|].
  apply wp_bind. eapply wp_deref; [exact Ht|].
  rewrite Hb. cbn [negb].
  destruct (Z.eqb_spec h (proc t)) as [E|E].
  - eapply wp_tunnel_close_event; [exact Ht|exact Hin|].
    intros s3 cret l3 Hrm Hl3 Hrec. split; [|split; [reflexivity|]].
    + split.
      * eapply registry_ok_removed; eauto.
      * by apply removed_others_untouched.
      * eexists. split; [exact Hl3|].
        exists [], cret, l3. split; [reflexivity|]. split; [constructor|exact Hrec].
      * intros _. eapply removed_destroyed; eauto.
    + intros; contradiction.
  - destruct Hexp as [Hexp|Hexp]; [contradiction|].
    destruct (respects_from tun (pipe_handlers tun t h) anything s s
                (fun ret s2 => evolves tun s s2)) as (ret & s2 & Hrun & He).
    { by apply respects_pipe_handlers. }
    { apply evolves_refl. }
    { by exists t. }
    { auto. }
    eapply wp_bind_eq; [exact Hrun|].
    destruct (ev_tun _ _ _ He t Ht) as (t' & Ht' & Hid & _).
    assert (Hok2 : registry_ok s2).
    { eapply registry_ok_evolves; [exact He| |exact Hok]. by exists t. }
    unfold tunnel_event_end. apply wp_bind.
    destruct (ev_trace _ _ _ He) as (l & Hl & Hnc).
    destruct (Z.ltb_spec ret 0) as [Er|Er].
    + eapply wp_tunnel_close; [exact Ht'| |].
      { by rewrite (ev_list _ _ _ He). }
      intros s3 Hcl. apply wp_ret. split; [|split; [reflexivity|]].
      * split.
        -- eapply registry_ok_closed; eauto.
        -- eapply others_untouched_trans;
             [by apply evolves_others_untouched|by apply closed_others_untouched].
        -- destruct (cl_trace _ _ _ Hcl) as (l3 & Hl3 & Hrec).
           exists (l ++ l3). split.
           ++ unfold calls_between in *. rewrite Hl3, Hl. by rewrite <- app_assoc.
           ++ apply Forall_app. split; [exact Hnc|by apply not_record_not_close].
        -- discriminate.
      * intros _ _ _ _ _. eapply closed_destroyed; eauto.
    + apply wp_ret. apply wp_ret. split; [|split; [reflexivity|]].
      * split.
        -- exact Hok2.
        -- by apply evolves_others_untouched.
        -- exists l. auto.
        -- discriminate.
      * intros ret' s2' _ Hrun' Hneg.
        rewrite Hrun in Hrun'. inversion Hrun'; subst. lia.
Qed.

End Event.

Section Write.
Context {W : Type} {X : Extern W}.
Implicit Types (s : state W) (p tun : ptr).

Lemma drain_calls_drain t buf (l : list call) :
  drain_calls t buf l -> Exists is_drain l.
Proof.
  unfold drain_calls.
  destruct (negb (proc t =? 0)).
  - intros [ret ->]. by left.
  - intros [(ru & _ & ->)|(ret & ->)]; by left.
Qed.

(** [tunnel_write] when [iobuf_append] accepts the bytes. *)
Lemma tunnel_write_accepted tun t data s w1 :
  heap s !! tun = Some t -> data <> [] ->
  env_iobuf_append (wio_buf t) data (world s) = (true, w1) ->
  exists r s', tunnel_write tun data s = Ok r s' /\ written tun t data s r s'.
Proof.
  intros Ht Hdata Happ.
  change (wp (tunnel_write tun data) (written tun t data s) s).
  unfold tunnel_write.
  assert (Hlen : (length data =? 0)%nat = false).
  { apply Nat.eqb_neq. destruct data; [congruence|cbn; lia]. }
  assert (Hlen' : (0 <? length data)%nat = true).
  { apply Nat.ltb_lt. destruct data; [congruence|cbn; lia]. }
  apply wp_bind. apply wp_assert; [by rewrite Hlen|].
  apply wp_bind. eapply wp_deref; [exact Ht|].
  rewrite Hlen'. apply wp_bind. unfold iobuf_append.
  apply wp_bind. eapply wp_deref; [exact Ht|].
  apply wp_bind. apply wp_extern_quiet. intros ok w Hok.
  rewrite Happ in Hok. inversion Hok; subst ok w. clear Hok.
  apply wp_bind. eapply wp_modify; [exact Ht|]. apply wp_ret.
  cbn [negb].
  set (t1 := set_wio_buf (wio_buf t ++ data) t).
  match goal with |- wp _ _ ?st => set (s1 := st) end.
  assert (Ht1 : heap s1 !! tun = Some t1) by apply lookup_insert_eq.
  destruct (drains_at_once t) eqn:Hd; unfold drains_at_once in Hd.
  2:{ assert (Hg : negb (length (wio_buf t) =? 0)%nat || negb (connected t) = true).
      { destruct (connected t), (length (wio_buf t) =? 0)%nat; cbn in *; congruence. }
      rewrite Hg. apply wp_ret. split.
      - exists t1, 0%nat. split; [exact Ht1|]. split; [reflexivity|auto].
      - exists []. split; [unfold calls_between; cbn; by rewrite app_nil_r|].
        unfold drains_at_once. rewrite Hd. auto. }
  apply andb_true_iff in Hd as [Econ Eused]. rewrite Econ, Eused. cbn [negb orb].
  assert (Hfin : forall r (s' : state W) t' n l,
    heap s' !! tun = Some t' ->
    wio_buf t' = skipn n (wio_buf t ++ data) ->
    trace s' = trace s ++ l ->
    drain_calls t (wio_buf t ++ data) l ->
    written tun t data s r s').
  { intros r s' t' n l H1 H2 H3 H4. split.
    - exists t', n. split; [exact H1|]. split; [exact H2|].
      unfold drains_at_once. rewrite Econ, Eused. discriminate.
    - exists l. split; [exact H3|].
      unfold drains_at_once. rewrite Econ, Eused. exact H4. }
  unfold drain_calls in Hfin.
  destruct (negb (proc t =? 0)) eqn:Eproc.
  - unfold tunnel_fdwrite_event, aio_write.
    apply wp_bind. eapply wp_deref; [exact Ht1|].
    apply wp_bind. apply wp_extern. intros [ret n] w2 _. cbn [fst].
    apply wp_bind. destruct (0 <=? ret).
    + eapply wp_modify; [exact Ht1|]. apply wp_ret.
      eapply (Hfin _ _ _ (Z.to_nat n)); [apply lookup_insert_eq|reflexivity|reflexivity|].
      by exists ret.
    + apply wp_ret. apply wp_ret.
      eapply (Hfin _ _ _ 0%nat); [exact Ht1|reflexivity|reflexivity|].
      by exists ret.
  - apply wp_bind. unfold net_update_watch.
    apply wp_bind. eapply wp_deref; [exact Ht1|].
    apply wp_extern. intros ru w2 _.
    destruct (Z.eqb_spec ru 0) as [Eru|Eru]; cbn [negb].
    + unfold tunnel_socksend_event, net_write.
      apply wp_bind. apply wp_bind. eapply wp_deref; [exact Ht1|].
      apply wp_bind. apply wp_extern. intros [ret n] w3 _. cbn [fst].
      apply wp_bind.
      destruct (0 <=? ret).
      * eapply wp_modify; [exact Ht1|]. apply wp_ret.
        destruct (ret <? 0); apply wp_ret;
          (eapply (Hfin _ _ _ (Z.to_nat n));
           [apply lookup_insert_eq|reflexivity
           |cbn; rewrite <- app_assoc; reflexivity
           |right; exists ret; by rewrite Eru]).
      * apply wp_ret. apply wp_ret.
        destruct (ret <? 0); apply wp_ret;
          (eapply (Hfin _ _ _ 0%nat);
           [exact Ht1|reflexivity
           |cbn; rewrite <- app_assoc; reflexivity
           |right; exists ret; by rewrite Eru]).
    + apply wp_ret.
      eapply (Hfin _ _ _ 0%nat); [exact Ht1|reflexivity|reflexivity|].
      left. by exists ru.
Qed.

(** [tunnel_write] when [iobuf_append] refuses the bytes: the error goes
    back to the caller; nothing is appended, called or destroyed. *)
Lemma tunnel_write_refused tun t data s w1 :
  heap s !! tun = Some t -> data <> [] ->
  env_iobuf_append (wio_buf t) data (world s) = (false, w1) ->
  exists s', tunnel_write tun data s = Ok error_ret s' /\
    heap s' = heap s /\ all_tunnels s' = all_tunnels s /\ trace s' = trace s.
Proof.
  intros Ht Hdata Happ.
  assert (H : wp (tunnel_write tun data) (fun r s' => r = error_ret /\
    heap s' = heap s /\ all_tunnels s' = all_tunnels s /\ trace s' = trace s) s).
  { unfold tunnel_write.
    assert (Hlen : (length data =? 0)%nat = false).
    { apply Nat.eqb_neq. destruct data; [congruence|cbn; lia]. }
    assert (Hlen' : (0 <? length data)%nat = true).
    { apply Nat.ltb_lt. destruct data; [congruence|cbn; lia]. }
    apply wp_bind. apply wp_assert; [by rewrite Hlen|].
    apply wp_bind. eapply wp_deref; [exact Ht|].
    rewrite Hlen'. apply wp_bind. unfold iobuf_append.
    apply wp_bind. eapply wp_deref; [exact Ht|].
    apply wp_bind. apply wp_extern_quiet. intros ok w Hok.
    rewrite Happ in Hok. inversion Hok; subst ok w. clear Hok.
    apply wp_bind. apply wp_ret. apply wp_ret. cbn [negb].
    apply wp_ret. auto. }
  destruct H as (r & s' & H1 & -> & H2). exists s'. auto.
Qed.

(** The pending-to-established transition drains what was held: when
    [tunnel_connect_event] establishes a tunnel whose [wio] holds bytes,
    it has called [net_write] on them. *)
Lemma connect_event_drains tun t s :
  heap s !! tun = Some t -> wio_buf t <> [] ->
  exists r s' l,
    tunnel_connect_event tun 0 s = Ok r s' /\ calls_between s s' l /\
    (r = 0 -> exists ret, Call_net_write (sock t) (wio_buf t) ret ∈ l).
Proof.
  intros Ht Hbuf.
  assert (H : wp (tunnel_connect_event tun 0) (fun r s' =>
    exists l, calls_between s s' l /\
      (r = 0 -> exists ret, Call_net_write (sock t) (wio_buf t) ret ∈ l)) s).
  { unfold tunnel_connect_event, connect_answer. cbn [Z.eqb].
    assert (Hne : negb (length (wio_buf t) =? 0)%nat = true).
    { apply negb_true_iff, Nat.eqb_neq. destruct (wio_buf t); [congruence|cbn; lia]. }
    unfold net_update_watch, tunnel_socksend_event, net_write, channel_write.
    repeat wp_step;
      (eexists; split;
       [unfold calls_between; cbn [trace]; rewrite <- ?app_assoc; reflexivity|];
       intros Hr;
       first
         [ discriminate Hr
         | exfalso; congruence
         | exfalso;
           match goal with E : _ && _ = true |- _ =>
             cbn in E; rewrite andb_false_r in E; discriminate E end
         | eexists; cbn [app];
           repeat first [apply list_elem_of_here | apply list_elem_of_further] ]). }
  destruct H as (r & s' & H1 & l & H2 & H3). exists r, s', l. auto.
Qed.

End Write.

(** * Properties *)

(** ** The error table and the answer codec *)

(** C8: an OS error code is mapped to the wire error byte 2 (forbidden)
    for access-denied, 3 (conn-refused) for connection-refused, 4
    (not-available) for address-not-available, 5 (resolve) for
    host-not-found, and 1 (generic) for every other code. *)
Theorem wsa_to_r2t_error_table (e : Z) :
  (e = WSAEACCES -> wsa_to_r2t_error e = 2) /\
  (e = WSAECONNREFUSED -> wsa_to_r2t_error e = 3) /\
  (e = WSAEADDRNOTAVAIL -> wsa_to_r2t_error e = 4) /\
  (e = WSAHOST_NOT_FOUND -> wsa_to_r2t_error e = 5) /\
  (e <> WSAEACCES -> e <> WSAECONNREFUSED -> e <> WSAEADDRNOTAVAIL ->
   e <> WSAHOST_NOT_FOUND -> wsa_to_r2t_error e = 1).
Proof.
  repeat split; try (intros ->; reflexivity).
  intros H1 H2 H3 H4. unfold wsa_to_r2t_error.
  destruct (Z.eqb_spec e WSAEACCES); [contradiction|].
  destruct (Z.eqb_spec e WSAECONNREFUSED); [contradiction|].
  destruct (Z.eqb_spec e WSAEADDRNOTAVAIL); [contradiction|].
  destruct (Z.eqb_spec e WSAHOST_NOT_FOUND); [contradiction|].
  reflexivity.
Qed.

Lemma wsa_to_r2t_error_table_witness :
  wsa_to_r2t_error 10061 = 3 /\ wsa_to_r2t_error 10054 = 1.
Proof.
  split.
  - apply (wsa_to_r2t_error_table 10061). reflexivity.
  - apply (wsa_to_r2t_error_table 10054); discriminate.
Defined.

(** C9: the success answer built from an ipv4 address is exactly the 8
    bytes err=0, af=1, the port in network order, the 4 address bytes;
    from an ipv6 address it is exactly the 20 bytes err=0, af=2, the
    port, the 16 address bytes. *)
Theorem netaddr_to_connans_layout (a : netaddr_t) :
  (is_ipv4 a ->
   snd (netaddr_to_connans a) = 8 /\
   length (connans_payload (fst (netaddr_to_connans a))
                           (snd (netaddr_to_connans a))) = 8%nat /\
   connans_payload (fst (netaddr_to_connans a)) (snd (netaddr_to_connans a))
   = [0; 1] ++ be16 (sin_port a) ++ sin_addr a) /\
  (is_ipv6 a ->
   snd (netaddr_to_connans a) = 20 /\
   length (connans_payload (fst (netaddr_to_connans a))
                           (snd (netaddr_to_connans a))) = 20%nat /\
   connans_payload (fst (netaddr_to_connans a)) (snd (netaddr_to_connans a))
   = [0; 2] ++ be16 (sin_port a) ++ sin6_addr a).
Proof.
  split; intros [Haf Hlen]; unfold netaddr_to_connans; rewrite Haf; simpl.
  - destruct (sin_addr a) as [|a0 [|a1 [|a2 [|a3 [|? ?]]]]]; try discriminate.
    repeat split.
  - destruct (sin6_addr a) as [|b0 l]; try discriminate.
    do 15 (destruct l as [|? l]; try discriminate).
    destruct l; try discriminate.
    repeat split.
Qed.

Lemma netaddr_to_connans_layout_witness :
  connans_payload (fst (netaddr_to_connans scenario_addr))
                  (snd (netaddr_to_connans scenario_addr))
  = [0; 1; 31; 144; 127; 0; 0; 1].
Proof.
  apply (proj1 (netaddr_to_connans_layout scenario_addr)).
  split; reflexivity.
Defined.

(** ** The identifier allocator *)

Section AllocatorClaims.
Context {W : Type} {X : Extern W}.

Lemma tunnel_lookup_state i (s : state W) r s' :
  tunnel_lookup i s = Ok r s' -> s' = s.
Proof.
  unfold tunnel_lookup. destruct (lookup_walk _ _ _); intros H; by inversion H.
Qed.

Lemma tunnel_lookup_none i (s : state W) :
  registry_ok s -> tunnel_lookup i s = Ok None s -> i ∉ registry_ids s.
Proof.
  intros Hok H.
  destruct (lookup_walk_live (heap s) (all_tunnels s) i) as (r & Hr & Hspec).
  { intros p Hp. by apply (reg_live _ Hok). }
  unfold tunnel_lookup in H. rewrite Hr in H. inversion H; subst. exact Hspec.
Qed.

Lemma generate_id_loop_S fuel last tid :
  generate_id_loop (W:=W) (S fuel) last tid
  = if tid =? last then mret (Some None)
    else
      tun ← tunnel_lookup tid;
      match tun with
      | None => set_last_tid tid;; mret (Some (Some tid))
      | Some _ => generate_id_loop fuel last ((tid + 1) mod 256)
      end.
Proof. reflexivity. Qed.

(** What the allocator does hold: an id other than 0xff that it returns
    is not in the registry, and the call changes nothing but
    [last_tid]. *)
Lemma tunnel_generate_id_fresh (s : state W) :
  registry_ok s ->
  exists tid s', tunnel_generate_id s = Ok tid s' /\
    only_last_tid s s' /\ (tid <> 255 -> tid ∉ registry_ids s).
Proof.
  intros Hok.
  apply (wp_tunnel_generate_id s
           (fun tid s' => only_last_tid s s' /\
                          (tid <> 255 -> tid ∉ registry_ids s)) Hok).
  auto.
Qed.

(** C2: with [last_tid = 0xfe] and 0xff not in the registry, the scan of
    [tunnel_generate_id] stops at its first candidate, 0xff, and the
    body of the loop returns it as the allocated id, recording it in
    [last_tid]: the value the caller reads as exhaustion is handed out
    by the allocation path. *)
Theorem generate_id_allocates_0xff (s : state W) :
  last_tid s = 254 ->
  tunnel_lookup 255 s = Ok None s ->
  exists s',
    generate_id_loop 256 (last_tid s) ((last_tid s + 1) mod 256) s
      = Ok (Some (Some 255)) s' /\
    tunnel_generate_id s = Ok 255 s' /\
    last_tid s' = 255 /\ only_last_tid s s'.
Proof.
  intros Hlast Hlookup.
  eexists. split; [|split; [|split]].
  - rewrite Hlast. change ((254 + 1) mod 256) with 255.
    change 256%nat with (S 255). rewrite generate_id_loop_S.
    change (255 =? 254) with false. cbv iota.
    unfold mbind, M_bind. rewrite Hlookup. reflexivity.
  - unfold tunnel_generate_id, get_last_tid.
    unfold mbind at 1. unfold M_bind at 1. rewrite Hlast.
    change ((254 + 1) mod 256) with 255.
    change 256%nat with (S 255). rewrite generate_id_loop_S.
    change (255 =? 254) with false. cbv iota.
    unfold mbind, M_bind. rewrite Hlookup. reflexivity.
  - reflexivity.
  - by split.
Qed.

End AllocatorClaims.

Lemma generate_id_allocates_0xff_witness :
  exists s',
    tunnel_generate_id busy_state = Ok 255 s' /\ last_tid s' = 255.
Proof.
  destruct (generate_id_allocates_0xff busy_state) as (s' & _ & H & Hl & _).
  - vm_compute. reflexivity.
  - vm_compute. reflexivity.
  - exists s'. split; [exact H | exact Hl].
Defined.

(** C6: after the bind request the listener 0x20 has accepted 254
    connections and the first of them has closed, so id 0 is free and
    [last_tid = 0xfe].  At the next
    connection [tunnel_generate_id] looks at the single id 0xff and
    returns it; [tunnel_accept_event] reads exhaustion, closes the
    client socket and links nothing, although id 0 is free. *)
Theorem accept_reads_exhaustion_with_free_id :
  (0 ∉ registry_ids busy_state) /\
  (255 ∉ registry_ids busy_state) /\
  last_tid busy_state = 254 /\
  length (all_tunnels busy_state) = 254%nat /\
  exists s',
    busy_accept = Ok 0 s' /\
    all_tunnels s' = all_tunnels busy_state /\
    last_tid s' = 255 /\
    trace s' = [Call_WSAEnumNetworkEvents scenario_sock 0;
                Call_net_accept scenario_sock 0;
                Call_net_close {| fd := 0; evt := 0 |}].
Proof.
  split; [|split; [|split; [|split]]].
  - apply (bool_decide_eq_false (0 ∈ registry_ids busy_state)).
    vm_compute. reflexivity.
  - apply (bool_decide_eq_false (255 ∈ registry_ids busy_state)).
    vm_compute. reflexivity.
  - vm_compute. reflexivity.
  - vm_compute. reflexivity.
  - eexists. split; [vm_compute; reflexivity|].
    split; [vm_compute; reflexivity|]. split; vm_compute; reflexivity.
Qed.

(** ** [tunnel_create] and the registry *)

Section RegistryClaims.
Context {W : Type} {X : Extern W}.

Lemma netaddr_to_connans_err a : err (fst (netaddr_to_connans a)) = 0.
Proof. unfold netaddr_to_connans. by destruct (netaddr_af a =? AF_INET). Qed.

(** C1 (amended): a create-bind request with port > 0 that the
    environment lets through links a tcp-listener tunnel (established,
    server, no process) bound to the address [net_server] reports, and
    the bind answer written to the channel is the success answer built
    from that address, which carries its port.  A request with port 0 is
    started as a process tunnel whatever [bind_socket] is: it never
    makes a call other than [process_start], and when memory is
    available its only call is [process_start] on the host string; the
    tunnel is then linked, not as a listener and holding the handle of
    the child, exactly when [process_start] succeeds. *)
Theorem tunnel_create_bind i pref_af host (n b : Z) k a cw (s : state W) :
  host <> EmptyString ->
  (0 < n -> b <> 0 ->
   bind_succeeds i pref_af host n k a cw (world s) ->
   exists s' t,
     tunnel_create i pref_af host n b s = Ok tt s' /\
     all_tunnels s' = all_tunnels s ++ [next_ptr s] /\
     heap s' !! next_ptr s = Some t /\
     id t = i /\ server t = true /\ connected t = true /\ proc t = 0 /\
     sock t = k /\ addr t = a /\
     calls_between s s'
       [Call_net_server pref_af host n 0;
        Call_event_add_tunnel (evt k) i 0;
        Call_channel_write R2TCMD_BIND i
          (connans_payload (fst (netaddr_to_connans a))
                           (snd (netaddr_to_connans a))) cw]) /\
  (n = 0 ->
   tunnel_create i pref_af host n b s = tunnel_create i pref_af host n 0 s /\
   (exists s' l,
      tunnel_create i pref_af host n b s = Ok tt s' /\
      calls_between s s' l /\ Forall is_process_start l) /\
   (forall w1 ret ph w2,
      env_calloc (world s) = (true, w1) ->
      env_process_start host w1 = (ret, ph, w2) ->
      exists s',
        tunnel_create i pref_af host n b s = Ok tt s' /\
        calls_between s s' [Call_process_start host ret] /\
        (0 <= ret ->
         all_tunnels s' = all_tunnels s ++ [next_ptr s] /\
         exists t, heap s' !! next_ptr s = Some t /\
           id t = i /\ server t = false /\ proc t = ph_proc ph) /\
        (ret < 0 ->
         all_tunnels s' = all_tunnels s /\
         heap s' = delete (next_ptr s) (heap s)))).
Proof.
  intros Hhost. split.
  - intros Hn Hb (w1 & w2 & w3 & w4 & e & Hc & Hs & He & Hw & Hcw).
    assert (Hwp : wp (tunnel_create i pref_af host n b) (fun _ s' =>
      exists t, all_tunnels s' = all_tunnels s ++ [next_ptr s] /\
        heap s' !! next_ptr s = Some t /\
        id t = i /\ server t = true /\ connected t = true /\ proc t = 0 /\
        sock t = k /\ addr t = a /\
        calls_between s s'
          [Call_net_server pref_af host n 0;
           Call_event_add_tunnel (evt k) i 0;
           Call_channel_write R2TCMD_BIND i
             (connans_payload (fst (netaddr_to_connans a))
                              (snd (netaddr_to_connans a))) cw]) s).
    { unfold tunnel_create.
      apply wp_bind. apply wp_assert.
      { apply negb_true_iff. by apply String.eqb_neq. }
      apply Z.ltb_lt in Hn. rewrite Hn.
      apply Z.eqb_neq in Hb. rewrite Hb.
      unfold tunnel_alloc, host_bind, event_add_tunnel, channel_write,
        net_close, event_del_tunnel.
      apply Z.leb_le in Hcw.
      pose proof (netaddr_to_connans_err a) as Herr.
      destruct (netaddr_to_connans a) as [ans len] eqn:Ea.
      cbn [fst snd] in *.
      assert (Hpay : connans_payload
                {| err := 0; af := af ans; port := port ans; addr16 := addr16 ans |} len
              = connans_payload ans len).
      { destruct ans as [e0 ? ? ?]. cbn in Herr. by rewrite Herr. }
      rewrite <- Hpay in Hw.
      repeat wp_step.
      - eexists. split; [reflexivity|]. split; [apply lookup_insert_eq|].
        repeat split.
        unfold calls_between. cbn [trace]. rewrite Hpay.
        by rewrite <- !app_assoc.
      - exfalso.
        match goal with E : _ && _ = false |- _ =>
          rewrite Hcw in E; cbn in E; discriminate E end. }
    destruct Hwp as ([] & s' & Hrun & t & Hrest). exists s', t. auto.
  - intros ->. split; [reflexivity|].
    assert (Hwp : wp (tunnel_create i pref_af host 0 b) (fun _ s' =>
      exists l, calls_between s s' l /\ Forall is_process_start l) s).
    { unfold tunnel_create.
      apply wp_bind. apply wp_assert.
      { apply negb_true_iff. by apply String.eqb_neq. }
      unfold tunnel_alloc, process_start. cbn [Z.ltb Z.compare].
      repeat wp_step;
        (eexists; split;
         [unfold calls_between; cbn [trace]; rewrite <- ?app_assoc;
          first [reflexivity | symmetry; apply app_nil_r]
         |repeat constructor]). }
    split.
    { destruct Hwp as ([] & s' & Hrun & l & Hrest). exists s', l. auto. }
    clear Hwp. intros w1 ret ph w2 Hcal Hps.
    assert (Hwp : wp (tunnel_create i pref_af host 0 b) (fun _ s' =>
      calls_between s s' [Call_process_start host ret] /\
      (0 <= ret ->
       all_tunnels s' = all_tunnels s ++ [next_ptr s] /\
       exists t, heap s' !! next_ptr s = Some t /\
         id t = i /\ server t = false /\ proc t = ph_proc ph) /\
      (ret < 0 ->
       all_tunnels s' = all_tunnels s /\
       heap s' = delete (next_ptr s) (heap s))) s).
    { unfold tunnel_create.
      apply wp_bind. apply wp_assert.
      { apply negb_true_iff. by apply String.eqb_neq. }
      unfold tunnel_alloc, process_start. cbn [Z.ltb Z.compare].
      repeat wp_step.
      - split; [reflexivity|]. split.
        + intros _. split; [reflexivity|]. eexists.
          split; [apply lookup_insert_eq|]. repeat split.
        + intros Hneg.
          match goal with E : (0 <=? ret) = true |- _ =>
            apply Z.leb_le in E; lia end.
      - split; [reflexivity|]. split.
        + intros Hpos.
          match goal with E : (0 <=? ret) = false |- _ =>
            apply Z.leb_gt in E; lia end.
        + intros _. split; [reflexivity|].
          by rewrite !delete_insert_eq. }
    destruct Hwp as ([] & s' & Hrun & Hrest). exists s'. auto.
Qed.

(** C3 (amended): from a well-formed registry (every live tunnel linked
    exactly once, no two linked tunnels with the same id),
    [tunnel_create] with an id that [tunnel_lookup] does not find,
    [tunnel_accept_event] and [tunnel_close] each return and leave a
    well-formed registry, and no tunnel object changes its id. *)
Theorem registry_stays_well_formed (s : state W) :
  registry_ok s ->
  (forall i pref_af host n b,
     host <> EmptyString -> tunnel_lookup i s = Ok None s ->
     exists s', tunnel_create i pref_af host n b s = Ok tt s' /\
                registry_ok s' /\ ids_stable s s') /\
  (forall tun, tun ∈ all_tunnels s ->
     exists r s', tunnel_accept_event tun s = Ok r s' /\
                  registry_ok s' /\ ids_stable s s') /\
  (forall tun, tun ∈ all_tunnels s ->
     exists s', tunnel_close tun s = Ok tt s' /\
                registry_ok s' /\ ids_stable s s').
Proof.
  intros Hok. split; [|split].
  - intros i pref_af host n b Hhost Hfree.
    apply tunnel_lookup_none in Hfree; [|exact Hok].
    destruct (wp_tunnel_create i pref_af host n b s
                (fun _ s' => registry_ok s' /\ ids_stable s s')
                Hok Hhost Hfree) as ([] & s' & Hrun & H1 & H2).
    { intros s' [A B _ _]. auto. }
    exists s'. auto.
  - intros tun Hin. apply (reg_live _ Hok) in Hin as [t Ht].
    destruct (wp_tunnel_accept_event tun t s
                (fun _ s' => registry_ok s' /\ ids_stable s s')
                Hok Ht) as (r & s' & Hrun & H1 & H2).
    { intros r s' Hacc. split; [apply (acc_ok _ _ _ _ Hacc)|apply (acc_ids _ _ _ _ Hacc)]. }
    exists r, s'. auto.
  - intros tun Hin. destruct (proj1 (reg_live _ Hok tun) Hin) as [t Ht].
    destruct (wp_tunnel_close tun t s
                (fun _ s' => registry_ok s' /\ ids_stable s s')
                Ht Hin) as ([] & s' & Hrun & H1 & H2).
    { intros s' Hcl. split; [by eapply registry_ok_closed|by eapply closed_ids_stable]. }
    exists s'. auto.
Qed.

Lemma registry_ok_init (w : W) : registry_ok (init_state w).
Proof.
  split; cbn.
  - constructor.
  - intros p. unfold live. cbn. rewrite lookup_empty. split.
    + intros H. by apply elem_of_nil in H.
    + intros [? ?]. discriminate.
  - constructor.
  - intros p [t Ht]. cbn in Ht. by rewrite lookup_empty in Ht.
Qed.

Lemma registry_ok_one_tunnel (t : tunnel_t) last (w : W) :
  registry_ok {| heap := {[ 1%positive := t ]}; next_ptr := 2%positive;
                 all_tunnels := [1%positive]; last_tid := last; trace := [];
                 world := w |}.
Proof.
  split; cbn.
  - apply NoDup_singleton.
  - intros p. unfold live. cbn. rewrite list_elem_of_singleton. split.
    + intros ->. rewrite lookup_singleton_eq. eauto.
    + intros [u Hu]. apply lookup_singleton_Some in Hu as [<- _]. reflexivity.
  - unfold registry_ids, linked_tunnels. cbn. rewrite lookup_singleton_eq.
    apply NoDup_singleton.
  - intros p [u Hu]. cbn in Hu. apply lookup_singleton_Some in Hu as [<- _]. lia.
Qed.

End RegistryClaims.

Lemma tunnel_create_bind_witness :
  (exists s' t,
     bind_port4000 = Ok tt s' /\
     heap s' !! 1%positive = Some t /\ server t = true /\
     addr t = scenario_addr /\
     trace s' = [Call_net_server 1 "0.0.0.0" 4000 0;
                 Call_event_add_tunnel 9 32 0;
                 Call_channel_write R2TCMD_BIND 32 [0; 1; 31; 144; 127; 0; 0; 1] 0]) /\
  (exists s' t,
     bind_port0 = Ok tt s' /\
     trace s' = [Call_process_start "0.0.0.0" 0] /\
     all_tunnels s' = [1%positive] /\
     heap s' !! 1%positive = Some t /\ id t = 32 /\ server t = false).
Proof.
  split.
  - destruct (proj1 (tunnel_create_bind 32 1 "0.0.0.0" 4000 1
                       scenario_sock scenario_addr 0
                       (init_state [ABool true;
                                    ASock 0 scenario_sock scenario_addr 0;
                                    AInt 0; AInt 0])
                       ltac:(discriminate)))
      as (s' & t & Hrun & _ & Ht & _ & Hs & _ & _ & _ & Ha & Hc).
    + lia.
    + lia.
    + eexists _, _, _, _, _. repeat split; first [reflexivity | lia].
    + exists s', t. repeat split; auto.
  - destruct (proj2 (tunnel_create_bind 32 1 "0.0.0.0" 0 1
                       scenario_sock scenario_addr 0
                       (init_state [ABool true; AProc 0 no_handles])
                       ltac:(discriminate)) eq_refl)
      as (_ & _ & Hstart).
    destruct (Hstart [AProc 0 no_handles] 0 no_handles [] eq_refl eq_refl)
      as (s' & Hrun & Hc & Hlink & _).
    destruct (Hlink ltac:(lia)) as (Hl & t & Ht & Hid & Hsrv & _).
    exists s', t. repeat split; auto.
Defined.

(** C1 (counterexample): a bind request with port 0 makes a single call,
    [process_start] on the host string, and links a tunnel that is not a
    listener; no socket is bound and no bind answer is written. *)
Lemma bind_port0_is_process_tunnel :
  exists s',
    bind_port0 = Ok tt s' /\
    trace s' = [Call_process_start "0.0.0.0" 0] /\
    map (fun t => (id t, server t)) (linked_tunnels s') = [(32, false)].
Proof.
  eexists. split; [vm_compute; reflexivity|].
  split; vm_compute; reflexivity.
Qed.

Lemma registry_stays_well_formed_witness :
  exists s',
    tunnel_create 5 1 "host" 80 0
      (init_state [ABool true; ASock 1 scenario_sock scenario_addr 0; AInt 0])
    = Ok tt s' /\ registry_ok s'.
Proof.
  destruct (proj1 (registry_stays_well_formed
                     (init_state [ABool true;
                                  ASock 1 scenario_sock scenario_addr 0; AInt 0])
                     (registry_ok_init _))
              5 1 "host"%string 80 0) as (s' & Hrun & Hok & _).
  - discriminate.
  - reflexivity.
  - exists s'. split; [exact Hrun | exact Hok].
Defined.

(** C3 (counterexample): two connect requests with the same id, both in
    progress, leave two linked tunnels with id 5. *)
Lemma connect_twice_shares_id :
  exists s',
    connect_twice = Ok tt s' /\
    all_tunnels s' = [1%positive; 2%positive] /\
    registry_ids s' = [5; 5].
Proof.
  eexists. split; [vm_compute; reflexivity|].
  split; vm_compute; reflexivity.
Qed.

(** ** Answers to open requests *)

Section AnswerClaims.
Context {W : Type} {X : Extern W}.

(** C4: when [net_server] has bound the socket but the registration of
    its event fails, [host_bind] fails, and the answer it writes has the
    error byte 1 (generic) followed by the whole address layout: 8 bytes
    for an ipv4 address, 20 for an ipv6 one, not the single error byte. *)
Theorem host_bind_long_failure_answer tun t pref_af host n k a e r w1 w2
    (s : state W) :
  heap s !! tun = Some t ->
  env_net_server pref_af host n (world s) = (0, k, a, e, w1) ->
  env_event_add_tunnel (evt k) (id t) w1 = (r, w2) ->
  r <> 0 ->
  exists cw s' payload,
    host_bind tun pref_af host n s = Ok (-1) s' /\
    calls_between s s'
      [Call_net_server pref_af host n 0;
       Call_event_add_tunnel (evt k) (id t) r;
       Call_net_close k;
       Call_channel_write R2TCMD_BIND (id t) payload cw] /\
    (is_ipv4 a -> payload = [1; 1] ++ be16 (sin_port a) ++ sin_addr a /\
                  length payload = 8%nat) /\
    (is_ipv6 a -> payload = [1; 2] ++ be16 (sin_port a) ++ sin6_addr a /\
                  length payload = 20%nat).
Proof.
  intros Ht Hs He Hr.
  assert (Hwp : wp (host_bind tun pref_af host n) (fun ret s' =>
    ret = -1 /\ exists cw payload,
      calls_between s s'
        [Call_net_server pref_af host n 0;
         Call_event_add_tunnel (evt k) (id t) r;
         Call_net_close k;
         Call_channel_write R2TCMD_BIND (id t) payload cw] /\
      (is_ipv4 a -> payload = [1; 1] ++ be16 (sin_port a) ++ sin_addr a /\
                    length payload = 8%nat) /\
      (is_ipv6 a -> payload = [1; 2] ++ be16 (sin_port a) ++ sin6_addr a /\
                    length payload = 20%nat)) s).
  { unfold host_bind, event_add_tunnel, channel_write, net_close,
      event_del_tunnel.
    apply Z.eqb_neq in Hr.
    assert (Hr' : negb (r =? 0) = true) by (by rewrite Hr).
    repeat wp_step;
      try (exfalso;
           match goal with E : _ && _ = true |- _ =>
             cbn in E; rewrite andb_false_r in E; discriminate E end);
      (split; [reflexivity|]; eexists _, _; split;
       [unfold calls_between; cbn [trace]; rewrite <- !app_assoc; reflexivity|]).
    match goal with E : netaddr_to_connans a = _ |- _ =>
      unfold netaddr_to_connans in E; rename E into Ea end.
    split; intros [Haf Hlen]; rewrite Haf in Ea; cbn in Ea;
      inversion Ea; subst; clear Ea.
    - destruct (sin_addr a) as [|b0 [|b1 [|b2 [|b3 [|? ?]]]]];
        try discriminate. split; reflexivity.
    - destruct (sin6_addr a) as [|b0 l]; try discriminate.
      do 15 (destruct l as [|? l]; try discriminate).
      destruct l; try discriminate. split; reflexivity. }
  destruct Hwp as (ret & s' & Hrun & -> & cw & payload & H1 & H2 & H3).
  exists cw, s', payload. auto.
Qed.

End AnswerClaims.

Lemma host_bind_long_failure_answer_witness :
  exists cw s' payload,
    bind_unregistered = Ok (-1) s' /\
    calls_between
      (one_tunnel (set_id 32 tunnel_zero) 255
         [ASock 0 scenario_sock scenario_addr 0; AInt 1; AInt 0]) s'
      [Call_net_server 1 "0.0.0.0" 4000 0;
       Call_event_add_tunnel 9 32 1;
       Call_net_close scenario_sock;
       Call_channel_write R2TCMD_BIND 32 payload cw] /\
    payload = [1; 1; 31; 144; 127; 0; 0; 1].
Proof.
  destruct (host_bind_long_failure_answer 1%positive (set_id 32 tunnel_zero)
              1 "0.0.0.0" 4000 scenario_sock scenario_addr 0 1
              [AInt 1; AInt 0] [AInt 0]
              (one_tunnel (set_id 32 tunnel_zero) 255
                 [ASock 0 scenario_sock scenario_addr 0; AInt 1; AInt 0]))
    as (cw & s' & payload & Hrun & Hcalls & H4 & _).
  - reflexivity.
  - reflexivity.
  - reflexivity.
  - discriminate.
  - exists cw, s', payload. split; [exact Hrun|]. split; [exact Hcalls|].
    apply H4. split; reflexivity.
Defined.

(** ** [tunnel_event] *)

Section EventClaims.
Context {W : Type} {X : Extern W}.

(** For the event sets a client or a listener is signalled with, on a
    socket tunnel [tunnel_event] returns, and it returns 0 unless the
    query of the socket's event set fails with an error other than
    pending I/O, in which case it returns the (negative) value of
    [wsaerror()]; when the handlers it runs fail, the tunnel is
    destroyed and the result is still 0. *)
Theorem tunnel_event_socket_result tun t h (s : state W) :
  registry_ok s -> heap s !! tun = Some t -> proc t = 0 ->
  event_expected t h (world s) ->
  exists r s',
    tunnel_event tun h s = Ok r s' /\
    r = (if query_failed t (world s) then wsaerror_ret else 0) /\
    (r <> 0 <-> query_failed t (world s) = true) /\
    (handlers_fail tun t h s -> r = 0 /\ destroyed s' tun).
Proof.
  intros Hok Ht Hproc Hexp.
  destruct (env_WSAEnumNetworkEvents (sock t) (world s))
    as [[[q ev] cerr] w1] eqn:Henum.
  destruct (tunnel_event_socket tun t h s q ev cerr w1 Hok Ht Hproc Hexp Henum)
    as (r & s' & Hrun & _ & Hr & Hfail).
  exists r, s'. split; [exact Hrun|]. split; [exact Hr|]. split.
  - rewrite Hr. pose proof wsaerror_ret_neg.
    destruct (query_failed t (world s)); split; intros; (lia || congruence).
  - intros Hf. split; [|by apply Hfail].
    rewrite Hr. unfold query_failed. rewrite Henum.
    unfold handlers_fail in Hf. rewrite Hproc in Hf. cbn [Z.eqb negb] in Hf.
    destruct Hf as (q' & ev' & cerr' & s1 & ret & s2 & Hq & Hq0 & _).
    unfold query_events, extern in Hq. rewrite Henum in Hq.
    inversion Hq; subst. reflexivity.
Qed.

End EventClaims.

Lemma read_error_expected :
  event_expected client_tunnel 9 [AEvents 0 FD_READ 0; ABytes (-1) []].
Proof.
  split; [discriminate|]. cbn. intros _ H. exfalso. apply H. reflexivity.
Defined.

(** The state of the scenarios on tunnel 5 is the one the program is in
    after a connect request that completes at once. *)
Lemma client_tunnel_reached :
  exists s',
    connect_done = Ok tt s' /\
    heap s' = heap (one_tunnel client_tunnel 255 []) /\
    all_tunnels s' = all_tunnels (one_tunnel client_tunnel 255 []) /\
    next_ptr s' = next_ptr (one_tunnel client_tunnel 255 []) /\
    last_tid s' = last_tid (one_tunnel client_tunnel 255 []).
Proof.
  eexists. split; [vm_compute; reflexivity|].
  repeat split; vm_compute; reflexivity.
Qed.

(** C5 (counterexample): the established tunnel 5 gets a read event and
    [net_read] fails.  [tunnel_event] returns 0 with the tunnel unlinked
    and freed, and the only calls made are the query, the failed read
    and the teardown: neither an answer nor a close record is written. *)
Lemma read_error_is_silent :
  connected client_tunnel = true /\
  exists s',
    read_error = Ok 0 s' /\
    all_tunnels s' = [] /\ heap s' !! 1%positive = None /\
    trace s' = [Call_WSAEnumNetworkEvents scenario_sock 0;
                Call_net_read scenario_sock (-1);
                Call_event_del_tunnel 5;
                Call_net_close scenario_sock].
Proof.
  split; [reflexivity|].
  eexists. split; [vm_compute; reflexivity|].
  split; [reflexivity|]. split; vm_compute; reflexivity.
Qed.

(** ** [tunnel_write] *)

Section WriteClaims.
Context {W : Type} {X : Extern W}.

Lemma drains_at_once_spec (t : tunnel_t) :
  drains_at_once t = true <-> connected t = true /\ wio_buf t = [].
Proof.
  unfold drains_at_once. rewrite andb_true_iff, Nat.eqb_eq.
  split; intros [H1 H2]; (split; [exact H1|]).
  - by destruct (wio_buf t).
  - by rewrite H2.
Qed.

(** C7 (amended): for every [tunnel_write] of non-empty data that
    [iobuf_append] accepts, the bytes are appended to [wio]; a drain is
    started at once if and only if the tunnel is established and [wio]
    was empty before the append, and it is then a drain of the appended
    buffer ([aio_write] for a process tunnel; for a socket the update of
    its watch and, when that succeeds, [net_write]); otherwise the bytes
    are held, no call is made and the result is 0.  Bytes held by a
    pending tunnel are drained by the transition to established:
    [tunnel_connect_event] returns 0 only after [net_write] on them. *)
Theorem tunnel_write_drains tun t (s : state W) :
  heap s !! tun = Some t ->
  (forall data w1,
     data <> [] ->
     env_iobuf_append (wio_buf t) data (world s) = (true, w1) ->
     exists r s' t' n l,
       tunnel_write tun data s = Ok r s' /\
       heap s' !! tun = Some t' /\
       wio_buf t' = skipn n (wio_buf t ++ data) /\
       calls_between s s' l /\
       (Exists is_drain l <-> connected t = true /\ wio_buf t = []) /\
       (connected t = true -> wio_buf t = [] ->
        drain_calls t (wio_buf t ++ data) l) /\
       (connected t = false \/ wio_buf t <> [] ->
        n = 0%nat /\ l = [] /\ r = 0)) /\
  (wio_buf t <> [] ->
   exists r s' l,
     tunnel_connect_event tun 0 s = Ok r s' /\ calls_between s s' l /\
     (r = 0 -> exists ret, Call_net_write (sock t) (wio_buf t) ret ∈ l)).
Proof.
  intros Ht. split.
  - intros data w1 Hdata Happ.
    destruct (tunnel_write_accepted tun t data s w1 Ht Hdata Happ)
      as (r & s' & Hrun & [(t' & n & Ht' & Hbuf & Hn) (l & Hl & Hcalls)]).
    exists r, s', t', n, l.
    split; [exact Hrun|]. split; [exact Ht'|]. split; [exact Hbuf|].
    split; [exact Hl|].
    pose proof (drains_at_once_spec t) as Hspec.
    destruct (drains_at_once t) eqn:Hd.
    + split; [|split].
      * split; [intros _; by apply Hspec|intros _; by eapply drain_calls_drain].
      * intros _ _. exact Hcalls.
      * intros Hor. exfalso. destruct (proj1 Hspec eq_refl) as [Hc Hb].
        destruct Hor as [Hor|Hor]; congruence.
    + destruct Hcalls as [-> ->]. split; [|split].
      * split; [intros H; inversion H|].
        intros H. apply Hspec in H. discriminate.
      * intros Hc Hb. exfalso.
        assert (false = true) by (by apply Hspec). discriminate.
      * intros _. auto.
  - intros Hbuf. by apply connect_event_drains.
Qed.

End WriteClaims.

Lemma tunnel_write_drains_witness :
  exists r s' l,
    tunnel_connect_event 1%positive 0 (one_tunnel pending_tunnel 255 []) = Ok r s' /\
    calls_between (one_tunnel pending_tunnel 255 []) s' l /\
    (r = 0 -> exists ret, Call_net_write scenario_sock [104; 105] ret ∈ l).
Proof.
  apply (proj2 (tunnel_write_drains 1%positive pending_tunnel
                  (one_tunnel pending_tunnel 255 []) eq_refl)).
  discriminate.
Defined.

(** C7 (counterexample): two bytes are written to the established
    tunnel 5, whose [wio] is empty, and [iobuf_append] refuses them.
    [tunnel_write] returns the error; the buffer is still empty and no
    drain was started. *)
Lemma write_refused_appends_nothing :
  connected client_tunnel = true /\ wio_buf client_tunnel = [] /\
  exists s',
    write_refused = Ok (-1) s' /\
    heap s' !! 1%positive = Some client_tunnel /\
    trace s' = [].
Proof.
  split; [reflexivity|]. split; [reflexivity|].
  eexists. split; [vm_compute; reflexivity|].
  split; vm_compute; reflexivity.
Qed.

(** * Further facts on runs and lists *)

Section RunFacts.
Context {W : Type} {X : Extern W}.

Lemma bind_eq {A B} (m : M W A) (f : A -> M W B) s a s1 :
  m s = Ok a s1 -> (m ≫= f) s = f a s1.
Proof. intros H. unfold mbind, M_bind. by rewrite H. Qed.

Lemma wp_eq {A} (m : M W A) s a s1 (Q : A -> state W -> Prop) :
  m s = Ok a s1 -> Q a s1 -> wp m Q s.
Proof. intros H HQ. exists a, s1. auto. Qed.

Lemma wp_self {A} (m : M W A) s :
  (exists a s', m s = Ok a s') -> wp m (fun a s' => m s = Ok a s') s.
Proof. intros (a & s' & H). exists a, s'. auto. Qed.

End RunFacts.

Lemma filter_all {A} (P : A -> Prop) `{!forall x, Decision (P x)} (l : list A) :
  (forall x, x ∈ l -> P x) -> filter P l = l.
Proof.
  induction l as [|a l IH]; intros Hall; [reflexivity|].
  rewrite filter_cons_True by (apply Hall, list_elem_of_here).
  f_equal. apply IH. intros x Hx. apply Hall. by apply list_elem_of_further.
Qed.

Lemma filter_none {A} (P : A -> Prop) `{!forall x, Decision (P x)} (l : list A) :
  (forall x, x ∈ l -> ~ P x) -> filter P l = [].
Proof.
  induction l as [|a l IH]; intros Hall; [reflexivity|].
  rewrite filter_cons_False by (apply Hall, list_elem_of_here).
  apply IH. intros x Hx. apply Hall. by apply list_elem_of_further.
Qed.

Lemma omap_ext_in {A B} (f g : A -> option B) (l : list A) :
  (forall x, x ∈ l -> f x = g x) -> omap f l = omap g l.
Proof.
  induction l as [|a l IH]; intros H; [reflexivity|].
  cbn [omap list_omap]. rewrite H by apply list_elem_of_here.
  rewrite IH; [reflexivity|]. intros x Hx. apply H. by apply list_elem_of_further.
Qed.

(** * The registry: lookup, creation, teardown *)

Section RegistryLookup.
Context {W : Type} {X : Extern W}.
Implicit Types (s : state W) (p q tun : ptr) (h : gmap ptr tunnel_t).

(** In a list whose ids are pairwise distinct, an id names one node. *)
Lemma ids_of_unique h (l : list ptr) p q t u :
  NoDup (ids_of h l) -> p ∈ l -> q ∈ l ->
  h !! p = Some t -> h !! q = Some u -> id t = id u -> p = q.
Proof.
  induction l as [|a l IH]; intros Hnd Hp Hq Ht Hu Hid.
  - by apply elem_of_nil in Hp.
  - rewrite ids_of_cons in Hnd.
    apply elem_of_cons in Hp as [->|Hp]; apply elem_of_cons in Hq as [->|Hq].
    + reflexivity.
    + rewrite Ht in Hnd. apply NoDup_cons in Hnd as [Hnot _].
      exfalso. apply Hnot. apply ids_of_elem. exists q, u. auto.
    + rewrite Hu in Hnd. apply NoDup_cons in Hnd as [Hnot _].
      exfalso. apply Hnot. apply ids_of_elem. exists p, t. auto.
    + apply IH; auto. destruct (h !! a); [by apply NoDup_cons in Hnd as [_ ?]|done].
Qed.

Lemma lookup_walk_ext h h' (l : list ptr) i :
  (forall p, p ∈ l -> h' !! p = h !! p) ->
  lookup_walk h' l i = lookup_walk h l i.
Proof.
  induction l as [|a l IH]; intros H; [reflexivity|].
  rewrite !lookup_walk_cons, H by apply list_elem_of_here.
  rewrite IH; [reflexivity|]. intros p Hp. apply H. by apply list_elem_of_further.
Qed.

Lemma lookup_walk_app h (l1 l2 : list ptr) i :
  lookup_walk h (l1 ++ l2) i
  = match lookup_walk h l1 i with
    | Some None => lookup_walk h l2 i
    | r => r
    end.
Proof.
  induction l1 as [|a l1 IH]; [reflexivity|].
  cbn [app]. rewrite !lookup_walk_cons.
  destruct (h !! a) as [t|]; [|reflexivity].
  destruct (id t =? i); [reflexivity|exact IH].
Qed.

Lemma lookup_walk_remove h tun t (l : list ptr) i :
  h !! tun = Some t -> id t <> i ->
  lookup_walk (delete tun h) (filter (fun q => q ≠ tun) l) i
  = lookup_walk h l i.
Proof.
  intros Ht Hi. induction l as [|a l IH]; [reflexivity|].
  destruct (decide (a = tun)) as [->|Ha].
  - rewrite filter_cons_False by (intros H; by apply H).
    rewrite lookup_walk_cons, Ht.
    apply Z.eqb_neq in Hi. by rewrite Hi.
  - rewrite filter_cons_True by exact Ha.
    rewrite !lookup_walk_cons, lookup_delete_ne by congruence.
    by rewrite IH.
Qed.

Lemma tunnel_lookup_walk i s r :
  tunnel_lookup i s = Ok r s <-> lookup_walk (heap s) (all_tunnels s) i = Some r.
Proof.
  unfold tunnel_lookup. destruct (lookup_walk _ _ _) as [r'|].
  - split; intros H; inversion H; reflexivity.
  - split; discriminate.
Qed.

Lemma tunnel_lookup_absent i s :
  registry_ok s -> i ∉ registry_ids s -> tunnel_lookup i s = Ok None s.
Proof.
  intros Hok Hi. apply tunnel_lookup_walk.
  destruct (lookup_walk_live (heap s) (all_tunnels s) i) as (r & Hr & Hm).
  { intros p Hp. by apply (reg_live _ Hok). }
  destruct r as [q|]; [|exact Hr].
  destruct Hm as (Hq & t & Ht & Hid). exfalso. apply Hi.
  rewrite registry_ids_ids_of. apply ids_of_elem. exists q, t. auto.
Qed.

Lemma tunnel_lookup_present s q t :
  registry_ok s -> q ∈ all_tunnels s -> heap s !! q = Some t ->
  tunnel_lookup (id t) s = Ok (Some q) s.
Proof.
  intros Hok Hq Ht. apply tunnel_lookup_walk.
  destruct (lookup_walk_live (heap s) (all_tunnels s) (id t)) as (r & Hr & Hm).
  { intros p Hp. by apply (reg_live _ Hok). }
  destruct r as [q'|].
  - destruct Hm as (Hq' & u & Hu & Hid).
    rewrite Hr. do 2 f_equal.
    eapply (ids_of_unique (heap s) (all_tunnels s)); eauto.
    rewrite <- registry_ids_ids_of. apply (reg_ids _ Hok).
  - exfalso. apply Hm. apply ids_of_elem. exists q, t. auto.
Qed.

(** X1: in a well-formed registry [tunnel_lookup] returns and leaves the
    state as it is; asked for the id of a linked tunnel it answers that
    very tunnel, and it answers NULL exactly for the ids that no linked
    tunnel has. *)
Theorem tunnel_lookup_finds (s : state W) :
  registry_ok s ->
  (forall i, exists r, tunnel_lookup i s = Ok r s) /\
  (forall q t, q ∈ all_tunnels s -> heap s !! q = Some t ->
     tunnel_lookup (id t) s = Ok (Some q) s) /\
  (forall i, tunnel_lookup i s = Ok None s <-> i ∉ registry_ids s).
Proof.
  intros Hok. split; [|split].
  - intros i.
    destruct (lookup_walk_live (heap s) (all_tunnels s) i) as (r & Hr & _).
    { intros p Hp. by apply (reg_live _ Hok). }
    exists r. by apply tunnel_lookup_walk.
  - intros q t. by apply tunnel_lookup_present.
  - intros i. split.
    + intros H. apply tunnel_lookup_walk in H.
      destruct (lookup_walk_live (heap s) (all_tunnels s) i) as (r & Hr & Hm).
      { intros p Hp. by apply (reg_live _ Hok). }
      rewrite H in Hr. inversion Hr; subst r. exact Hm.
    + by apply tunnel_lookup_absent.
Qed.

(** X2: [tunnel_create] with an id that is not in the registry returns,
    and afterwards [tunnel_lookup] of that id finds the tunnel it linked
    at the tail of the list, or nothing when it linked none; the answer
    of [tunnel_lookup] for every other id is what it was before. *)
Theorem tunnel_create_then_lookup i pref_af host (n b : Z) (s : state W) :
  registry_ok s -> host <> EmptyString -> i ∉ registry_ids s ->
  exists s',
    tunnel_create i pref_af host n b s = Ok tt s' /\
    (all_tunnels s' = all_tunnels s /\ tunnel_lookup i s' = Ok None s' \/
     all_tunnels s' = all_tunnels s ++ [next_ptr s] /\
     tunnel_lookup i s' = Ok (Some (next_ptr s)) s') /\
    (forall j r, j <> i ->
       tunnel_lookup j s = Ok r s -> tunnel_lookup j s' = Ok r s').
Proof.
  intros Hok Hhost Hi.
  destruct (wp_tunnel_create i pref_af host n b s
              (fun _ s' => created i s s') Hok Hhost Hi)
    as ([] & s' & Hrun & Hcr); [auto|].
  exists s'. split; [exact Hrun|].
  destruct Hcr as [Hok' _ Hold Hlist].
  assert (Hext : forall j, lookup_walk (heap s') (all_tunnels s) j
                           = lookup_walk (heap s) (all_tunnels s) j).
  { intros j. apply lookup_walk_ext. intros p Hp.
    apply (reg_live _ Hok) in Hp as [t Ht]. rewrite Ht. by apply Hold. }
  assert (Hnone : lookup_walk (heap s) (all_tunnels s) i = Some None).
  { apply tunnel_lookup_walk. by apply tunnel_lookup_absent. }
  destruct Hlist as [Hl|(t' & Hl & Ht' & Hid)].
  - split.
    + left. split; [exact Hl|]. apply tunnel_lookup_walk.
      by rewrite Hl, Hext.
    + intros j r _ Hj. apply tunnel_lookup_walk in Hj.
      apply tunnel_lookup_walk. by rewrite Hl, Hext.
  - split.
    + right. split; [exact Hl|]. apply tunnel_lookup_walk.
      rewrite Hl, lookup_walk_app, Hext, Hnone, lookup_walk_cons, Ht'.
      by rewrite Hid, Z.eqb_refl.
    + intros j r Hne Hj. apply tunnel_lookup_walk in Hj.
      apply tunnel_lookup_walk.
      rewrite Hl, lookup_walk_app, Hext, Hj.
      destruct r as [q|]; [reflexivity|].
      rewrite lookup_walk_cons, Ht', Hid.
      assert (E : (i =? j) = false) by (apply Z.eqb_neq; congruence).
      by rewrite E.
Qed.

(** X3: after [tunnel_close] of a linked tunnel, [tunnel_lookup] of its
    id finds nothing, and the answer of [tunnel_lookup] for every other
    id is what it was before. *)
Theorem tunnel_close_then_lookup tun t (s : state W) :
  registry_ok s -> tun ∈ all_tunnels s -> heap s !! tun = Some t ->
  exists s',
    tunnel_close tun s = Ok tt s' /\
    tunnel_lookup (id t) s' = Ok None s' /\
    (forall j r, j <> id t ->
       tunnel_lookup j s = Ok r s -> tunnel_lookup j s' = Ok r s').
Proof.
  intros Hok Hin Ht.
  destruct (wp_tunnel_close tun t s (fun _ s' => closed tun s s') Ht Hin)
    as ([] & s' & Hrun & Hcl); [auto|].
  exists s'. split; [exact Hrun|].
  pose proof (registry_ok_closed _ _ _ Hcl Hok) as Hok'.
  destruct Hcl as [Hh Hl _ _ _]. split.
  - apply tunnel_lookup_absent; [exact Hok'|].
    rewrite registry_ids_ids_of, Hh, Hl. intros Hi.
    apply ids_of_elem in Hi as (q & u & Hq & Hu & Hid).
    apply list_elem_of_filter in Hq as [Hne Hq].
    rewrite lookup_delete_ne in Hu by congruence.
    apply Hne.
    eapply (ids_of_unique (heap s) (all_tunnels s)); eauto.
    rewrite <- registry_ids_ids_of. apply (reg_ids _ Hok).
  - intros j r Hne Hj. apply tunnel_lookup_walk in Hj.
    apply tunnel_lookup_walk.
    rewrite Hh, Hl, (lookup_walk_remove _ _ t); [exact Hj|exact Ht|congruence].
Qed.

End RegistryLookup.

(** * Teardown: [tunnel_close] and [tunnels_kill] *)

Section Teardown.
Context {W : Type} {X : Extern W}.
Implicit Types (s : state W) (p q tun : ptr) (h : gmap ptr tunnel_t).

(** The state [tunnel_close] leaves. *)
Lemma tunnel_close_exact tun t s :
  heap s !! tun = Some t -> tun ∈ all_tunnels s ->
  tunnel_close tun s
  = Ok tt {| heap := delete tun (heap s); next_ptr := next_ptr s;
             all_tunnels := filter (fun q => q ≠ tun) (all_tunnels s);
             last_tid := last_tid s; trace := trace s ++ close_calls t;
             world := world s |}.
Proof.
  intros Ht Hin.
  assert (Hwp : wp (tunnel_close tun) (fun _ s' => s' =
            {| heap := delete tun (heap s); next_ptr := next_ptr s;
               all_tunnels := filter (fun q => q ≠ tun) (all_tunnels s);
               last_tid := last_tid s; trace := trace s ++ close_calls t;
               world := world s |}) s).
  { unfold tunnel_close, event_del_tunnel, net_close, CancelIo, process_stop,
      iobuf_kill2, close_calls.
    apply wp_bind. eapply wp_deref; [exact Ht|].
    apply wp_bind. apply wp_list_del; [exact Hin|].
    repeat wp_step;
      rewrite ?delete_insert_eq, <- ?app_assoc; reflexivity. }
  destruct Hwp as ([] & s' & Hrun & ->). exact Hrun.
Qed.

Lemma close_calls_no_record t : Forall (fun c => ~ is_record c) (close_calls t).
Proof.
  unfold close_calls. destruct (proc t =? 0); repeat constructor; cbn; tauto.
Qed.

Lemma tunnels_kill_close_each s : tunnels_kill s = close_each (all_tunnels s) s.
Proof. reflexivity. Qed.

(** The loop of [tunnels_kill] over linked, live, pairwise distinct
    nodes: each one is closed, in order. *)
Lemma close_each_spec (l : list ptr) s :
  NoDup l ->
  (forall p, p ∈ l -> p ∈ all_tunnels s /\ is_Some (heap s !! p)) ->
  exists s',
    close_each l s = Ok tt s' /\
    (forall q, heap s' !! q = if decide (q ∈ l) then None else heap s !! q) /\
    all_tunnels s' = filter (fun q => q ∉ l) (all_tunnels s) /\
    next_ptr s' = next_ptr s /\ last_tid s' = last_tid s /\
    world s' = world s /\
    trace s' = trace s
               ++ concat (close_calls <$> omap (fun p => heap s !! p) l).
Proof.
  revert s. induction l as [|p l IH]; intros s Hnd Hl.
  - exists s. split; [reflexivity|]. split.
    { intros q. destruct (decide (q ∈ [])) as [H|_]; [by apply elem_of_nil in H|done]. }
    split.
    { symmetry. apply filter_all. intros q _ H. by apply elem_of_nil in H. }
    do 3 (split; [reflexivity|]).
    cbn. by rewrite app_nil_r.
  - apply NoDup_cons in Hnd as [Hp Hnd].
    destruct (Hl p) as [Hin [t Ht]]; [apply list_elem_of_here|].
    pose proof (tunnel_close_exact p t s Ht Hin) as Hrun.
    set (s1 := {| heap := delete p (heap s); next_ptr := next_ptr s;
                  all_tunnels := filter (fun q => q ≠ p) (all_tunnels s);
                  last_tid := last_tid s; trace := trace s ++ close_calls t;
                  world := world s |}) in Hrun.
    destruct (IH s1 Hnd) as (s' & Hgo & Hh & Hli & Hn & Hla & Hw & Htr).
    { intros q Hq. assert (q <> p) by (intros ->; contradiction).
      destruct (Hl q) as [Hq1 Hq2]; [by apply list_elem_of_further|].
      cbn. split.
      - apply list_elem_of_filter. auto.
      - by rewrite lookup_delete_ne by congruence. }
    exists s'. split.
    { cbn [close_each]. unfold mbind, M_bind. rewrite Hrun. exact Hgo. }
    split.
    { intros q. rewrite Hh. cbn [heap s1].
      destruct (decide (q ∈ l)) as [Hq|Hq].
      - rewrite decide_True; [reflexivity|by apply list_elem_of_further].
      - destruct (decide (q = p)) as [->|Hqp].
        + rewrite decide_True by apply list_elem_of_here.
          apply lookup_delete_eq.
        + rewrite decide_False.
          * by rewrite lookup_delete_ne by congruence.
          * intros H. apply elem_of_cons in H as [?|?]; contradiction. }
    split.
    { rewrite Hli. cbn [all_tunnels s1]. rewrite list_filter_filter.
      apply list_filter_iff. intros q. rewrite elem_of_cons. tauto. }
    do 3 (split; [assumption|]).
    assert (Heq : omap (fun q => heap s1 !! q) l = omap (fun q => heap s !! q) l).
    { apply omap_ext_in. intros q Hq. cbn [heap s1].
      rewrite lookup_delete_ne; [reflexivity|]. intros <-. contradiction. }
    rewrite Htr, Heq. cbn [trace heap s1 omap list_omap]. rewrite Ht.
    cbn [fmap list_fmap concat]. by rewrite <- app_assoc.
Qed.

(** X4: [tunnel_close] of a linked tunnel returns with the tunnel
    unlinked and freed and every other tunnel as it was, after exactly
    these calls: the tunnel's registration with the event engine is
    dropped, then the socket of a socket tunnel is closed, or the I/O of
    the two pipes of a process tunnel is cancelled and the child is
    stopped.  Nothing is written on the channel. *)
Theorem tunnel_close_releases tun t (s : state W) :
  heap s !! tun = Some t -> tun ∈ all_tunnels s ->
  exists s',
    tunnel_close tun s = Ok tt s' /\
    destroyed s' tun /\ others_untouched tun s s' /\
    (proc t = 0 ->
     calls_between s s'
       [Call_event_del_tunnel (id t); Call_net_close (sock t)]) /\
    (proc t <> 0 ->
     calls_between s s'
       [Call_event_del_tunnel (id t); Call_CancelIo (rfd t);
        Call_CancelIo (wfd t); Call_process_stop (proc t)]).
Proof.
  intros Ht Hin. eexists. split; [by apply tunnel_close_exact|].
  assert (Hrm : removed tun s
            {| heap := delete tun (heap s); next_ptr := next_ptr s;
               all_tunnels := filter (fun q => q ≠ tun) (all_tunnels s);
               last_tid := last_tid s; trace := trace s ++ close_calls t;
               world := world s |}) by (by split).
  split; [eapply removed_destroyed; exact Hrm|].
  split; [eapply removed_others_untouched; exact Hrm|].
  unfold calls_between, close_calls. cbn [trace]. split.
  - intros ->. reflexivity.
  - intros Hp. apply Z.eqb_neq in Hp. by rewrite Hp.
Qed.

(** X5: from a well-formed registry [tunnels_kill] returns with no
    tunnel left, linked or allocated; it has closed every linked tunnel,
    in list order, by the calls [tunnel_close] makes for each, and has
    written nothing on the channel. *)
Theorem tunnels_kill_empties (s : state W) :
  registry_ok s ->
  exists s' l,
    tunnels_kill s = Ok tt s' /\
    all_tunnels s' = [] /\ heap s' = ∅ /\ registry_ok s' /\
    last_tid s' = last_tid s /\
    calls_between s s' l /\
    l = concat (close_calls <$> linked_tunnels s) /\
    Forall (fun c => ~ is_record c) l.
Proof.
  intros Hok.
  destruct (close_each_spec (all_tunnels s) s (reg_nodup _ Hok))
    as (s' & Hgo & Hh & Hli & Hn & Hla & Hw & Htr).
  { intros p Hp. split; [exact Hp|]. by apply (reg_live _ Hok). }
  assert (Hl' : all_tunnels s' = []).
  { rewrite Hli. apply filter_none. intros q Hq H. contradiction. }
  assert (Hh' : heap s' = ∅).
  { apply map_eq. intros q. rewrite Hh, lookup_empty.
    destruct (decide (q ∈ all_tunnels s)) as [Hq|Hq]; [reflexivity|].
    destruct (heap s !! q) as [u|] eqn:Hu; [|reflexivity].
    exfalso. apply Hq. apply (reg_live _ Hok). by exists u. }
  exists s', (concat (close_calls <$> linked_tunnels s)).
  split; [by rewrite tunnels_kill_close_each|].
  split; [exact Hl'|]. split; [exact Hh'|]. split.
  { split.
    - rewrite Hl'. apply NoDup_nil_2.
    - intros p. rewrite Hl'. unfold live. rewrite Hh', lookup_empty. split.
      + intros H. by apply elem_of_nil in H.
      + intros [u Hu]. discriminate.
    - unfold registry_ids, linked_tunnels. rewrite Hl'. apply NoDup_nil_2.
    - intros p [u Hu]. rewrite Hh', lookup_empty in Hu. discriminate. }
  split; [exact Hla|]. split; [exact Htr|]. split; [reflexivity|].
  apply Forall_concat. apply Forall_fmap. apply Forall_forall.
  intros u _. apply close_calls_no_record.
Qed.

End Teardown.

(** * The identifier scan of [tunnel_generate_id] *)

Section Scan.
Context {W : Type} {X : Extern W}.
Implicit Types (s : state W).

Lemma next_id_wraps last k :
  0 <= last < 256 -> 1 <= k <= 256 ->
  ((last + k) mod 256 =? last) = (k =? 256).
Proof.
  intros Hl Hk.
  destruct (Z.eqb_spec k 256) as [->|Hne].
  - apply Z.eqb_eq. rewrite <- (Z.mul_1_l 256) at 1.
    rewrite Z.mod_add by lia. apply Z.mod_small. lia.
  - apply Z.eqb_neq. intros H.
    assert (Hmod : (last + k) mod 256 = (last + k) - 256 * ((last + k) / 256))
      by (apply Z.mod_eq; lia).
    assert (0 <= (last + k) / 256) by (apply Z.div_pos; lia).
    assert ((last + k) / 256 < 2) by (apply Z.div_lt_upper_bound; lia).
    lia.
Qed.

Lemma next_id_range last k : 0 <= (last + k) mod 256 < 256.
Proof. apply Z.mod_pos_bound. lia. Qed.

(** The loop, entered at the [k]-th id after [last_tid] when the ids
    before it are all in use. *)
Lemma generate_id_loop_scan (fuel : nat) (k : Z) s :
  registry_ok s -> 0 <= last_tid s < 256 -> 1 <= k <= 256 ->
  256 - k < Z.of_nat fuel ->
  (forall j, 1 <= j < k -> (last_tid s + j) mod 256 ∈ registry_ids s) ->
  (exists k' tid, first_free s k' tid /\
     generate_id_loop fuel (last_tid s) ((last_tid s + k) mod 256) s
     = Ok (Some (Some tid)) (with_last_tid tid s)) \/
  (all_in_use s /\
   generate_id_loop fuel (last_tid s) ((last_tid s + k) mod 256) s
   = Ok (Some None) s).
Proof.
  intros Hok Hlast. revert k.
  induction fuel as [|fuel IH]; intros k Hk Hfuel Hused; [lia|].
  pose proof (next_id_wraps (last_tid s) k Hlast Hk) as Hwrap.
  destruct (Z.eqb_spec k 256) as [->|Hne].
  - right. split; [exact Hused|].
    rewrite generate_id_loop_S, Hwrap. reflexivity.
  - set (tid := (last_tid s + k) mod 256) in *.
    destruct (decide (tid ∈ registry_ids s)) as [Hin|Hout].
    + destruct (lookup_walk_live (heap s) (all_tunnels s) tid) as (r & Hr & Hm).
      { intros p Hp. by apply (reg_live _ Hok). }
      destruct r as [q|]; [|contradiction].
      apply tunnel_lookup_walk in Hr.
      assert (E : generate_id_loop (S fuel) (last_tid s) tid s
                  = generate_id_loop fuel (last_tid s)
                      ((last_tid s + (k + 1)) mod 256) s).
      { rewrite generate_id_loop_S, Hwrap. unfold mbind, M_bind. rewrite Hr.
        assert (E1 : (tid + 1) mod 256 = (last_tid s + (k + 1)) mod 256).
        { unfold tid. rewrite Z.add_mod_idemp_l by lia. f_equal. lia. }
        by rewrite E1. }
      rewrite E. apply IH; [lia|lia|].
      intros j Hj. destruct (Z.eq_dec j k) as [->|Hjk]; [exact Hin|].
      apply Hused. lia.
    + left. exists k, tid. split.
      * split; [lia|]. split; [reflexivity|]. split; [exact Hout|exact Hused].
      * rewrite generate_id_loop_S, Hwrap. unfold mbind, M_bind.
        rewrite (tunnel_lookup_absent tid s Hok Hout). reflexivity.
Qed.

Lemma tunnel_generate_id_scan s :
  registry_ok s -> 0 <= last_tid s < 256 ->
  (exists k tid, first_free s k tid /\
     tunnel_generate_id s = Ok tid (with_last_tid tid s)) \/
  (all_in_use s /\ tunnel_generate_id s = Ok 255 s).
Proof.
  intros Hok Hlast.
  destruct (generate_id_loop_scan 256 1 s Hok Hlast) as
    [(k & tid & Hff & Hrun)|[Hall Hrun]]; try lia.
  - left. exists k, tid. split; [exact Hff|].
    unfold tunnel_generate_id, get_last_tid, mbind, M_bind. by rewrite Hrun.
  - right. split; [exact Hall|].
    unfold tunnel_generate_id, get_last_tid, mbind, M_bind. by rewrite Hrun.
Qed.

Lemma first_free_unique s k tid k' tid' :
  first_free s k tid -> first_free s k' tid' -> k = k' /\ tid = tid'.
Proof.
  intros (Hk & -> & Hfree & Hused) (Hk' & -> & Hfree' & Hused').
  assert (k = k') as ->; [|auto].
  destruct (Z.lt_trichotomy k k') as [H|[H|H]]; [|exact H|].
  - exfalso. apply Hfree. apply Hused'. lia.
  - exfalso. apply Hfree'. apply Hused. lia.
Qed.

Lemma first_free_not_all s k tid : first_free s k tid -> ~ all_in_use s.
Proof. intros (Hk & -> & Hfree & _) Hall. apply Hfree, Hall. lia. Qed.

Lemma tunnel_generate_id_first s k tid :
  registry_ok s -> 0 <= last_tid s < 256 -> first_free s k tid ->
  tunnel_generate_id s = Ok tid (with_last_tid tid s).
Proof.
  intros Hok Hlast Hff.
  destruct (tunnel_generate_id_scan s Hok Hlast)
    as [(k' & tid' & Hff' & Hrun)|[Hall Hrun]].
  - destruct (first_free_unique _ _ _ _ _ Hff Hff') as [_ ->]. exact Hrun.
  - exfalso. eapply first_free_not_all; eauto.
Qed.

(** X6: [tunnel_generate_id] scans the ids that follow [last_tid] in
    the cyclic order of [unsigned char], [last_tid] itself excluded, and
    returns the first one that no linked tunnel has, which it remembers
    in [last_tid]; when all of them are in use it returns 0xff and
    leaves [last_tid] as it is.  It changes nothing else, and the id it
    returns and the remembered one are bytes. *)
Theorem tunnel_generate_id_first_fit (s : state W) :
  registry_ok s -> 0 <= last_tid s < 256 ->
  (forall k tid, first_free s k tid ->
     tunnel_generate_id s = Ok tid (with_last_tid tid s)) /\
  (all_in_use s -> tunnel_generate_id s = Ok 255 s) /\
  (exists tid s',
     tunnel_generate_id s = Ok tid s' /\ only_last_tid s s' /\
     0 <= tid < 256 /\ 0 <= last_tid s' < 256 /\
     ((exists k, first_free s k tid) \/ all_in_use s)).
Proof.
  intros Hok Hlast.
  destruct (tunnel_generate_id_scan s Hok Hlast)
    as [(k & tid & Hff & Hrun)|[Hall Hrun]].
  - assert (Hr : 0 <= tid < 256).
    { destruct Hff as (_ & -> & _). apply next_id_range. }
    split; [|split].
    + intros k' tid' Hff'.
      destruct (first_free_unique _ _ _ _ _ Hff Hff') as [_ <-]. exact Hrun.
    + intros Hall. exfalso. eapply first_free_not_all; eauto.
    + exists tid, (with_last_tid tid s). split; [exact Hrun|].
      split; [by split|]. split; [exact Hr|]. split; [exact Hr|].
      left. by exists k.
  - split; [|split].
    + intros k tid Hff. exfalso. eapply first_free_not_all; eauto.
    + intros _. exact Hrun.
    + exists 255, s. split; [exact Hrun|]. split; [by split|].
      split; [lia|]. split; [exact Hlast|]. by right.
Qed.

End Scan.

(** * Accepted connections *)

Section AcceptExtras.
Context {W : Type} {X : Extern W}.
Implicit Types (s : state W) (p q tun : ptr).

Lemma rconn_payload_ipv4 tid a :
  is_ipv4 a -> rconn_payload tid a = [tid; 1] ++ be16 (sin_port a) ++ sin_addr a.
Proof.
  intros [Haf Hlen]. unfold rconn_payload, netaddr_to_connans.
  rewrite Haf. cbn.
  destruct (sin_addr a) as [|b0 [|b1 [|b2 [|b3 [|? ?]]]]]; try discriminate.
  reflexivity.
Qed.

Lemma rconn_payload_ipv6 tid a :
  is_ipv6 a -> rconn_payload tid a = [tid; 2] ++ be16 (sin_port a) ++ sin6_addr a.
Proof.
  intros [Haf Hlen]. unfold rconn_payload, netaddr_to_connans.
  rewrite Haf. cbn.
  destruct (sin6_addr a) as [|b0 l]; try discriminate.
  do 15 (destruct l as [|? l]; try discriminate).
  destruct l; try discriminate. reflexivity.
Qed.

(** X7: a connection that the environment lets through is accepted
    under the first free id after [last_tid]: [tunnel_accept_event]
    returns 0, the listener is as it was, and one tunnel is linked at
    the tail of the list: an established socket tunnel with that id, on
    the socket of the peer, with empty buffers.  The calls are the
    accept, the registration of the new socket's event, and one
    reverse-connect message addressed to the listener's id, whose first
    byte is the new id and whose next bytes are the family, the port
    and the address of the peer. *)
Theorem tunnel_accept_event_links tun t k0 tid k a cw (s : state W) :
  registry_ok s -> 0 <= last_tid s < 256 -> heap s !! tun = Some t ->
  first_free s k0 tid -> tid <> 255 ->
  accept_succeeds t tid k a cw (world s) ->
  exists s' c,
    tunnel_accept_event tun s = Ok 0 s' /\
    all_tunnels s' = all_tunnels s ++ [next_ptr s] /\
    heap s' = <[next_ptr s := c]> (heap s) /\
    heap s' !! tun = Some t /\
    id c = tid /\ connected c = true /\ server c = false /\ proc c = 0 /\
    sock c = k /\ rio_buf c = [] /\ wio_buf c = [] /\
    last_tid s' = tid /\
    calls_between s s'
      [Call_net_accept (sock t) 0;
       Call_event_add_tunnel (evt k) tid 0;
       Call_channel_write R2TCMD_RCONN (id t) (rconn_payload tid a) cw] /\
    (is_ipv4 a ->
     rconn_payload tid a = [tid; 1] ++ be16 (sin_port a) ++ sin_addr a) /\
    (is_ipv6 a ->
     rconn_payload tid a = [tid; 2] ++ be16 (sin_port a) ++ sin6_addr a).
Proof.
  intros Hok Hlast Ht Hff Htid [(w1 & w2 & w3 & w4 & Hacc & Hcal & Hadd & Hcw) Hpos].
  pose proof (not_live_next s Hok) as Hnone.
  assert (Hne : tun <> next_ptr s) by congruence.
  assert (Hwp : wp (tunnel_accept_event tun) (fun r s' => r = 0 /\
    exists c,
      all_tunnels s' = all_tunnels s ++ [next_ptr s] /\
      heap s' = <[next_ptr s := c]> (heap s) /\
      id c = tid /\ connected c = true /\ server c = false /\ proc c = 0 /\
      sock c = k /\ rio_buf c = [] /\ wio_buf c = [] /\
      last_tid s' = tid /\
      calls_between s s'
        [Call_net_accept (sock t) 0;
         Call_event_add_tunnel (evt k) tid 0;
         Call_channel_write R2TCMD_RCONN (id t) (rconn_payload tid a) cw]) s).
  { unfold tunnel_accept_event.
    apply wp_bind. eapply wp_deref; [exact Ht|].
    apply wp_bind. eapply wp_extern_eq; [exact Hacc|]. cbn [fst negb Z.eqb].
    match goal with |- wp _ _ ?st => set (s1 := st) end.
    assert (Hok1 : registry_ok s1)
      by (eapply registry_ok_same; [| | |exact Hok]; reflexivity).
    eapply wp_bind_eq.
    { apply (tunnel_generate_id_first s1 k0 tid Hok1 Hlast Hff). }
    apply Z.eqb_neq in Htid. rewrite Htid.
    unfold with_last_tid, tunnel_alloc, event_add_tunnel, iobuf_init2,
      channel_write, rconn_payload in *.
    subst s1. cbn [heap next_ptr all_tunnels last_tid trace world].
    assert (Hcw' : (cw <? 0) = false) by (apply Z.ltb_ge; lia).
    destruct (netaddr_to_connans a) as [msg msg_len] eqn:Hmsg.
    repeat wp_step.
    split; [reflexivity|]. eexists. split; [reflexivity|].
    split; [rewrite !insert_insert_eq; reflexivity|].
    cbn. repeat (split; [reflexivity|]).
    split; [by destruct k|].
    repeat (split; [reflexivity|]).
    unfold calls_between. cbn. rewrite <- !app_assoc. reflexivity. }
  destruct Hwp as (r & s' & Hrun & -> & c & H1 & H2 & H3).
  exists s', c. split; [exact Hrun|]. split; [exact H1|]. split; [exact H2|].
  split; [rewrite H2, lookup_insert_ne by congruence; exact Ht|].
  destruct H3 as (?&?&?&?&?&?&?&?&?).
  repeat (split; [assumption|]).
  split; [apply rconn_payload_ipv4 | apply rconn_payload_ipv6].
Qed.

(** X8: the soft errors of [tunnel_accept_event].  When the connection
    was accepted but no id is free, or memory is short, or the event of
    the new socket cannot be registered, [tunnel_accept_event] returns 0
    with the registry and every tunnel object as they were, the listener
    included; its last call closes the socket of the peer, and nothing
    is written on the channel. *)
Theorem tunnel_accept_event_soft_errors tun t k a w1 (s : state W) :
  registry_ok s -> 0 <= last_tid s < 256 -> heap s !! tun = Some t ->
  env_net_accept (sock t) (world s) = (0, k, a, w1) ->
  all_in_use s \/ fst (env_calloc w1) = false \/
  (forall tid, fst (env_event_add_tunnel (evt k) tid (snd (env_calloc w1))) <> 0) ->
  exists s' l,
    tunnel_accept_event tun s = Ok 0 s' /\
    heap s' = heap s /\ all_tunnels s' = all_tunnels s /\
    calls_between s s' (Call_net_accept (sock t) 0 :: l ++ [Call_net_close k]) /\
    Forall (fun c => ~ is_record c) l.
Proof.
  intros Hok Hlast Ht Hacc Hsoft.
  pose proof (not_live_next s Hok) as Hnone.
  assert (Hwp : wp (tunnel_accept_event tun) (fun r s' => r = 0 /\
    exists l,
      heap s' = heap s /\ all_tunnels s' = all_tunnels s /\
      calls_between s s' (Call_net_accept (sock t) 0 :: l ++ [Call_net_close k]) /\
      Forall (fun c => ~ is_record c) l) s).
  { unfold tunnel_accept_event.
    apply wp_bind. eapply wp_deref; [exact Ht|].
    apply wp_bind. eapply wp_extern_eq; [exact Hacc|]. cbn [fst negb Z.eqb].
    match goal with |- wp _ _ ?st => set (s1 := st) end.
    assert (Hok1 : registry_ok s1)
      by (eapply registry_ok_same; [| | |exact Hok]; reflexivity).
    assert (Hend : forall (s2 : state W) l,
      heap s2 = heap s -> all_tunnels s2 = all_tunnels s ->
      trace s2 = trace s1 ++ l -> Forall (fun c => ~ is_record c) l ->
      wp (net_close k;; (mret 0 : M W Z)) (fun r s' => r = 0 /\
        exists l,
          heap s' = heap s /\ all_tunnels s' = all_tunnels s /\
          calls_between s s'
            (Call_net_accept (sock t) 0 :: l ++ [Call_net_close k]) /\
          Forall (fun c => ~ is_record c) l) s2).
    { intros s2 l Hh Hl Htr Hrec. unfold net_close.
      apply wp_bind, wp_emit, wp_ret. split; [reflexivity|].
      exists l. cbn [heap all_tunnels]. split; [exact Hh|]. split; [exact Hl|].
      split; [|exact Hrec].
      unfold calls_between. cbn [trace]. rewrite Htr. subst s1. cbn [trace].
      rewrite <- !app_assoc. reflexivity. }
    destruct (tunnel_generate_id_scan s1 Hok1 Hlast)
      as [(k0 & tid & Hff & Hrun)|[Hall Hrun]].
    2:{ eapply wp_bind_eq; [exact Hrun|]. cbn [Z.eqb Pos.eqb].
        apply (Hend s1 []); try reflexivity; [|constructor].
        by rewrite app_nil_r. }
    eapply wp_bind_eq; [exact Hrun|].
    destruct (Z.eqb_spec tid 255) as [E|E].
    { apply (Hend _ []); try reflexivity; [|constructor].
      cbn [trace with_last_tid]. by rewrite app_nil_r. }
    destruct Hsoft as [Hall|Hsoft].
    { exfalso. eapply (first_free_not_all s1); [exact Hff|exact Hall]. }
    unfold tunnel_alloc. apply wp_bind. apply wp_bind.
    apply wp_extern_quiet. intros ok w2 Hcal.
    cbn [world with_last_tid s1] in Hcal.
    destruct ok.
    2:{ apply wp_ret.
        apply (Hend _ []); try reflexivity; [|constructor].
        cbn [trace with_last_tid]. by rewrite app_nil_r. }
    destruct Hsoft as [Hmem|Hreg]; [rewrite Hcal in Hmem; discriminate|].
    apply wp_bind. apply wp_new_object. apply wp_bind.
    eapply wp_modify; [apply lookup_insert_eq|]. apply wp_ret.
    unfold event_add_tunnel. apply wp_bind. apply wp_extern. intros r w3 Hadd.
    cbn [world] in Hadd.
    specialize (Hreg tid). rewrite Hcal in Hreg. cbn [snd] in Hreg.
    rewrite Hadd in Hreg. cbn [fst] in Hreg.
    apply Z.eqb_neq in Hreg. rewrite Hreg. cbn [negb].
    unfold net_close. apply wp_bind, wp_emit. apply wp_bind.
    eapply wp_free; [apply lookup_insert_eq|]. apply wp_ret.
    split; [reflexivity|].
    exists [Call_event_add_tunnel (evt k) tid r].
    cbn [heap all_tunnels trace with_last_tid s1].
    split.
    { rewrite insert_insert_eq, delete_insert_eq. by apply delete_id. }
    split; [reflexivity|]. split.
    - unfold calls_between. cbn [trace]. rewrite <- !app_assoc. reflexivity.
    - repeat constructor. cbn. tauto. }
  destruct Hwp as (r & s' & Hrun & -> & l & H1 & H2 & H3 & H4).
  exists s', l. auto.
Qed.

(** X9: an accepted connection that cannot be announced.  When the
    channel refuses the reverse-connect message, [tunnel_accept_event]
    tears the listener down (its event registration is dropped, its
    socket closed, the object unlinked and freed) and returns 0; the
    tunnel it has just linked for the peer stays linked and
    established. *)
Theorem tunnel_accept_event_unannounced tun t k0 tid k a cw (s : state W) :
  registry_ok s -> 0 <= last_tid s < 256 -> heap s !! tun = Some t ->
  proc t = 0 ->
  first_free s k0 tid -> tid <> 255 ->
  accept_passes t tid k a cw (world s) -> cw < 0 ->
  exists s' c,
    tunnel_accept_event tun s = Ok 0 s' /\
    destroyed s' tun /\
    all_tunnels s'
    = filter (fun q => q ≠ tun) (all_tunnels s) ++ [next_ptr s] /\
    heap s' !! next_ptr s = Some c /\
    id c = tid /\ connected c = true /\ sock c = k /\
    (forall q u, q <> tun -> heap s !! q = Some u -> heap s' !! q = Some u) /\
    calls_between s s'
      [Call_net_accept (sock t) 0;
       Call_event_add_tunnel (evt k) tid 0;
       Call_channel_write R2TCMD_RCONN (id t) (rconn_payload tid a) cw;
       Call_event_del_tunnel (id t);
       Call_net_close (sock t)].
Proof.
  intros Hok Hlast Ht Hproc Hff Htid
    (w1 & w2 & w3 & w4 & Hacc & Hcal & Hadd & Hcw) Hneg.
  pose proof (not_live_next s Hok) as Hnone.
  assert (Hne : tun <> next_ptr s) by congruence.
  assert (Hin : tun ∈ all_tunnels s) by (apply (reg_live _ Hok); by exists t).
  assert (Hnin : next_ptr s ∉ all_tunnels s).
  { intros H. apply (reg_live _ Hok) in H as [u Hu]. congruence. }
  assert (Hwp : wp (tunnel_accept_event tun) (fun r s' => r = 0 /\
    exists c,
      destroyed s' tun /\
      all_tunnels s'
      = filter (fun q => q ≠ tun) (all_tunnels s) ++ [next_ptr s] /\
      heap s' !! next_ptr s = Some c /\
      id c = tid /\ connected c = true /\ sock c = k /\
      (forall q u, q <> tun -> heap s !! q = Some u -> heap s' !! q = Some u) /\
      calls_between s s'
        [Call_net_accept (sock t) 0;
         Call_event_add_tunnel (evt k) tid 0;
         Call_channel_write R2TCMD_RCONN (id t) (rconn_payload tid a) cw;
         Call_event_del_tunnel (id t);
         Call_net_close (sock t)]) s).
  { unfold tunnel_accept_event.
    apply wp_bind. eapply wp_deref; [exact Ht|].
    apply wp_bind. eapply wp_extern_eq; [exact Hacc|]. cbn [fst negb Z.eqb].
    match goal with |- wp _ _ ?st => set (s1 := st) end.
    assert (Hok1 : registry_ok s1)
      by (eapply registry_ok_same; [| | |exact Hok]; reflexivity).
    eapply wp_bind_eq.
    { apply (tunnel_generate_id_first s1 k0 tid Hok1 Hlast Hff). }
    apply Z.eqb_neq in Htid. rewrite Htid.
    unfold with_last_tid, tunnel_alloc, event_add_tunnel, iobuf_init2,
      channel_write, rconn_payload in *.
    subst s1. cbn [heap next_ptr all_tunnels last_tid trace world].
    assert (Hcw' : (cw <? 0) = true) by (by apply Z.ltb_lt).
    destruct (netaddr_to_connans a) as [msg msg_len] eqn:Hmsg.
    pose proof (fun st : state W => tunnel_close_exact tun t st) as Hclose.
    revert Hclose. generalize (tunnel_close (W:=W) tun). intros close Hclose.
    repeat wp_step.
    eapply wp_eq.
    { apply Hclose; cbn [heap all_tunnels].
      - rewrite !lookup_insert_ne by congruence. exact Ht.
      - apply elem_of_app. by left. }
    apply wp_ret. cbn [heap all_tunnels trace].
    split; [reflexivity|]. eexists. split.
    { split; cbn [heap all_tunnels].
      - intros H. apply list_elem_of_filter in H as [H _]. by apply H.
      - apply lookup_delete_eq. }
    split.
    { rewrite filter_app. f_equal.
      rewrite filter_cons_True by congruence. reflexivity. }
    split.
    { rewrite lookup_delete_ne by congruence. apply lookup_insert_eq. }
    cbn. repeat (split; [reflexivity|]).
    split; [by destruct k|]. split.
    { intros q u Hq Hu. rewrite lookup_delete_ne by congruence.
      rewrite !lookup_insert_ne; [exact Hu| | | |]; congruence. }
    unfold calls_between, close_calls. rewrite Hproc. cbn.
    rewrite <- !app_assoc. reflexivity. }
  destruct Hwp as (r & s' & Hrun & -> & c & H).
  exists s', c. split; [exact Hrun|exact H].
Qed.

(** X21: whatever the environment answers, [tunnel_accept_event] on a
    linked tunnel of a well-formed registry returns, with 0 or with the
    value of [wsaerror()], and leaves the registry well formed.  It
    never links a tunnel with the id 0xff, changes the id of no tunnel,
    touches no tunnel other than the listener and the one it links, and
    writes no close record. *)
Theorem tunnel_accept_event_total tun t (s : state W) :
  registry_ok s -> heap s !! tun = Some t ->
  exists r s',
    tunnel_accept_event tun s = Ok r s' /\
    (r = 0 \/ r = wsaerror_ret) /\
    registry_ok s' /\ ids_stable s s' /\ others_untouched tun s s' /\
    (forall i, i ∈ registry_ids s' -> i ∈ registry_ids s \/ i <> 255) /\
    exists l, calls_between s s' l /\ Forall (fun c => ~ is_close c) l.
Proof.
  intros Hok Ht.
  destruct (wp_tunnel_accept_event tun t s (fun r s' => accepted tun s r s')
              Hok Ht) as (r & s' & Hrun & Hacc); [auto|].
  exists r, s'. split; [exact Hrun|].
  destruct Hacc as [H1 H2 H3 H4 _ H6 H7]. auto 10.
Qed.

End AcceptExtras.

(** * Answers to connect requests *)

Section ConnectExtras.
Context {W : Type} {X : Extern W}.
Implicit Types (s : state W) (p q tun : ptr).

Lemma success_answer_head a : exists rest, success_answer a = 0 :: rest.
Proof.
  unfold success_answer, netaddr_to_connans.
  destruct (netaddr_af a =? AF_INET); cbn; eauto.
Qed.

Lemma failure_not_success a b : ~ failure_answer (success_answer a) b.
Proof.
  intros [H Hb]. destruct (success_answer_head a) as [rest Hr].
  rewrite Hr in H. inversion H. lia.
Qed.

Lemma wp_connect_answer tun t e s :
  heap s !! tun = Some t ->
  wp (connect_answer tun e) (answer_ready tun t e s) s.
Proof.
  intros Ht.
  assert (Hins : forall u q, q <> tun -> <[tun := u]> (heap s) !! q = heap s !! q).
  { intros u q Hq. by rewrite lookup_insert_ne by congruence. }
  unfold connect_answer.
  destruct (Z.eqb_spec e 0) as [->|He].
  2:{ apply wp_ret. exists [], t. split; [unfold calls_between; by rewrite app_nil_r|].
      split; [constructor|]. split; [exact Ht|]. split; [reflexivity|].
      split; [reflexivity|]. split; [reflexivity|].
      right. cbn [fst snd err]. split; [apply wsa_to_r2t_error_nonzero|]. split.
      - split; [reflexivity|apply wsa_to_r2t_error_range].
      - intros _. split; reflexivity. }
  unfold net_update_watch, tunnel_socksend_event, net_write.
  repeat wp_step.
  all: rewrite ?insert_insert_eq.
  all: eexists _, _; split;
         [unfold calls_between; cbn [trace]; rewrite <- ?app_assoc; reflexivity|];
       split; [repeat constructor; cbn; tauto|];
       split; [cbn [heap]; apply lookup_insert_eq|];
       split; [reflexivity|];
       split; [cbn [heap]; intros q0 Hq0; rewrite ?insert_insert_eq; by apply Hins|];
       split; [reflexivity|].
  all: cbn [fst snd err].
  all: try (right; split; [discriminate|]; split;
            [split; [reflexivity|cbv; split; discriminate]|intros H; by destruct H]).
  all: left; split; [|split; [reflexivity|split; [reflexivity|]]].
  all: match goal with E : netaddr_to_connans _ = _ |- _ =>
         cbn [addr set_connected set_wio_buf] in E;
         unfold success_answer; rewrite ?E; cbn [fst snd];
         try (rewrite <- (netaddr_to_connans_err (addr t)), E; reflexivity);
         try reflexivity
       end.
Qed.

(** X10: [tunnel_connect_event] returns after writing exactly one record
    on the channel, its last call: a connect answer for the tunnel's id.
    The answer is either the success answer for the tunnel's address or
    a single error byte, never the success code; for an error code of
    the socket it is the byte [wsa_to_r2t_error] maps it to, written
    with no other call and with the tunnel left as it was.  The result
    is 0 or -1, and it is 0 exactly when the success answer was written
    and the channel took it; the tunnel is then established.  No other
    tunnel and no link of the list is touched. *)
Theorem tunnel_connect_event_answer tun t e (s : state W) :
  heap s !! tun = Some t ->
  exists r s' l payload cw,
    tunnel_connect_event tun e s = Ok r s' /\
    calls_between s s'
      (l ++ [Call_channel_write R2TCMD_CONN (id t) payload cw]) /\
    Forall (fun c => ~ is_record c) l /\
    (payload = success_answer (addr t) \/ exists b, failure_answer payload b) /\
    (r = 0 \/ r = -1) /\
    (r = 0 <-> 0 <= cw /\ payload = success_answer (addr t)) /\
    (r = 0 -> e = 0 /\ connected_at tun s') /\
    (e <> 0 ->
     l = [] /\ payload = [wsa_to_r2t_error e] /\ heap s' = heap s) /\
    all_tunnels s' = all_tunnels s /\
    (forall q, q <> tun -> heap s' !! q = heap s !! q).
Proof.
  intros Ht.
  assert (Hwp : wp (tunnel_connect_event tun e) (fun r s' =>
    exists l payload cw,
      calls_between s s'
        (l ++ [Call_channel_write R2TCMD_CONN (id t) payload cw]) /\
      Forall (fun c => ~ is_record c) l /\
      (payload = success_answer (addr t) \/ exists b, failure_answer payload b) /\
      (r = 0 \/ r = -1) /\
      (r = 0 <-> 0 <= cw /\ payload = success_answer (addr t)) /\
      (r = 0 -> e = 0 /\ connected_at tun s') /\
      (e <> 0 ->
       l = [] /\ payload = [wsa_to_r2t_error e] /\ heap s' = heap s) /\
      all_tunnels s' = all_tunnels s /\
      (forall q, q <> tun -> heap s' !! q = heap s !! q)) s).
  { unfold tunnel_connect_event. apply wp_bind.
    eapply wp_mono; [apply (wp_connect_answer tun t e s Ht)|].
    intros [[e' ans] ans_len] s1
      (l & t1 & Hl & Hrec & Ht1 & Hid & Hoth & Hlist & Hans).
    cbn [fst snd] in Hans.
    apply wp_bind. eapply wp_deref; [exact Ht1|].
    apply wp_bind. unfold channel_write. apply wp_extern. intros cw w1 _.
    rewrite Hid.
    assert (Htr : calls_between s
              {| heap := heap s1; next_ptr := next_ptr s1;
                 all_tunnels := all_tunnels s1; last_tid := last_tid s1;
                 trace := trace s1 ++
                   [Call_channel_write R2TCMD_CONN (id t)
                      (connans_payload ans ans_len) cw];
                 world := w1 |}
              (l ++ [Call_channel_write R2TCMD_CONN (id t)
                       (connans_payload ans ans_len) cw])).
    { unfold calls_between in *. cbn [trace]. by rewrite Hl, app_assoc. }
    destruct Hans as [(Herr & -> & Hcon & Hpay)|(Herr & Hfail & He)].
    - rewrite Herr. cbn [Z.eqb R2TERR_SUCCESS]. rewrite andb_true_r.
      destruct (Z.leb_spec 0 cw) as [Hcw|Hcw]; apply wp_ret;
        exists l, (connans_payload ans ans_len), cw;
        (split; [exact Htr|]); (split; [exact Hrec|]);
        (split; [by left|]).
      + split; [by left|]. split; [tauto|]. split.
        { intros _. split; [reflexivity|]. by exists t1. }
        split; [intros H; by destruct H|]. split; [exact Hlist|exact Hoth].
      + split; [by right|]. split.
        { split; [discriminate|]. intros [H _]. lia. }
        split; [discriminate|].
        split; [intros H; by destruct H|]. split; [exact Hlist|exact Hoth].
    - apply Z.eqb_neq in Herr as Herr'. unfold R2TERR_SUCCESS.
      rewrite Herr', andb_false_r. apply wp_ret.
      exists l, (connans_payload ans ans_len), cw.
      split; [exact Htr|]. split; [exact Hrec|].
      split; [right; by exists (err ans)|].
      split; [by right|]. split.
      { split; [discriminate|]. intros [_ H]. exfalso.
        rewrite H in Hfail. by apply failure_not_success in Hfail. }
      split; [discriminate|]. split.
      { intros Hne. destruct (He Hne) as [Hb ->].
        destruct Hfail as [Hp _]. rewrite Hp, Hb.
        split; [|split; reflexivity].
        unfold calls_between in Hl.
        apply (app_inv_head (trace s)). by rewrite <- Hl, app_nil_r. }
      split; [exact Hlist|exact Hoth]. }
  destruct Hwp as (r & s' & Hrun & l & payload & cw & H).
  exists r, s', l, payload, cw. split; [exact Hrun|exact H].
Qed.

End ConnectExtras.

(** * Open requests: [host_connect], [host_bind], [tunnel_create] *)

Section OpenExtras.
Context {W : Type} {X : Extern W}.
Implicit Types (s : state W) (p q tun : ptr).

Lemma tunnel_connect_event_returns tun t e s :
  heap s !! tun = Some t ->
  exists r s', tunnel_connect_event tun e s = Ok r s'.
Proof.
  intros Ht.
  assert (Hwp : wp (tunnel_connect_event tun e) (fun _ _ => True) s).
  { unfold tunnel_connect_event. apply wp_bind.
    eapply wp_mono; [apply (wp_connect_answer tun t e s Ht)|].
    intros [[e' ans] ans_len] s1 (l & t1 & _ & _ & Ht1 & _).
    apply wp_bind. eapply wp_deref; [exact Ht1|].
    apply wp_bind. unfold channel_write. apply wp_extern. intros cw w1 _.
    destruct (_ && _); by apply wp_ret. }
  destruct Hwp as (r & s' & Hrun & _). eauto.
Qed.

(** X11: the outcomes of [host_connect].  When [net_client] fails, the
    only other call is the connect answer with the single byte
    [wsa_to_r2t_error] gives, and no socket is closed.  When the socket
    was opened but its event cannot be registered, the same answer is
    written and the socket is closed.  In both cases the result is -1.
    A connect in progress returns the positive value of [net_client]
    with nothing written on the channel, the tunnel holding the socket
    and the address with empty buffers and still pending.  A connect
    that completed at once goes on as [tunnel_connect_event] without an
    error. *)
Theorem host_connect_outcomes tun t pref_af host n ret k a e w1 r w2
    (s : state W) :
  heap s !! tun = Some t ->
  env_net_client pref_af host n (world s) = (ret, k, a, e, w1) ->
  env_event_add_tunnel (evt k) (id t) w1 = (r, w2) ->
  (ret < 0 ->
   exists cw s',
     host_connect tun pref_af host n s = Ok (-1) s' /\
     calls_between s s'
       [Call_net_client pref_af host n ret;
        Call_channel_write R2TCMD_CONN (id t) [wsa_to_r2t_error e] cw]) /\
  (0 <= ret -> r <> 0 ->
   exists cw s',
     host_connect tun pref_af host n s = Ok (-1) s' /\
     calls_between s s'
       [Call_net_client pref_af host n ret;
        Call_event_add_tunnel (evt k) (id t) r;
        Call_channel_write R2TCMD_CONN (id t) [wsa_to_r2t_error e] cw;
        Call_net_close k]) /\
  (0 < ret -> r = 0 ->
   exists s' t',
     host_connect tun pref_af host n s = Ok ret s' /\
     calls_between s s'
       [Call_net_client pref_af host n ret;
        Call_event_add_tunnel (evt k) (id t) 0] /\
     heap s' !! tun = Some t' /\ connected t' = connected t /\
     sock t' = k /\ addr t' = a /\ rio_buf t' = [] /\ wio_buf t' = []) /\
  (ret = 0 -> r = 0 ->
   host_connect tun pref_af host n s
   = tunnel_connect_event tun 0
       {| heap := <[tun := set_wio_buf [] (set_rio_buf []
                             (set_addr a (set_sock k t)))]> (heap s);
          next_ptr := next_ptr s; all_tunnels := all_tunnels s;
          last_tid := last_tid s;
          trace := trace s ++ [Call_net_client pref_af host n 0;
                               Call_event_add_tunnel (evt k) (id t) 0];
          world := w2 |}).
Proof.
  intros Ht Hcli Hadd. split; [|split; [|split]].
  - intros Hret.
    assert (Hneg : (0 <=? ret) = false) by (apply Z.leb_gt; lia).
    assert (Hwp : wp (host_connect tun pref_af host n) (fun x s' =>
      x = -1 /\ exists cw, calls_between s s'
        [Call_net_client pref_af host n ret;
         Call_channel_write R2TCMD_CONN (id t) [wsa_to_r2t_error e] cw]) s).
    { unfold host_connect, channel_write, net_close.
      repeat wp_step. split; [reflexivity|]. eexists.
      unfold calls_between. cbn [trace]. rewrite <- !app_assoc. reflexivity. }
    destruct Hwp as (x & s' & Hrun & -> & cw & Hc). eauto.
  - intros Hret Hr.
    assert (Hpos : (0 <=? ret) = true) by (apply Z.leb_le; lia).
    assert (Hr' : (r =? 0) = false) by (by apply Z.eqb_neq).
    assert (Hwp : wp (host_connect tun pref_af host n) (fun x s' =>
      x = -1 /\ exists cw, calls_between s s'
        [Call_net_client pref_af host n ret;
         Call_event_add_tunnel (evt k) (id t) r;
         Call_channel_write R2TCMD_CONN (id t) [wsa_to_r2t_error e] cw;
         Call_net_close k]) s).
    { unfold host_connect, channel_write, net_close, event_add_tunnel.
      repeat wp_step. split; [reflexivity|]. eexists.
      unfold calls_between. cbn [trace]. rewrite <- !app_assoc. reflexivity. }
    destruct Hwp as (x & s' & Hrun & -> & cw & Hc). eauto.
  - intros Hret ->.
    assert (Hpos : (0 <=? ret) = true) by (apply Z.leb_le; lia).
    assert (Hnz : (ret =? 0) = false) by (apply Z.eqb_neq; lia).
    assert (Hwp : wp (host_connect tun pref_af host n) (fun x s' =>
      x = ret /\ exists t',
        calls_between s s'
          [Call_net_client pref_af host n ret;
           Call_event_add_tunnel (evt k) (id t) 0] /\
        heap s' !! tun = Some t' /\ connected t' = connected t /\
        sock t' = k /\ addr t' = a /\ rio_buf t' = [] /\ wio_buf t' = []) s).
    { unfold host_connect, channel_write, net_close, event_add_tunnel,
        iobuf_init2.
      repeat wp_step. split; [reflexivity|]. eexists. split.
      { unfold calls_between. cbn [trace]. rewrite <- !app_assoc. reflexivity. }
      split; [apply lookup_insert_eq|]. cbn. auto. }
    destruct Hwp as (x & s' & Hrun & -> & t' & Hc). eauto.
  - intros -> ->.
    set (s2 := {| heap := _; trace := _ ++ [_; _] |}).
    assert (Hwp : wp (host_connect tun pref_af host n) (fun x s' =>
      tunnel_connect_event tun 0 s2 = Ok x s') s).
    { unfold host_connect, channel_write, net_close, event_add_tunnel,
        iobuf_init2.
      pose proof (fun u s0 => tunnel_connect_event_returns tun u 0 s0) as Htot.
      revert Htot. generalize (tunnel_connect_event tun 0). intros ce Htot.
      repeat wp_step. rewrite insert_insert_eq, <- app_assoc.
      apply wp_self. eapply Htot.
      cbn [heap]. apply lookup_insert_eq. }
    destruct Hwp as (x & s' & Hrun & Heq). by rewrite Hrun, Heq.
Qed.

(** X12: the failures of [host_bind] around the bound socket.  When
    [net_server] fails, the only other call is the bind answer with the
    single byte [wsa_to_r2t_error] gives; nothing was opened and nothing
    is closed.  When the socket was bound and its event registered but
    the channel does not take the success answer, the registration is
    dropped and the socket closed.  In both cases the result is -1 and
    the tunnel is marked neither established nor listening. *)
Theorem host_bind_failures tun t pref_af host n ret k a e w1 (s : state W) :
  heap s !! tun = Some t ->
  env_net_server pref_af host n (world s) = (ret, k, a, e, w1) ->
  (ret <> 0 ->
   exists cw s' t',
     host_bind tun pref_af host n s = Ok (-1) s' /\
     calls_between s s'
       [Call_net_server pref_af host n ret;
        Call_channel_write R2TCMD_BIND (id t) [wsa_to_r2t_error e] cw] /\
     heap s' !! tun = Some t' /\
     connected t' = connected t /\ server t' = server t) /\
  (ret = 0 ->
   forall w2 cw w3,
     env_event_add_tunnel (evt k) (id t) w1 = (0, w2) ->
     env_channel_write R2TCMD_BIND (id t) (success_answer a) w2 = (cw, w3) ->
     cw < 0 ->
     exists s' t',
       host_bind tun pref_af host n s = Ok (-1) s' /\
       calls_between s s'
         [Call_net_server pref_af host n 0;
          Call_event_add_tunnel (evt k) (id t) 0;
          Call_channel_write R2TCMD_BIND (id t) (success_answer a) cw;
          Call_event_del_tunnel (id t);
          Call_net_close k] /\
       heap s' !! tun = Some t' /\
       connected t' = connected t /\ server t' = server t).
Proof.
  intros Ht Hsrv. split.
  - intros Hret.
    assert (Hnz : (ret =? 0) = false) by (by apply Z.eqb_neq).
    assert (Herr : (wsa_to_r2t_error e =? 0) = false)
      by (apply Z.eqb_neq, wsa_to_r2t_error_nonzero).
    assert (Hwp : wp (host_bind tun pref_af host n) (fun x s' =>
      x = -1 /\ exists cw t',
        calls_between s s'
          [Call_net_server pref_af host n ret;
           Call_channel_write R2TCMD_BIND (id t) [wsa_to_r2t_error e] cw] /\
        heap s' !! tun = Some t' /\
        connected t' = connected t /\ server t' = server t) s).
    { unfold host_bind, channel_write, net_close, event_add_tunnel,
        event_del_tunnel.
      repeat wp_step;
        try (exfalso;
             match goal with E : _ && _ = true |- _ =>
               cbn [err] in E; rewrite Herr, andb_false_r in E;
               discriminate E end).
      split; [reflexivity|]. eexists _, _. split.
      { unfold calls_between. cbn [trace]. rewrite <- !app_assoc. reflexivity. }
      split; [apply lookup_insert_eq|]. cbn. auto. }
    destruct Hwp as (x & s' & Hrun & -> & cw & t' & Hc). eauto.
  - intros -> w2 cw w3 Hadd Hcw Hneg.
    assert (Hlt : (0 <=? cw) = false) by (apply Z.leb_gt; lia).
    assert (Hpay : forall m len, netaddr_to_connans a = (m, len) ->
      connans_payload {| err := 0; af := af m; port := port m;
                         addr16 := addr16 m |} len = success_answer a).
    { intros m len E. unfold success_answer. rewrite E. cbn [fst snd].
      pose proof (netaddr_to_connans_err a) as H0. rewrite E in H0.
      cbn [fst] in H0. destruct m as [me ma mp md]. cbn in *. by subst me. }
    assert (Hwp : wp (host_bind tun pref_af host n) (fun x s' =>
      x = -1 /\ exists t',
        calls_between s s'
          [Call_net_server pref_af host n 0;
           Call_event_add_tunnel (evt k) (id t) 0;
           Call_channel_write R2TCMD_BIND (id t) (success_answer a) cw;
           Call_event_del_tunnel (id t);
           Call_net_close k] /\
        heap s' !! tun = Some t' /\
        connected t' = connected t /\ server t' = server t) s).
    { unfold host_bind, net_close, event_add_tunnel, event_del_tunnel.
      apply wp_bind. eapply wp_extern_eq; [exact Hsrv|]. cbn [fst].
      apply wp_bind. eapply wp_modify; [exact Ht|].
      apply wp_bind. eapply wp_deref; [apply lookup_insert_eq|].
      wp_normalize.
      destruct (netaddr_to_connans a) as [m len] eqn:Em.
      specialize (Hpay m len eq_refl).
      cbn [Z.eqb]. apply wp_bind. apply wp_bind.
      eapply wp_extern_eq; [exact Hadd|]. cbn [Z.eqb negb]. apply wp_ret.
      rewrite Hpay. unfold channel_write.
      apply wp_bind. eapply wp_extern_eq; [exact Hcw|].
      rewrite Hlt. cbn [andb Z.eqb].
      repeat wp_step.
      split; [reflexivity|]. eexists. split.
      { unfold calls_between. cbn [trace]. rewrite <- !app_assoc. reflexivity. }
      split; [apply lookup_insert_eq|]. cbn. auto. }
    destruct Hwp as (x & s' & Hrun & -> & t' & Hc). eauto.
Qed.

(** X13: [tunnel_create] with a fresh id is all or nothing.  It returns
    with a well-formed registry in which either every tunnel object and
    the list are exactly as before, the object it allocated having been
    freed, or exactly one object was added, with the given id, linked at
    the tail of the list.  When [calloc] fails it makes no call at all. *)
Theorem tunnel_create_all_or_nothing i pref_af host (n b : Z) (s : state W) :
  registry_ok s -> host <> EmptyString -> i ∉ registry_ids s ->
  exists s',
    tunnel_create i pref_af host n b s = Ok tt s' /\
    registry_ok s' /\
    (heap s' = heap s /\ all_tunnels s' = all_tunnels s \/
     exists t', heap s' = <[next_ptr s := t']> (heap s) /\ id t' = i /\
                all_tunnels s' = all_tunnels s ++ [next_ptr s]) /\
    (fst (env_calloc (world s)) = false ->
     heap s' = heap s /\ all_tunnels s' = all_tunnels s /\
     trace s' = trace s).
Proof.
  intros Hok Hhost Hi.
  destruct (wp_tunnel_create i pref_af host n b s
              (fun _ s' => created i s s') Hok Hhost Hi)
    as ([] & s' & Hrun & Hcr); [auto|].
  exists s'. split; [exact Hrun|].
  destruct Hcr as [Hok' _ Hold Hlist]. split; [exact Hok'|]. split.
  - destruct Hlist as [Hl|(t' & Hl & Ht' & Hid)].
    + left. split; [|exact Hl]. apply map_eq. intros p.
      destruct (heap s !! p) as [u|] eqn:Hu; [by apply Hold|].
      destruct (heap s' !! p) as [u'|] eqn:Hu'; [|reflexivity].
      exfalso. assert (Hp : p ∈ all_tunnels s').
      { apply (reg_live _ Hok'). by exists u'. }
      rewrite Hl in Hp. apply (reg_live _ Hok) in Hp as [u Hp]. congruence.
    + right. exists t'. split; [|split; [exact Hid|exact Hl]].
      apply map_eq. intros p.
      destruct (decide (p = next_ptr s)) as [->|Hp].
      { by rewrite lookup_insert_eq. }
      rewrite lookup_insert_ne by congruence.
      destruct (heap s !! p) as [u|] eqn:Hu; [by apply Hold|].
      destruct (heap s' !! p) as [u'|] eqn:Hu'; [|reflexivity].
      exfalso. assert (Hq : p ∈ all_tunnels s').
      { apply (reg_live _ Hok'). by exists u'. }
      rewrite Hl in Hq. apply elem_of_app in Hq as [Hq|Hq].
      * apply (reg_live _ Hok) in Hq as [u Hq]. congruence.
      * apply list_elem_of_singleton in Hq. contradiction.
  - intros Hmem. revert Hrun.
    unfold tunnel_create, tunnel_alloc, assert, extern_quiet, mbind, M_bind.
    assert (Hh : String.eqb host EmptyString = false)
      by (by apply String.eqb_neq).
    rewrite Hh. cbn [negb mret M_ret].
    destruct (env_calloc (world s)) as [ok w1]. cbn [fst] in Hmem. subst ok.
    intros H. inversion H. auto.
Qed.

End OpenExtras.

(** * Events: failed connects and accepts, process exit, received data *)

Section EventExtras.
Context {W : Type} {X : Extern W}.
Implicit Types (s : state W) (p q tun : ptr).

(** The end of [tunnel_event] after a handler that failed. *)
Lemma tunnel_event_end_close tun t ret s :
  ret < 0 -> heap s !! tun = Some t -> tun ∈ all_tunnels s ->
  tunnel_event_end tun ret s
  = Ok 0 {| heap := delete tun (heap s); next_ptr := next_ptr s;
            all_tunnels := filter (fun q => q ≠ tun) (all_tunnels s);
            last_tid := last_tid s; trace := trace s ++ close_calls t;
            world := world s |}.
Proof.
  intros Hret Ht Hin. unfold tunnel_event_end.
  apply Z.ltb_lt in Hret. rewrite Hret.
  erewrite bind_eq by (by apply tunnel_close_exact). reflexivity.
Qed.

(** [tunnel_event] on a socket tunnel whose event set was read and has
    no close bit: the handlers, then the common end. *)
Lemma tunnel_event_socket_open tun t h ev cerr w1 s :
  heap s !! tun = Some t -> proc t = 0 -> h <> 0 ->
  env_WSAEnumNetworkEvents (sock t) (world s) = (0, ev, cerr, w1) ->
  Z.land ev FD_CLOSE = 0 ->
  tunnel_event tun h s
  = (ret ← socket_handlers tun ev cerr; tunnel_event_end tun ret)
      {| heap := heap s; next_ptr := next_ptr s;
         all_tunnels := all_tunnels s; last_tid := last_tid s;
         trace := trace s ++ [Call_WSAEnumNetworkEvents (sock t) 0];
         world := w1 |}.
Proof.
  intros Ht Hproc Hh Henum Hclose. unfold tunnel_event.
  apply Z.eqb_neq in Hh. rewrite Hh. cbn [negb assert].
  erewrite bind_eq by reflexivity.
  erewrite bind_eq by (unfold deref; rewrite Ht; reflexivity).
  rewrite Hproc. cbn [Z.eqb negb].
  erewrite bind_eq by (unfold extern; rewrite Henum; reflexivity).
  cbn [fst Z.eqb]. rewrite Hclose. reflexivity.
Qed.

Lemma removed_close tun t s :
  removed tun s
    {| heap := delete tun (heap s); next_ptr := next_ptr s;
       all_tunnels := filter (fun q => q ≠ tun) (all_tunnels s);
       last_tid := last_tid s; trace := trace s ++ close_calls t;
       world := world s |}.
Proof. by split. Qed.

(** X14: a connect that fails.  When the event set of a pending socket
    tunnel has the connect bit with an error code of the socket (and
    neither the accept nor the close bit), [tunnel_event] writes the
    connect answer with the single byte [wsa_to_r2t_error] gives for the
    code, then tears the tunnel down: its event registration is dropped
    and its socket closed.  No close record is written, no other tunnel
    is touched, and the result is 0 whatever the channel answered. *)
Theorem tunnel_event_connect_failed tun t h ev cerr w1 cw w2 (s : state W) :
  heap s !! tun = Some t -> tun ∈ all_tunnels s ->
  proc t = 0 -> h <> 0 ->
  env_WSAEnumNetworkEvents (sock t) (world s) = (0, ev, cerr, w1) ->
  Z.land ev FD_ACCEPT = 0 -> Z.land ev FD_CONNECT <> 0 ->
  Z.land ev FD_CLOSE = 0 -> cerr <> 0 ->
  env_channel_write R2TCMD_CONN (id t) [wsa_to_r2t_error cerr] w1 = (cw, w2) ->
  exists s',
    tunnel_event tun h s = Ok 0 s' /\
    destroyed s' tun /\ others_untouched tun s s' /\
    calls_between s s'
      [Call_WSAEnumNetworkEvents (sock t) 0;
       Call_channel_write R2TCMD_CONN (id t) [wsa_to_r2t_error cerr] cw;
       Call_event_del_tunnel (id t);
       Call_net_close (sock t)].
Proof.
  intros Ht Hin Hproc Hh Henum Hacc Hcon Hclose Herr Hcw.
  rewrite (tunnel_event_socket_open tun t h ev cerr w1 s) by assumption.
  match goal with |- context [_ ?st = Ok 0 _] => set (s1 := st) end.
  assert (Hrun : socket_handlers tun ev cerr s1
                 = Ok (-1) {| heap := heap s; next_ptr := next_ptr s;
                      all_tunnels := all_tunnels s; last_tid := last_tid s;
                      trace := trace s1 ++
                        [Call_channel_write R2TCMD_CONN (id t)
                           [wsa_to_r2t_error cerr] cw];
                      world := w2 |}).
  { unfold socket_handlers, socket_dispatch. rewrite Hacc.
    apply Z.eqb_neq in Hcon. rewrite Hcon. cbn [Z.eqb negb].
    assert (Hce : tunnel_connect_event tun cerr s1
                  = Ok (-1) {| heap := heap s; next_ptr := next_ptr s;
                       all_tunnels := all_tunnels s; last_tid := last_tid s;
                       trace := trace s1 ++
                         [Call_channel_write R2TCMD_CONN (id t)
                            [wsa_to_r2t_error cerr] cw];
                       world := w2 |}).
    { unfold tunnel_connect_event, connect_answer.
      apply Z.eqb_neq in Herr. rewrite Herr.
      erewrite bind_eq by reflexivity. cbv beta iota.
      erewrite bind_eq by (unfold deref; cbn [heap s1]; rewrite Ht; reflexivity).
      match goal with |- context [connans_payload ?m 1] =>
        change (connans_payload m 1) with [wsa_to_r2t_error cerr] end.
      erewrite bind_eq
        by (unfold channel_write, extern; cbn [world s1]; rewrite Hcw;
            reflexivity).
      cbn [err]. pose proof (wsa_to_r2t_error_nonzero cerr) as Hnz.
      apply Z.eqb_neq in Hnz. unfold R2TERR_SUCCESS. rewrite Hnz, andb_false_r.
      reflexivity. }
    erewrite bind_eq by (erewrite bind_eq by exact Hce; reflexivity).
    reflexivity. }
  erewrite bind_eq by exact Hrun.
  erewrite (tunnel_event_end_close tun t) by (first [lia | exact Ht | exact Hin]).
  eexists. split; [reflexivity|].
  split; [eapply removed_destroyed; split; reflexivity|].
  split; [eapply removed_others_untouched; split; reflexivity|].
  unfold calls_between, close_calls. cbn [trace s1]. rewrite Hproc.
  cbn [Z.eqb]. rewrite <- !app_assoc. reflexivity.
Qed.

(** X15: an accept that fails.  When the event set of a listener has the
    accept bit (and no close bit) and [net_accept] fails,
    [tunnel_event] tears the listener down: its event registration is
    dropped and its socket closed.  Nothing is written on the channel,
    no other tunnel is touched, and the result is 0. *)
Theorem tunnel_event_accept_failed tun t h ev cerr w1 ret k a w2
    (s : state W) :
  heap s !! tun = Some t -> tun ∈ all_tunnels s ->
  proc t = 0 -> h <> 0 ->
  env_WSAEnumNetworkEvents (sock t) (world s) = (0, ev, cerr, w1) ->
  Z.land ev FD_ACCEPT <> 0 -> Z.land ev FD_CLOSE = 0 ->
  env_net_accept (sock t) w1 = (ret, k, a, w2) -> ret <> 0 ->
  exists s',
    tunnel_event tun h s = Ok 0 s' /\
    destroyed s' tun /\ others_untouched tun s s' /\
    calls_between s s'
      [Call_WSAEnumNetworkEvents (sock t) 0;
       Call_net_accept (sock t) ret;
       Call_event_del_tunnel (id t);
       Call_net_close (sock t)].
Proof.
  intros Ht Hin Hproc Hh Henum Hacc Hclose Hnet Hret.
  rewrite (tunnel_event_socket_open tun t h ev cerr w1 s) by assumption.
  match goal with |- context [_ ?st = Ok 0 _] => set (s1 := st) end.
  pose proof wsaerror_ret_neg as Hneg.
  assert (Hrun : socket_handlers tun ev cerr s1
                 = Ok wsaerror_ret
                     {| heap := heap s; next_ptr := next_ptr s;
                        all_tunnels := all_tunnels s; last_tid := last_tid s;
                        trace := trace s1 ++ [Call_net_accept (sock t) ret];
                        world := w2 |}).
  { unfold socket_handlers, socket_dispatch.
    apply Z.eqb_neq in Hacc. rewrite Hacc. cbn [negb].
    assert (Hae : tunnel_accept_event tun s1
                  = Ok wsaerror_ret
                      {| heap := heap s; next_ptr := next_ptr s;
                         all_tunnels := all_tunnels s; last_tid := last_tid s;
                         trace := trace s1 ++ [Call_net_accept (sock t) ret];
                         world := w2 |}).
    { unfold tunnel_accept_event.
      erewrite bind_eq by (unfold deref; cbn [heap s1]; rewrite Ht; reflexivity).
      erewrite bind_eq
        by (unfold extern; cbn [world s1]; rewrite Hnet; reflexivity).
      cbn [fst]. apply Z.eqb_neq in Hret. rewrite Hret. reflexivity. }
    erewrite bind_eq by exact Hae.
    assert (Hle : (0 <=? wsaerror_ret) = false) by (apply Z.leb_gt; lia).
    rewrite Hle. reflexivity. }
  erewrite bind_eq by exact Hrun.
  erewrite (tunnel_event_end_close tun t) by (first [lia | exact Ht | exact Hin]).
  eexists. split; [reflexivity|].
  split; [eapply removed_destroyed; split; reflexivity|].
  split; [eapply removed_others_untouched; split; reflexivity|].
  unfold calls_between, close_calls. cbn [trace s1]. rewrite Hproc.
  cbn [Z.eqb]. rewrite <- !app_assoc. reflexivity.
Qed.

(** X16: the exit of the child of a process tunnel.  When the signalled
    handle is the process handle, [tunnel_event] first writes the close
    record for the tunnel's id, with an empty payload, then drops the
    event registration, cancels the I/O of both pipes and stops the
    process; the tunnel is unlinked and freed, no other tunnel is
    touched, and the result is 0 whatever the channel answered. *)
Theorem tunnel_event_process_exit tun t cw w1 (s : state W) :
  heap s !! tun = Some t -> tun ∈ all_tunnels s -> proc t <> 0 ->
  env_channel_write R2TCMD_CLOSE (id t) [] (world s) = (cw, w1) ->
  exists s',
    tunnel_event tun (proc t) s = Ok 0 s' /\
    destroyed s' tun /\ others_untouched tun s s' /\
    calls_between s s'
      [Call_channel_write R2TCMD_CLOSE (id t) [] cw;
       Call_event_del_tunnel (id t);
       Call_CancelIo (rfd t); Call_CancelIo (wfd t);
       Call_process_stop (proc t)].
Proof.
  intros Ht Hin Hproc Hcw.
  unfold tunnel_event.
  apply Z.eqb_neq in Hproc as Hp. rewrite Hp. cbn [negb assert].
  erewrite bind_eq by reflexivity.
  erewrite bind_eq by (unfold deref; rewrite Ht; reflexivity).
  rewrite Hp, Z.eqb_refl. cbn [negb].
  unfold tunnel_close_event.
  erewrite bind_eq by (unfold deref; rewrite Ht; reflexivity).
  erewrite bind_eq
    by (unfold channel_write, extern; rewrite Hcw; reflexivity).
  erewrite bind_eq by (apply (tunnel_close_exact tun t); [exact Ht|exact Hin]).
  eexists. split; [reflexivity|].
  split; [eapply removed_destroyed; split; reflexivity|].
  split; [eapply removed_others_untouched; split; reflexivity|].
  unfold calls_between, close_calls. cbn [trace]. rewrite Hp.
  rewrite <- !app_assoc. reflexivity.
Qed.

(** X17: a query that fails.  When the event set of a socket tunnel
    cannot be read, [tunnel_event] makes no other call and leaves every
    tunnel, this one included, allocated and linked as it was.  It
    returns 0 when the error is pending I/O and the value of
    [wsaerror()] otherwise. *)
Theorem tunnel_event_query_failed tun t h qr ev cerr w1 e w2 (s : state W) :
  heap s !! tun = Some t -> proc t = 0 -> h <> 0 ->
  env_WSAEnumNetworkEvents (sock t) (world s) = (qr, ev, cerr, w1) ->
  qr <> 0 ->
  env_WSAGetLastError w1 = (e, w2) ->
  exists s',
    tunnel_event tun h s
    = Ok (if e =? ERROR_IO_PENDING then 0 else wsaerror_ret) s' /\
    heap s' = heap s /\ all_tunnels s' = all_tunnels s /\
    last_tid s' = last_tid s /\
    calls_between s s' [Call_WSAEnumNetworkEvents (sock t) qr].
Proof.
  intros Ht Hproc Hh Henum Hq Herr. unfold tunnel_event.
  apply Z.eqb_neq in Hh. rewrite Hh. cbn [negb assert].
  erewrite bind_eq by reflexivity.
  erewrite bind_eq by (unfold deref; rewrite Ht; reflexivity).
  rewrite Hproc. cbn [Z.eqb negb].
  erewrite bind_eq by (unfold extern; rewrite Henum; reflexivity).
  cbn [fst]. apply Z.eqb_neq in Hq. rewrite Hq.
  erewrite bind_eq by (unfold extern_quiet; cbn [world]; rewrite Herr; reflexivity).
  destruct (e =? ERROR_IO_PENDING); cbn [negb];
    eexists; (split; [reflexivity|]); repeat split.
Qed.

End EventExtras.

(** * [tunnel_write] works on its tunnel alone *)

Section WriteExtras.
Context {W : Type} {X : Extern W}.
Implicit Types (s : state W) (p q tun : ptr).

(** A state that differs in one tunnel object, which kept its id, has a
    well-formed registry if the first has. *)
Lemma registry_ok_frame tun t t' s s' :
  registry_ok s ->
  all_tunnels s' = all_tunnels s -> next_ptr s' = next_ptr s ->
  (forall q, q <> tun -> heap s' !! q = heap s !! q) ->
  heap s !! tun = Some t -> heap s' !! tun = Some t' -> id t' = id t ->
  registry_ok s'.
Proof.
  intros [Hnd Hlive Hids Hfresh] Hl Hn Hoth Ht Ht' Hid.
  assert (Hsame : forall q, is_Some (heap s' !! q) <-> is_Some (heap s !! q)).
  { intros q. destruct (decide (q = tun)) as [->|Hq].
    - rewrite Ht, Ht'. split; eauto.
    - by rewrite Hoth. }
  split.
  - by rewrite Hl.
  - intros q. unfold live. rewrite Hl, Hsame. apply Hlive.
  - rewrite registry_ids_ids_of, Hl.
    rewrite (ids_of_ext (heap s)); [exact Hids|].
    intros q _. destruct (decide (q = tun)) as [->|Hq].
    + rewrite Ht, Ht'. cbn. by rewrite Hid.
    + by rewrite Hoth.
  - intros q Hq. rewrite Hn. apply Hfresh. by apply Hsame.
Qed.

(** X18: [tunnel_write] of a non-empty buffer returns, whatever the
    environment answers, and works on its tunnel alone: the list, the
    other tunnel objects and [last_tid] are as before, the tunnel is
    still allocated and linked with the same id, kind, socket and
    state, and the registry is still well formed.  It writes nothing on
    the channel and closes nothing, also when the drain it starts
    fails: the failure is only returned. *)
Theorem tunnel_write_frame tun t data (s : state W) :
  registry_ok s -> heap s !! tun = Some t -> data <> [] ->
  exists r s',
    tunnel_write tun data s = Ok r s' /\
    registry_ok s' /\
    all_tunnels s' = all_tunnels s /\ last_tid s' = last_tid s /\
    (forall q, q <> tun -> heap s' !! q = heap s !! q) /\
    (exists t', heap s' !! tun = Some t' /\ id t' = id t /\
       connected t' = connected t /\ server t' = server t /\
       proc t' = proc t /\ sock t' = sock t /\ rio_buf t' = rio_buf t) /\
    exists l, calls_between s s' l /\
      Forall (fun c => ~ is_record c) l /\
      Forall (fun c => c <> Call_net_close (sock t)) l.
Proof.
  intros Hok Ht Hdata.
  assert (Hlen : (length data =? 0)%nat = false).
  { apply Nat.eqb_neq. destruct data; [congruence|cbn; lia]. }
  assert (Hlen' : (0 <? length data)%nat = true).
  { apply Nat.ltb_lt. destruct data; [congruence|cbn; lia]. }
  assert (Hwp : wp (tunnel_write tun data) (fun r s' =>
    all_tunnels s' = all_tunnels s /\ next_ptr s' = next_ptr s /\
    last_tid s' = last_tid s /\
    (forall q, q <> tun -> heap s' !! q = heap s !! q) /\
    (exists t', heap s' !! tun = Some t' /\ id t' = id t /\
       connected t' = connected t /\ server t' = server t /\
       proc t' = proc t /\ sock t' = sock t /\ rio_buf t' = rio_buf t) /\
    exists l, calls_between s s' l /\
      Forall (fun c => ~ is_record c) l /\
      Forall (fun c => c <> Call_net_close (sock t)) l) s).
  { unfold tunnel_write.
    apply wp_bind. apply wp_assert; [by rewrite Hlen|].
    apply wp_bind. eapply wp_deref; [exact Ht|].
    rewrite Hlen'.
    unfold iobuf_append, tunnel_fdwrite_event, aio_write, net_update_watch,
      tunnel_socksend_event, net_write.
    repeat wp_step.
    all: split; [reflexivity|]; split; [reflexivity|]; split; [reflexivity|].
    all: split;
      [intros q0 Hq0; cbn [heap];
       rewrite ?lookup_insert_ne by congruence; reflexivity|].
    all: split;
      [eexists; split;
       [first [apply lookup_insert_eq | eassumption]|];
       cbn; repeat split; reflexivity|].
    all: eexists; split;
      [unfold calls_between; cbn [trace]; rewrite <- ?app_assoc;
       first [reflexivity | symmetry; apply app_nil_r]|].
    all: split; repeat constructor; cbn; first [tauto | discriminate]. }
  destruct Hwp as (r & s' & Hrun & Hl & Hn & Hla & Hoth & (t' & Ht' & Hid & Hrest) & Hcalls).
  exists r, s'. split; [exact Hrun|].
  split; [eapply (registry_ok_frame tun t t'); eauto|].
  split; [exact Hl|]. split; [exact Hla|]. split; [exact Hoth|].
  split; [exists t'; auto|exact Hcalls].
Qed.

End WriteExtras.

(** * The answer determines the address; connect requests *)

Section CodecExtras.

Lemma be16_inj p p' :
  0 <= p < 65536 -> 0 <= p' < 65536 -> be16 p = be16 p' -> p = p'.
Proof.
  intros Hp Hp' H. unfold be16 in H. injection H as H1 H2.
  rewrite (Z.mod_small (p / 256)) in H1
    by (split; [apply Z.div_pos; lia | apply Z.div_lt_upper_bound; lia]).
  rewrite (Z.mod_small (p' / 256)) in H1
    by (split; [apply Z.div_pos; lia | apply Z.div_lt_upper_bound; lia]).
  rewrite (Z.div_mod p 256), (Z.div_mod p' 256) by lia. by rewrite H1, H2.
Qed.

Lemma success_answer_v4 a :
  netaddr_af a = AF_INET -> length (sin_addr a) = 4%nat ->
  success_answer a = [0; 1] ++ be16 (sin_port a) ++ sin_addr a.
Proof.
  intros Haf Hlen. unfold success_answer, netaddr_to_connans.
  rewrite Haf. cbn.
  destruct (sin_addr a) as [|b0 [|b1 [|b2 [|b3 [|? ?]]]]]; try discriminate.
  reflexivity.
Qed.

Lemma success_answer_v6 a :
  netaddr_af a <> AF_INET -> length (sin6_addr a) = 16%nat ->
  success_answer a = [0; 2] ++ be16 (sin_port a) ++ sin6_addr a.
Proof.
  intros Haf Hlen. unfold success_answer, netaddr_to_connans.
  apply Z.eqb_neq in Haf. rewrite Haf. cbn.
  destruct (sin6_addr a) as [|b0 l]; try discriminate.
  do 15 (destruct l as [|? l]; try discriminate).
  destruct l; try discriminate. reflexivity.
Qed.

(** X19: the success answer determines what it was built from.  Every
    address whose family is not [AF_INET] is answered in the ipv6
    layout, 20 bytes with family byte 2; and two addresses with the same
    answer are of the same kind and have the same port and the same
    address bytes of that kind. *)
Theorem success_answer_decodes (a a' : netaddr_t) :
  0 <= sin_port a < 65536 -> 0 <= sin_port a' < 65536 ->
  length (sin_addr a) = 4%nat -> length (sin6_addr a) = 16%nat ->
  length (sin_addr a') = 4%nat -> length (sin6_addr a') = 16%nat ->
  (netaddr_af a <> AF_INET ->
   success_answer a = [0; 2] ++ be16 (sin_port a) ++ sin6_addr a /\
   length (success_answer a) = 20%nat) /\
  (success_answer a = success_answer a' ->
   (netaddr_af a = AF_INET <-> netaddr_af a' = AF_INET) /\
   sin_port a = sin_port a' /\
   (netaddr_af a = AF_INET -> sin_addr a = sin_addr a') /\
   (netaddr_af a <> AF_INET -> sin6_addr a = sin6_addr a')).
Proof.
  intros Hp Hp' H4 H6 H4' H6'. split.
  - intros Haf. rewrite (success_answer_v6 a Haf H6). split; [reflexivity|].
    cbn. rewrite H6. reflexivity.
  - intros Heq.
    destruct (Z.eq_dec (netaddr_af a) AF_INET) as [Haf|Haf];
      destruct (Z.eq_dec (netaddr_af a') AF_INET) as [Haf'|Haf'].
    + rewrite (success_answer_v4 a Haf H4), (success_answer_v4 a' Haf' H4') in Heq.
      cbn in Heq. injection Heq as E1 E2 E3.
      assert (Hport : sin_port a = sin_port a').
      { apply be16_inj; auto. unfold be16. by rewrite E1, E2. }
      split; [tauto|]. split; [exact Hport|]. split; [auto|tauto].
    + rewrite (success_answer_v4 a Haf H4), (success_answer_v6 a' Haf' H6') in Heq.
      discriminate Heq.
    + rewrite (success_answer_v6 a Haf H6), (success_answer_v4 a' Haf' H4') in Heq.
      discriminate Heq.
    + rewrite (success_answer_v6 a Haf H6), (success_answer_v6 a' Haf' H6') in Heq.
      cbn in Heq. injection Heq as E1 E2 E3.
      assert (Hport : sin_port a = sin_port a').
      { apply be16_inj; auto. unfold be16. by rewrite E1, E2. }
      split; [tauto|]. split; [exact Hport|]. split; [tauto|auto].
Qed.

End CodecExtras.

Section ConnectRequests.
Context {W : Type} {X : Extern W}.
Implicit Types (s : state W) (p q tun : ptr).

(** X20: connect requests.  A connect that the environment lets through
    at once links an established socket tunnel with the given id, on the
    socket and to the address [net_client] reported, and answers with
    the success answer for that address.  A connect in progress links
    the tunnel pending, with nothing written on the channel: its answer
    waits for the connect event. *)
Theorem tunnel_create_connect i pref_af host (n : Z) k a (s : state W) :
  host <> EmptyString -> 0 < n ->
  (forall cw,
   connect_succeeds i pref_af host n k a cw (world s) ->
   exists s' t,
     tunnel_create i pref_af host n 0 s = Ok tt s' /\
     all_tunnels s' = all_tunnels s ++ [next_ptr s] /\
     heap s' !! next_ptr s = Some t /\
     id t = i /\ connected t = true /\ server t = false /\ proc t = 0 /\
     sock t = k /\ addr t = a /\
     calls_between s s'
       [Call_net_client pref_af host n 0;
        Call_event_add_tunnel (evt k) i 0;
        Call_net_update_watch k 0;
        Call_channel_write R2TCMD_CONN i (success_answer a) cw]) /\
  (forall ret,
   connect_pending i pref_af host n ret k a (world s) ->
   exists s' t,
     tunnel_create i pref_af host n 0 s = Ok tt s' /\
     all_tunnels s' = all_tunnels s ++ [next_ptr s] /\
     heap s' !! next_ptr s = Some t /\
     id t = i /\ connected t = false /\ server t = false /\ proc t = 0 /\
     sock t = k /\ addr t = a /\
     calls_between s s'
       [Call_net_client pref_af host n ret;
        Call_event_add_tunnel (evt k) i 0]).
Proof.
  intros Hhost Hn.
  assert (Hh : String.eqb host EmptyString = false) by (by apply String.eqb_neq).
  assert (Hn' : (0 <? n) = true) by (by apply Z.ltb_lt).
  split.
  - intros cw (w1 & w2 & w3 & w4 & w5 & e & Hcal & Hcli & Hadd & Hupd & Hcw & Hpos).
    assert (Hcw' : (0 <=? cw) = true) by (by apply Z.leb_le).
    assert (Hwp : wp (tunnel_create i pref_af host n 0) (fun _ s' =>
      exists t,
        all_tunnels s' = all_tunnels s ++ [next_ptr s] /\
        heap s' !! next_ptr s = Some t /\
        id t = i /\ connected t = true /\ server t = false /\ proc t = 0 /\
        sock t = k /\ addr t = a /\
        calls_between s s'
          [Call_net_client pref_af host n 0;
           Call_event_add_tunnel (evt k) i 0;
           Call_net_update_watch k 0;
           Call_channel_write R2TCMD_CONN i (success_answer a) cw]) s).
    { unfold tunnel_create. rewrite Hh, Hn'. cbn [negb Z.eqb].
      apply wp_bind. apply wp_assert; [reflexivity|].
      unfold tunnel_alloc, host_connect, event_add_tunnel, iobuf_init2,
        tunnel_connect_event, connect_answer, net_update_watch, channel_write,
        success_answer in *.
      destruct (netaddr_to_connans a) as [m len] eqn:Em.
      pose proof (netaddr_to_connans_err a) as H0. rewrite Em in H0.
      cbn [fst snd] in *.
      repeat wp_step.
      - eexists. split; [reflexivity|]. split; [apply lookup_insert_eq|].
        cbn. repeat (split; [reflexivity|]).
        unfold calls_between. cbn. rewrite <- !app_assoc. reflexivity.
      - exfalso.
        match goal with E : _ && _ = false |- _ =>
          rewrite Hcw', H0 in E; discriminate E end. }
    destruct Hwp as ([] & s' & Hrun & t & H). exists s', t. auto.
  - intros ret (w1 & w2 & w3 & e & Hcal & Hcli & Hadd & Hret).
    assert (Hpos : (0 <=? ret) = true) by (apply Z.leb_le; lia).
    assert (Hnz : (ret =? 0) = false) by (apply Z.eqb_neq; lia).
    assert (Hwp : wp (tunnel_create i pref_af host n 0) (fun _ s' =>
      exists t,
        all_tunnels s' = all_tunnels s ++ [next_ptr s] /\
        heap s' !! next_ptr s = Some t /\
        id t = i /\ connected t = false /\ server t = false /\ proc t = 0 /\
        sock t = k /\ addr t = a /\
        calls_between s s'
          [Call_net_client pref_af host n ret;
           Call_event_add_tunnel (evt k) i 0]) s).
    { unfold tunnel_create. rewrite Hh, Hn'. cbn [negb Z.eqb].
      apply wp_bind. apply wp_assert; [reflexivity|].
      unfold tunnel_alloc, host_connect, event_add_tunnel, iobuf_init2.
      repeat wp_step.
      eexists. split; [reflexivity|]. split; [apply lookup_insert_eq|].
      cbn. repeat (split; [reflexivity|]).
      unfold calls_between. cbn. rewrite <- !app_assoc. reflexivity. }
    destruct Hwp as ([] & s' & Hrun & t & H). exists s', t. auto.
Qed.

End ConnectRequests.

(** * What [tunnel_event] reports, and in which order *)

Section Emits.
Context {W : Type} {X : Extern W}.
Implicit Types (s : state W) (p tun : ptr) (P : call -> Prop).

Lemma emits_nothing {A} P (m : M W A) :
  (forall s a s', m s = Ok a s' -> trace s' = trace s) -> emits P m.
Proof.
  intros H s a s' Hrun. exists []. split; [|constructor].
  unfold calls_between. rewrite (H _ _ _ Hrun). by rewrite app_nil_r.
Qed.

Lemma emits_ret {A} P (a : A) : emits P (mret a : M W A).
Proof. apply emits_nothing. intros s b s' H. by inversion H. Qed.

Lemma emits_fail {A} P f : emits P (fail f : M W A).
Proof. intros s a s' H. discriminate H. Qed.

Lemma emits_bind {A B} P (m : M W A) (f : A -> M W B) :
  emits P m -> (forall a, emits P (f a)) -> emits P (m ≫= f).
Proof.
  intros Hm Hf s b s' Hrun. unfold mbind, M_bind in Hrun.
  destruct (m s) as [a s1|] eqn:E; [|discriminate].
  destruct (Hm _ _ _ E) as (l1 & Hl1 & HP1).
  destruct (Hf a _ _ _ Hrun) as (l2 & Hl2 & HP2).
  exists (l1 ++ l2). split; [|by apply Forall_app].
  unfold calls_between in *. by rewrite Hl2, Hl1, app_assoc.
Qed.

Lemma emits_deref P tun : emits (W:=W) P (deref tun).
Proof.
  apply emits_nothing. intros s a s' H. unfold deref in H.
  destruct (heap s !! tun); by inversion H.
Qed.

Lemma emits_modify P tun f : emits (W:=W) P (modify tun f).
Proof.
  apply emits_nothing. intros s a s' H. unfold modify in H.
  destruct (heap s !! tun); by inversion H.
Qed.

Lemma emits_extern_quiet {A} P (f : W -> A * W) : emits P (extern_quiet f).
Proof.
  apply emits_nothing. intros s a s' H. unfold extern_quiet in H.
  destruct (f (world s)). by inversion H.
Qed.

Lemma emits_extern {A} P (f : W -> A * W) (c : A -> call) :
  (forall a, P (c a)) -> emits P (extern f c).
Proof.
  intros HP s a s' H. unfold extern in H. destruct (f (world s)) as [b w].
  inversion H; subst. exists [c a]. split; [reflexivity|].
  constructor; [apply HP|constructor].
Qed.

End Emits.

Ltac emits_step :=
  first
    [ apply emits_ret
    | apply emits_fail
    | apply emits_deref
    | apply emits_modify
    | apply emits_extern_quiet
    | apply emits_extern; intros; cbn; tauto
    | apply emits_bind; [|intros]
    | match goal with
      | |- emits _ (let '(_, _) := ?x in _) => destruct x
      | |- emits _ (if ?b then _ else _) => destruct b
      | |- emits _ (match ?x with _ => _ end) => destruct x
      end ].

Section Report.
Context {W : Type} {X : Extern W}.
Implicit Types (s : state W) (p tun : ptr) (h : Z).

(** Without the accept bit, the handlers of a socket event make
    neither a call of the teardown nor write a close record. *)
Lemma emits_socket_handlers tun ev cerr :
  Z.land ev FD_ACCEPT = 0 ->
  emits is_handler_call (socket_handlers tun ev cerr).
Proof.
  intros Hacc.
  unfold socket_handlers, socket_dispatch. rewrite Hacc. cbn [Z.eqb negb].
  unfold is_handler_call, tunnel_connect_event, connect_answer,
    tunnel_socksend_event, tunnel_sockrecv_event, net_write, net_read,
    channel_forward, net_update_watch, channel_write, assert.
  repeat emits_step.
Qed.


(** [tunnel_close_event], call by call. *)
Lemma tunnel_close_event_exact tun t s cw w1 :
  heap s !! tun = Some t -> tun ∈ all_tunnels s ->
  env_channel_write R2TCMD_CLOSE (id t) [] (world s) = (cw, w1) ->
  tunnel_close_event tun s
  = Ok 0 {| heap := delete tun (heap s); next_ptr := next_ptr s;
            all_tunnels := filter (fun q => q ≠ tun) (all_tunnels s);
            last_tid := last_tid s;
            trace := trace s
                     ++ Call_channel_write R2TCMD_CLOSE (id t) [] cw
                     :: close_calls t;
            world := w1 |}.
Proof.
  intros Ht Hin Hcw. unfold tunnel_close_event.
  erewrite bind_eq by (unfold deref; rewrite Ht; reflexivity).
  erewrite bind_eq by (unfold channel_write, extern; rewrite Hcw; reflexivity).
  erewrite bind_eq by (apply (tunnel_close_exact tun t); [exact Ht|exact Hin]).
  cbn [heap next_ptr all_tunnels last_tid trace world].
  rewrite <- app_assoc. reflexivity.
Qed.

(** [tunnel_event] on a socket tunnel whose event set was read. *)
Lemma tunnel_event_socket_query tun t h ev cerr w1 s :
  heap s !! tun = Some t -> proc t = 0 -> h <> 0 ->
  env_WSAEnumNetworkEvents (sock t) (world s) = (0, ev, cerr, w1) ->
  tunnel_event tun h s
  = (ret ← socket_handlers tun ev cerr;
     if negb (Z.land ev FD_CLOSE =? 0) then tunnel_close_event tun
     else tunnel_event_end tun ret)
      {| heap := heap s; next_ptr := next_ptr s;
         all_tunnels := all_tunnels s; last_tid := last_tid s;
         trace := trace s ++ [Call_WSAEnumNetworkEvents (sock t) 0];
         world := w1 |}.
Proof.
  intros Ht Hproc Hh Henum. unfold tunnel_event.
  apply Z.eqb_neq in Hh. rewrite Hh. cbn [negb assert].
  erewrite bind_eq by reflexivity.
  erewrite bind_eq by (unfold deref; rewrite Ht; reflexivity).
  rewrite Hproc. cbn [Z.eqb negb].
  erewrite bind_eq by (unfold extern; rewrite Henum; reflexivity).
  reflexivity.
Qed.

Lemma tunnel_event_end_keep tun ret s :
  0 <= ret -> tunnel_event_end tun ret s = Ok 0 s.
Proof.
  intros Hret. unfold tunnel_event_end.
  assert (E : (ret <? 0) = false) by (apply Z.ltb_ge; lia).
  rewrite E. reflexivity.
Qed.

(** [tunnel_event] on a socket tunnel: what is reported, in order. *)
Lemma tunnel_event_socket_report tun t h s q ev cerr w1 :
  registry_ok s -> heap s !! tun = Some t -> proc t = 0 ->
  event_expected t h (world s) ->
  env_WSAEnumNetworkEvents (sock t) (world s) = (q, ev, cerr, w1) ->
  exists r s' l,
    tunnel_event tun h s = Ok r s' /\
    reported tun t (close_signalled t h (world s)) (handlers_fail tun t h s)
      s s' l.
Proof.
  intros Hok Ht Hproc [Hh Hexp] Henum.
  assert (Hin : tun ∈ all_tunnels s) by (apply (reg_live _ Hok); by exists t).
  set (s1 := {| heap := heap s; next_ptr := next_ptr s;
                all_tunnels := all_tunnels s; last_tid := last_tid s;
                trace := trace s ++ [Call_WSAEnumNetworkEvents (sock t) q];
                world := w1 |}).
  assert (Hf1 : handlers_fail tun t h s ->
    q = 0 /\ exists ret s2, socket_handlers tun ev cerr s1 = Ok ret s2 /\ ret < 0).
  { unfold handlers_fail. rewrite Hproc. cbn [Z.eqb negb].
    intros (q' & ev' & cerr' & s1' & ret & s2 & Hq' & Hq0 & Hrun & Hneg).
    unfold query_events, extern in Hq'. rewrite Henum in Hq'.
    inversion Hq'; subst. split; [reflexivity|]. eauto. }
  assert (Hcs : close_signalled t h (world s)
                = (q =? 0) && negb (Z.land ev FD_CLOSE =? 0)).
  { unfold close_signalled. rewrite Hproc. cbn [Z.eqb negb].
    by rewrite Henum. }
  rewrite Hcs. clear Hcs.
  unfold event_expected in Hexp. rewrite Hproc in Hexp.
  cbn [Z.eqb negb] in Hexp. rewrite Henum in Hexp.
  assert (Hok1 : registry_ok s1)
    by (eapply registry_ok_same; [| | |exact Hok]; reflexivity).
  assert (Ht1 : heap s1 !! tun = Some t) by exact Ht.
  assert (Ho1 : others_untouched tun s s1) by (by apply others_untouched_same).
  destruct (Z.eq_dec q 0) as [Eq|Eq].
  - subst q. specialize (Hexp eq_refl).
    rewrite (tunnel_event_socket_query tun t h ev cerr w1 s Ht Hproc Hh Henum).
    fold s1.
    destruct (wp_socket_handlers tun t ev cerr s1
               (handlers_done tun (id t) (Z.land ev FD_ACCEPT <> 0) s1)
               Hok1 Ht1) as (ret & s2 & Hrun & [Hok2 Ho2 (lh & Hlh & Hnc) Htun]).
    { intros Hacc. by apply Hexp. }
    { auto. }
    rewrite (bind_eq _ _ _ _ _ Hrun). cbn [Z.eqb andb].
    unfold calls_between in Hlh.
    destruct (Z.eq_dec (Z.land ev FD_CLOSE) 0) as [Ec|Ec].
    + rewrite Ec. cbn [Z.eqb negb].
      destruct (Z.lt_ge_cases ret 0) as [Er|Er].
      * destruct Htun as [(Hr & _)|(t' & Ht' & Hid & Hin')]; [lia|].
        rewrite (tunnel_event_end_close tun t' ret s2 Er Ht' Hin').
        exists 0. eexists.
        exists ([Call_WSAEnumNetworkEvents (sock t) 0] ++ lh ++ close_calls t').
        split; [reflexivity|]. split.
        -- eapply registry_ok_removed; [apply (removed_close tun t')|exact Hok2].
        -- eapply others_untouched_trans; [exact Ho1|].
           eapply others_untouched_trans; [exact Ho2|].
           eapply removed_others_untouched, (removed_close tun t').
        -- unfold calls_between. cbn [trace]. rewrite Hlh. cbn [trace s1].
           by rewrite <- !app_assoc.
        -- discriminate.
        -- intros _. apply Forall_app. split; [repeat constructor; cbn; tauto|].
           apply Forall_app. split; [exact Hnc|].
           apply not_record_not_close, close_calls_no_record.
        -- intros _ _. split.
           ++ eapply removed_destroyed, (removed_close tun t').
           ++ exists ([Call_WSAEnumNetworkEvents (sock t) 0] ++ lh), t'.
              split; [by rewrite <- app_assoc|exact Hid].
      * rewrite (tunnel_event_end_keep tun ret s2 Er).
        exists 0, s2, ([Call_WSAEnumNetworkEvents (sock t) 0] ++ lh).
        split; [reflexivity|]. split.
        -- exact Hok2.
        -- eapply others_untouched_trans; [exact Ho1|exact Ho2].
        -- unfold calls_between. rewrite Hlh. cbn [trace s1].
           by rewrite <- !app_assoc.
        -- discriminate.
        -- intros _. apply Forall_app. split; [repeat constructor; cbn; tauto|].
           exact Hnc.
        -- intros _ Hf. destruct (Hf1 Hf) as (_ & ret' & s2' & Hrun' & Hneg).
           rewrite Hrun in Hrun'. inversion Hrun'; subst. lia.
    + apply Z.eqb_neq in Ec as Eb. rewrite Eb. cbn [negb].
      assert (Hacc : Z.land ev FD_ACCEPT = 0).
      { destruct (Z.eq_dec (Z.land ev FD_ACCEPT) 0) as [E|E]; [exact E|].
        destruct (Hexp E) as [_ H]. contradiction. }
      destruct Htun as [(_ & _ & Hgone)|(t' & Ht' & Hid & Hin')];
        [contradiction|].
      destruct (env_channel_write R2TCMD_CLOSE (id t') [] (world s2))
        as [cw w3] eqn:Hcw.
      rewrite (tunnel_close_event_exact tun t' s2 cw w3 Ht' Hin' Hcw).
      destruct (emits_socket_handlers tun ev cerr Hacc _ _ _ Hrun)
        as (lh' & Hlh' & HP).
      unfold calls_between in Hlh'.
      exists 0. eexists.
      exists ([Call_WSAEnumNetworkEvents (sock t) 0] ++ lh'
              ++ Call_channel_write R2TCMD_CLOSE (id t') [] cw :: close_calls t').
      split; [reflexivity|]. split.
      * eapply registry_ok_removed; [|exact Hok2]. by split.
      * eapply others_untouched_trans; [exact Ho1|].
        eapply others_untouched_trans; [exact Ho2|].
        eapply removed_others_untouched. by split.
      * unfold calls_between. cbn [trace]. rewrite Hlh'. cbn [trace s1].
        by rewrite <- !app_assoc.
      * intros _. split.
        -- eapply removed_destroyed. by split.
        -- exists ([Call_WSAEnumNetworkEvents (sock t) 0] ++ lh'), cw, t'.
           split; [by rewrite Hid, <- app_assoc|]. split; [exact Hid|].
           apply Forall_app. split; [|exact HP].
           repeat constructor; cbn; tauto.
      * discriminate.
      * discriminate.
  - assert (Eb : (q =? 0) = false) by (by apply Z.eqb_neq).
    rewrite Eb. cbn [andb].
    destruct (env_WSAGetLastError w1) as [e w2] eqn:Hgle.
    assert (Hrun : exists r,
      tunnel_event tun h s
      = Ok r {| heap := heap s; next_ptr := next_ptr s;
                all_tunnels := all_tunnels s; last_tid := last_tid s;
                trace := trace s ++ [Call_WSAEnumNetworkEvents (sock t) q];
                world := w2 |}).
    { unfold tunnel_event.
      apply Z.eqb_neq in Hh. rewrite Hh. cbn [negb assert].
      erewrite bind_eq by reflexivity.
      erewrite bind_eq by (unfold deref; rewrite Ht; reflexivity).
      rewrite Hproc. cbn [Z.eqb negb].
      erewrite bind_eq by (unfold extern; rewrite Henum; reflexivity).
      cbn [fst]. rewrite Eb.
      erewrite bind_eq
        by (unfold extern_quiet; cbn [world]; rewrite Hgle; reflexivity).
      destruct (negb (e =? ERROR_IO_PENDING)); eexists; reflexivity. }
    destruct Hrun as (r & Hrun). rewrite Hrun.
    exists r. eexists. exists [Call_WSAEnumNetworkEvents (sock t) q].
    split; [reflexivity|]. split.
    + eapply registry_ok_same; [| | |exact Hok]; reflexivity.
    + by apply others_untouched_same.
    + reflexivity.
    + discriminate.
    + intros _. repeat constructor. cbn. tauto.
    + intros _ Hf. destruct (Hf1 Hf) as [Hq _]. contradiction.
Qed.

(** [tunnel_event] on a process tunnel: what is reported, in order. *)
Lemma tunnel_event_process_report tun t h s :
  registry_ok s -> heap s !! tun = Some t -> proc t <> 0 ->
  event_expected t h (world s) ->
  exists r s' l,
    tunnel_event tun h s = Ok r s' /\
    reported tun t (close_signalled t h (world s)) (handlers_fail tun t h s)
      s s' l.
Proof.
  intros Hok Ht Hproc [Hh Hexp].
  assert (Hin : tun ∈ all_tunnels s) by (apply (reg_live _ Hok); by exists t).
  apply Z.eqb_neq in Hproc as Hb.
  assert (Hf1 : handlers_fail tun t h s ->
    h <> proc t /\ exists ret s2, pipe_handlers tun t h s = Ok ret s2 /\ ret < 0).
  { unfold handlers_fail. rewrite Hb. cbn [negb]. auto. }
  assert (Hcs : close_signalled t h (world s) = (h =? proc t)).
  { unfold close_signalled. by rewrite Hb. }
  rewrite Hcs. clear Hcs.
  unfold event_expected in Hexp. rewrite Hb in Hexp. cbn [negb] in Hexp.
  assert (Hev : tunnel_event tun h s
                = (if h =? proc t then tunnel_close_event tun
                   else ret ← pipe_handlers tun t h; tunnel_event_end tun ret) s).
  { unfold tunnel_event.
    apply Z.eqb_neq in Hh. rewrite Hh. cbn [negb assert].
    erewrite bind_eq by reflexivity.
    erewrite bind_eq by (unfold deref; rewrite Ht; reflexivity).
    rewrite Hb. cbn [negb]. reflexivity. }
  rewrite Hev. clear Hev.
  destruct (Z.eqb_spec h (proc t)) as [E|E].
  - destruct (env_channel_write R2TCMD_CLOSE (id t) [] (world s))
      as [cw w1] eqn:Hcw.
    rewrite (tunnel_close_event_exact tun t s cw w1 Ht Hin Hcw).
    exists 0. eexists.
    exists (Call_channel_write R2TCMD_CLOSE (id t) [] cw :: close_calls t).
    split; [reflexivity|]. split.
    + eapply registry_ok_removed; [|exact Hok]. by split.
    + eapply removed_others_untouched. by split.
    + reflexivity.
    + intros _. split.
      * eapply removed_destroyed. by split.
      * exists [], cw, t. split; [reflexivity|]. split; [reflexivity|constructor].
    + discriminate.
    + discriminate.
  - destruct Hexp as [Hexp|Hexp]; [contradiction|].
    destruct (respects_from tun (pipe_handlers tun t h) anything s s
                (fun ret s2 => evolves tun s s2)) as (ret & s2 & Hrun & He).
    { by apply respects_pipe_handlers. }
    { apply evolves_refl. }
    { by exists t. }
    { auto. }
    rewrite (bind_eq _ _ _ _ _ Hrun).
    destruct (ev_tun _ _ _ He t Ht) as (t' & Ht' & Hid & _).
    assert (Hok2 : registry_ok s2).
    { eapply registry_ok_evolves; [exact He| |exact Hok]. by exists t. }
    assert (Hin' : tun ∈ all_tunnels s2) by (by rewrite (ev_list _ _ _ He)).
    destruct (ev_trace _ _ _ He) as (lh & Hlh & Hnc).
    unfold calls_between in Hlh.
    destruct (Z.lt_ge_cases ret 0) as [Er|Er].
    + rewrite (tunnel_event_end_close tun t' ret s2 Er Ht' Hin').
      exists 0. eexists. exists (lh ++ close_calls t').
      split; [reflexivity|]. split.
      * eapply registry_ok_removed; [apply (removed_close tun t')|exact Hok2].
      * eapply others_untouched_trans; [by apply evolves_others_untouched|].
        eapply removed_others_untouched, (removed_close tun t').
      * unfold calls_between. cbn [trace]. rewrite Hlh. by rewrite <- app_assoc.
      * discriminate.
      * intros _. apply Forall_app. split; [exact Hnc|].
        apply not_record_not_close, close_calls_no_record.
      * intros _ _. split.
        -- eapply removed_destroyed, (removed_close tun t').
        -- exists lh, t'. auto.
    + rewrite (tunnel_event_end_keep tun ret s2 Er).
      exists 0, s2, lh. split; [reflexivity|]. split.
      * exact Hok2.
      * by apply evolves_others_untouched.
      * exact Hlh.
      * discriminate.
      * intros _. exact Hnc.
      * intros _ Hf. destruct (Hf1 Hf) as (_ & ret' & s2' & Hrun' & Hneg).
        rewrite Hrun in Hrun'. inversion Hrun'; subst. lia.
Qed.

(** C5 (amended): for the events [tunnel_event] is called with, it
    returns, with the registry well formed and no other tunnel touched.
    A close record for the tunnel's id is written exactly when the event
    tells that the endpoint is gone (the close bit, or the process
    handle): once, with an empty payload, after the calls of the
    handlers and before the first call of the teardown, which ends the
    calls, so that nothing follows the record on the channel and the
    tunnel is destroyed after it.  Otherwise no close record is written:
    a tunnel whose handlers fail is destroyed by the calls of the
    teardown alone, which follow the calls of the handlers and write
    nothing on the channel, so the failure itself is not reported.
    Bytes that [iobuf_append] refuses make [tunnel_write] return the
    error to its caller: it writes no record and destroys nothing. *)
Theorem tunnel_event_close_report tun t h (s : state W) :
  registry_ok s -> heap s !! tun = Some t ->
  event_expected t h (world s) ->
  (exists r s' l,
     tunnel_event tun h s = Ok r s' /\
     reported tun t (close_signalled t h (world s)) (handlers_fail tun t h s)
       s s' l) /\
  (forall data w1,
     data <> [] ->
     env_iobuf_append (wio_buf t) data (world s) = (false, w1) ->
     exists s',
       tunnel_write tun data s = Ok error_ret s' /\
       heap s' = heap s /\ all_tunnels s' = all_tunnels s /\
       trace s' = trace s).
Proof.
  intros Hok Ht Hexp. split.
  - destruct (Z.eq_dec (proc t) 0) as [Hproc|Hproc].
    + destruct (env_WSAEnumNetworkEvents (sock t) (world s))
        as [[[q ev] cerr] w1] eqn:Henum.
      exact (tunnel_event_socket_report tun t h s q ev cerr w1
               Hok Ht Hproc Hexp Henum).
    + exact (tunnel_event_process_report tun t h s Hok Ht Hproc Hexp).
  - intros data w1 Hdata Happ. by eapply tunnel_write_refused.
Qed.



End Report.

(** * The properties above on concrete runs *)

Ltac not_linked :=
  let H := fresh in
  intros H; vm_compute in H;
  repeat (apply elem_of_cons in H as [H|H]; [discriminate H|]);
  by apply elem_of_nil in H.

(** Tunnel 5 is found by its id; id 6 is not in the registry. *)
Lemma tunnel_lookup_finds_witness :
  tunnel_lookup 5 (one_tunnel client_tunnel 255 [])
  = Ok (Some 1%positive) (one_tunnel client_tunnel 255 []) /\
  tunnel_lookup 6 (one_tunnel client_tunnel 255 [])
  = Ok None (one_tunnel client_tunnel 255 []).
Proof.
  destruct (tunnel_lookup_finds (one_tunnel client_tunnel 255 [])
              (registry_ok_one_tunnel _ _ _)) as (_ & Hfound & Hnone).
  split.
  - apply (Hfound 1%positive client_tunnel); [apply list_elem_of_here|reflexivity].
  - apply Hnone. not_linked.
Defined.

(** A connect request for id 5 from the program start. *)
Lemma tunnel_create_then_lookup_witness :
  exists s',
    tunnel_create 5 1 "host" 80 0
      (init_state [ABool true; ASock 1 scenario_sock scenario_addr 0; AInt 0])
    = Ok tt s' /\
    (tunnel_lookup 5 s' = Ok None s' \/
     tunnel_lookup 5 s' = Ok (Some 1%positive) s').
Proof.
  destruct (tunnel_create_then_lookup 5 1 "host"%string 80 0
              (init_state [ABool true; ASock 1 scenario_sock scenario_addr 0;
                           AInt 0])
              (registry_ok_init _)) as (s' & Hrun & Hl & _).
  - discriminate.
  - not_linked.
  - exists s'. split; [exact Hrun|]. destruct Hl as [[_ H]|[_ H]]; auto.
Defined.

(** After the close of tunnel 5 its id is free again. *)
Lemma tunnel_close_then_lookup_witness :
  exists s',
    tunnel_close 1%positive (one_tunnel client_tunnel 255 []) = Ok tt s' /\
    tunnel_lookup 5 s' = Ok None s'.
Proof.
  destruct (tunnel_close_then_lookup 1%positive client_tunnel
              (one_tunnel client_tunnel 255 [])
              (registry_ok_one_tunnel _ _ _)) as (s' & Hrun & Hnone & _).
  - apply list_elem_of_here.
  - reflexivity.
  - exists s'. auto.
Defined.

(** The teardown of the process tunnel 7. *)
Lemma tunnel_close_releases_witness :
  exists s',
    tunnel_close 1%positive (one_tunnel process_tunnel 255 []) = Ok tt s' /\
    destroyed s' 1%positive /\
    calls_between (one_tunnel process_tunnel 255 []) s'
      [Call_event_del_tunnel 7; Call_CancelIo 12; Call_CancelIo 13;
       Call_process_stop 11].
Proof.
  destruct (tunnel_close_releases 1%positive process_tunnel
              (one_tunnel process_tunnel 255 []))
    as (s' & Hrun & Hd & _ & _ & Hc).
  - reflexivity.
  - apply list_elem_of_here.
  - exists s'. split; [exact Hrun|]. split; [exact Hd|].
    apply Hc. discriminate.
Defined.

(** [tunnels_kill] with the single tunnel 5 linked. *)
Lemma tunnels_kill_empties_witness :
  exists s',
    tunnels_kill (one_tunnel client_tunnel 255 []) = Ok tt s' /\
    all_tunnels s' = [] /\ heap s' = ∅ /\
    calls_between (one_tunnel client_tunnel 255 []) s'
      [Call_event_del_tunnel 5; Call_net_close scenario_sock].
Proof.
  destruct (tunnels_kill_empties (one_tunnel client_tunnel 255 [])
              (registry_ok_one_tunnel _ _ _))
    as (s' & l & Hrun & Hl & Hh & _ & _ & Hc & -> & _).
  exists s'. auto.
Defined.

(** With [last_tid = 4] and id 5 in use, the scan skips 5 and returns 6. *)
Lemma tunnel_generate_id_first_fit_witness :
  tunnel_generate_id (one_tunnel client_tunnel 4 [])
  = Ok 6 (with_last_tid 6 (one_tunnel client_tunnel 4 [])).
Proof.
  apply (proj1 (tunnel_generate_id_first_fit (one_tunnel client_tunnel 4 [])
                  (registry_ok_one_tunnel _ _ _) ltac:(cbn; lia)) 2 6).
  split; [lia|]. split; [reflexivity|]. split; [not_linked|].
  intros j Hj. assert (j = 1) as -> by lia. vm_compute. constructor.
Defined.

(** With the listener 0x20 alone and [last_tid = 0xff], the first free id
    is 0. *)
Lemma first_free_listener (w : script) :
  first_free (one_tunnel listener_tunnel 255 w) 1 0.
Proof.
  split; [lia|]. split; [reflexivity|]. split; [not_linked|].
  intros j Hj. lia.
Defined.

(** A peer at 10.0.0.2:5000 connects to the listener 0x20 and becomes
    tunnel 0. *)
Lemma tunnel_accept_event_links_witness :
  exists s' c,
    tunnel_accept_event 1%positive
      (one_tunnel listener_tunnel 255
         [ASock 0 peer_sock peer_addr 0; ABool true; AInt 0; AInt 0])
    = Ok 0 s' /\
    all_tunnels s' = [1%positive; 2%positive] /\
    heap s' !! 2%positive = Some c /\ id c = 0 /\ sock c = peer_sock /\
    trace s' = [Call_net_accept scenario_sock 0;
                Call_event_add_tunnel 22 0 0;
                Call_channel_write R2TCMD_RCONN 32 [0; 1; 19; 136; 10; 0; 0; 2] 0].
Proof.
  destruct (tunnel_accept_event_links 1%positive listener_tunnel 1 0
              peer_sock peer_addr 0
              (one_tunnel listener_tunnel 255
                 [ASock 0 peer_sock peer_addr 0; ABool true; AInt 0; AInt 0])
              (registry_ok_one_tunnel _ _ _))
    as (s' & c & Hrun & Hl & Hh & _ & Hid & _ & _ & _ & Hs & _ & _ & _ & Hc & _).
  - cbn. lia.
  - reflexivity.
  - apply first_free_listener.
  - discriminate.
  - split; [|lia]. eexists _, _, _, _. repeat split; reflexivity.
  - exists s', c. split; [exact Hrun|]. split; [exact Hl|].
    split; [rewrite Hh; apply lookup_insert_eq|].
    split; [exact Hid|]. split; [exact Hs|]. exact Hc.
Defined.

(** A peer connects while memory is short. *)
Lemma tunnel_accept_event_soft_errors_witness :
  exists s' l,
    tunnel_accept_event 1%positive
      (one_tunnel listener_tunnel 255
         [ASock 0 peer_sock peer_addr 0; ABool false])
    = Ok 0 s' /\
    all_tunnels s' = [1%positive] /\
    trace s' = Call_net_accept scenario_sock 0 :: l ++ [Call_net_close peer_sock].
Proof.
  destruct (tunnel_accept_event_soft_errors 1%positive listener_tunnel
              peer_sock peer_addr [ABool false]
              (one_tunnel listener_tunnel 255
                 [ASock 0 peer_sock peer_addr 0; ABool false])
              (registry_ok_one_tunnel _ _ _))
    as (s' & l & Hrun & _ & Hl & Hc & _).
  - cbn. lia.
  - reflexivity.
  - reflexivity.
  - right. left. reflexivity.
  - exists s', l. auto.
Defined.

(** A peer connects to the listener 0x20: the accept returns. *)
Lemma tunnel_accept_event_total_witness :
  exists r s',
    tunnel_accept_event 1%positive
      (one_tunnel listener_tunnel 255
         [ASock 0 peer_sock peer_addr 0; ABool true; AInt 0; AInt 0])
    = Ok r s' /\
    registry_ok s' /\ (255 ∈ registry_ids s' -> False).
Proof.
  destruct (tunnel_accept_event_total 1%positive listener_tunnel
              (one_tunnel listener_tunnel 255
                 [ASock 0 peer_sock peer_addr 0; ABool true; AInt 0; AInt 0])
              (registry_ok_one_tunnel _ _ _) eq_refl)
    as (r & s' & Hrun & _ & Hok & _ & _ & Hnew & _).
  exists r, s'. split; [exact Hrun|]. split; [exact Hok|].
  intros H. destruct (Hnew 255 H) as [H0|H0]; [|by apply H0].
  revert H0. not_linked.
Defined.

(** A peer connects while the channel is down. *)
Lemma tunnel_accept_event_unannounced_witness :
  exists s' c,
    tunnel_accept_event 1%positive
      (one_tunnel listener_tunnel 255
         [ASock 0 peer_sock peer_addr 0; ABool true; AInt 0; AInt (-1)])
    = Ok 0 s' /\
    all_tunnels s' = [2%positive] /\
    heap s' !! 1%positive = None /\
    heap s' !! 2%positive = Some c /\ id c = 0 /\ connected c = true.
Proof.
  destruct (tunnel_accept_event_unannounced 1%positive listener_tunnel 1 0
              peer_sock peer_addr (-1)
              (one_tunnel listener_tunnel 255
                 [ASock 0 peer_sock peer_addr 0; ABool true; AInt 0; AInt (-1)])
              (registry_ok_one_tunnel _ _ _))
    as (s' & c & Hrun & [_ Hd] & Hl & Hh & Hid & Hcon & _).
  - cbn. lia.
  - reflexivity.
  - reflexivity.
  - apply first_free_listener.
  - discriminate.
  - eexists _, _, _, _. repeat split; reflexivity.
  - lia.
  - exists s', c. split; [exact Hrun|]. split; [exact Hl|]. auto.
Defined.

(** The connect of tunnel 5 is refused. *)
Lemma tunnel_connect_event_answer_witness :
  exists r s' cw,
    tunnel_connect_event 1%positive 10061 (one_tunnel connecting_tunnel 255 [])
    = Ok r s' /\
    calls_between (one_tunnel connecting_tunnel 255 []) s'
      [Call_channel_write R2TCMD_CONN 5 [3] cw].
Proof.
  destruct (tunnel_connect_event_answer 1%positive connecting_tunnel 10061
              (one_tunnel connecting_tunnel 255 []) eq_refl)
    as (r & s' & l & payload & cw & Hrun & Hc & _ & _ & _ & _ & _ & He & _).
  destruct He as (-> & -> & _); [discriminate|].
  exists r, s', cw. split; [exact Hrun|exact Hc].
Defined.

(** [net_client] fails with connection-refused. *)
Lemma host_connect_outcomes_witness :
  exists cw s',
    host_connect 1%positive 1 "host" 80
      (one_tunnel (set_id 5 tunnel_zero) 255
         [ASock (-1) scenario_sock scenario_addr 10061; AInt 0])
    = Ok (-1) s' /\
    trace s' = [Call_net_client 1 "host" 80 (-1);
                Call_channel_write R2TCMD_CONN 5 [3] cw].
Proof.
  destruct (host_connect_outcomes 1%positive (set_id 5 tunnel_zero)
              1 "host"%string 80 (-1) scenario_sock scenario_addr 10061
              [AInt 0] 0 []
              (one_tunnel (set_id 5 tunnel_zero) 255
                 [ASock (-1) scenario_sock scenario_addr 10061; AInt 0]))
    as [Hfail _]; [reflexivity|reflexivity|reflexivity|].
  destruct Hfail as (cw & s' & Hrun & Hc); [lia|].
  exists cw, s'. split; [exact Hrun|exact Hc].
Defined.

(** [net_server] fails with access-denied. *)
Lemma host_bind_failures_witness :
  exists cw s',
    host_bind 1%positive 1 "0.0.0.0" 4000
      (one_tunnel (set_id 32 tunnel_zero) 255
         [ASock (-1) scenario_sock scenario_addr 10013; AInt 0])
    = Ok (-1) s' /\
    trace s' = [Call_net_server 1 "0.0.0.0" 4000 (-1);
                Call_channel_write R2TCMD_BIND 32 [2] cw].
Proof.
  destruct (host_bind_failures 1%positive (set_id 32 tunnel_zero)
              1 "0.0.0.0"%string 4000 (-1) scenario_sock scenario_addr
              10013 [AInt 0]
              (one_tunnel (set_id 32 tunnel_zero) 255
                 [ASock (-1) scenario_sock scenario_addr 10013; AInt 0]))
    as [Hfail _]; [reflexivity|reflexivity|].
  destruct Hfail as (cw & s' & t' & Hrun & Hc & _); [lia|].
  exists cw, s'. split; [exact Hrun|exact Hc].
Defined.

(** A connect request when [calloc] fails. *)
Lemma tunnel_create_all_or_nothing_witness :
  exists s',
    tunnel_create 5 1 "host" 80 0 (init_state [ABool false]) = Ok tt s' /\
    heap s' = ∅ /\ all_tunnels s' = [] /\ trace s' = [].
Proof.
  destruct (tunnel_create_all_or_nothing 5 1 "host"%string 80 0
              (init_state [ABool false]) (registry_ok_init _))
    as (s' & Hrun & _ & _ & Hmem).
  - discriminate.
  - not_linked.
  - exists s'. split; [exact Hrun|]. apply Hmem. reflexivity.
Defined.

(** The connect event of tunnel 5 carries connection-refused. *)
Lemma tunnel_event_connect_failed_witness :
  exists s',
    tunnel_event 1%positive 9
      (one_tunnel connecting_tunnel 255 [AEvents 0 FD_CONNECT 10061; AInt 0])
    = Ok 0 s' /\
    destroyed s' 1%positive /\
    trace s' = [Call_WSAEnumNetworkEvents scenario_sock 0;
                Call_channel_write R2TCMD_CONN 5 [3] 0;
                Call_event_del_tunnel 5;
                Call_net_close scenario_sock].
Proof.
  destruct (tunnel_event_connect_failed 1%positive connecting_tunnel 9
              FD_CONNECT 10061 [AInt 0] 0 []
              (one_tunnel connecting_tunnel 255
                 [AEvents 0 FD_CONNECT 10061; AInt 0]))
    as (s' & Hrun & Hd & _ & Hc); try reflexivity; try discriminate.
  - apply list_elem_of_here.
  - exists s'. auto.
Defined.

(** The accept on the listener 0x20 fails. *)
Lemma tunnel_event_accept_failed_witness :
  exists s',
    tunnel_event 1%positive 9
      (one_tunnel listener_tunnel 255
         [AEvents 0 FD_ACCEPT 0; ASock (-1) peer_sock peer_addr 0])
    = Ok 0 s' /\
    destroyed s' 1%positive /\
    trace s' = [Call_WSAEnumNetworkEvents scenario_sock 0;
                Call_net_accept scenario_sock (-1);
                Call_event_del_tunnel 32;
                Call_net_close scenario_sock].
Proof.
  destruct (tunnel_event_accept_failed 1%positive listener_tunnel 9
              FD_ACCEPT 0 [ASock (-1) peer_sock peer_addr 0] (-1)
              peer_sock peer_addr []
              (one_tunnel listener_tunnel 255
                 [AEvents 0 FD_ACCEPT 0; ASock (-1) peer_sock peer_addr 0]))
    as (s' & Hrun & Hd & _ & Hc); try reflexivity; try discriminate.
  - apply list_elem_of_here.
  - exists s'. auto.
Defined.

(** The child of tunnel 7 exits while the channel is down. *)
Lemma tunnel_event_process_exit_witness :
  exists s',
    tunnel_event 1%positive 11 (one_tunnel process_tunnel 255 [AInt (-1)])
    = Ok 0 s' /\
    destroyed s' 1%positive /\
    trace s' = [Call_channel_write R2TCMD_CLOSE 7 [] (-1);
                Call_event_del_tunnel 7;
                Call_CancelIo 12; Call_CancelIo 13;
                Call_process_stop 11].
Proof.
  destruct (tunnel_event_process_exit 1%positive process_tunnel (-1) []
              (one_tunnel process_tunnel 255 [AInt (-1)]))
    as (s' & Hrun & Hd & _ & Hc); try reflexivity; try discriminate.
  - apply list_elem_of_here.
  - exists s'. auto.
Defined.

(** The query of tunnel 5 fails with pending I/O. *)
Lemma tunnel_event_query_failed_witness :
  exists s',
    tunnel_event 1%positive 9
      (one_tunnel client_tunnel 255 [AEvents (-1) 0 0; AInt 997])
    = Ok 0 s' /\
    heap s' !! 1%positive = Some client_tunnel /\
    all_tunnels s' = [1%positive].
Proof.
  destruct (tunnel_event_query_failed 1%positive client_tunnel 9
              (-1) 0 0 [AInt 997] 997 []
              (one_tunnel client_tunnel 255 [AEvents (-1) 0 0; AInt 997]))
    as (s' & Hrun & Hh & Hl & _); try reflexivity; try discriminate.
  exists s'. split; [exact Hrun|]. unfold script in *. rewrite Hh, Hl.
  split; reflexivity.
Defined.

(** Two bytes written to the established tunnel 5. *)
Lemma tunnel_write_frame_witness :
  exists r s' t',
    tunnel_write 1%positive [104; 105] (one_tunnel client_tunnel 255 []) = Ok r s' /\
    all_tunnels s' = [1%positive] /\
    heap s' !! 1%positive = Some t' /\ id t' = 5 /\ connected t' = true.
Proof.
  destruct (tunnel_write_frame 1%positive client_tunnel [104; 105]
              (one_tunnel client_tunnel 255 [])
              (registry_ok_one_tunnel _ _ _) eq_refl)
    as (r & s' & Hrun & _ & Hl & _ & _ & (t' & Ht' & Hid & Hcon & _) & _).
  - discriminate.
  - exists r, s', t'. auto.
Defined.

(** The zeroed address [calloc] leaves is answered in the ipv6 layout. *)
Lemma success_answer_decodes_witness :
  success_answer (addr tunnel_zero) = [0; 2; 0; 0] ++ repeat 0 16 /\
  length (success_answer (addr tunnel_zero)) = 20%nat.
Proof.
  apply (proj1 (success_answer_decodes (addr tunnel_zero) scenario_addr
                  ltac:(cbn; lia) ltac:(cbn; lia)
                  eq_refl eq_refl eq_refl eq_refl)).
  discriminate.
Defined.

(** A connect request for id 5 that completes at once. *)
Lemma tunnel_create_connect_witness :
  exists s' t,
    connect_done = Ok tt s' /\
    heap s' !! 1%positive = Some t /\ connected t = true /\
    addr t = scenario_addr /\
    trace s' = [Call_net_client 1 "host" 80 0;
                Call_event_add_tunnel 9 5 0;
                Call_net_update_watch scenario_sock 0;
                Call_channel_write R2TCMD_CONN 5 [0; 1; 31; 144; 127; 0; 0; 1] 0].
Proof.
  destruct (proj1 (tunnel_create_connect 5 1 "host"%string 80
                     scenario_sock scenario_addr
                     (init_state [ABool true;
                                  ASock 0 scenario_sock scenario_addr 0;
                                  AInt 0; AInt 0; AInt 0])
                     ltac:(discriminate) ltac:(lia)) 0)
    as (s' & t & Hrun & _ & Ht & _ & Hcon & _ & _ & _ & Ha & Hc).
  - eexists _, _, _, _, _, _. repeat split; first [reflexivity | lia].
  - exists s', t. auto.
Defined.

(** * The reports of [tunnel_event] on concrete runs *)

(** The established tunnel 5 gets a read event and [net_read] fails:
    no close record is written, and the calls end with the teardown. *)
Lemma tunnel_event_close_report_witness :
  exists r s' l l1 t',
    read_error = Ok r s' /\
    calls_between
      (one_tunnel client_tunnel 255 [AEvents 0 FD_READ 0; ABytes (-1) []]) s' l /\
    Forall (fun c => ~ is_close c) l /\
    destroyed s' 1%positive /\
    l = l1 ++ close_calls t' /\ id t' = 5.
Proof.
  destruct (proj1 (tunnel_event_close_report 1%positive client_tunnel 9
              (one_tunnel client_tunnel 255 [AEvents 0 FD_READ 0; ABytes (-1) []])
              (registry_ok_one_tunnel _ _ _) eq_refl read_error_expected))
    as (r & s' & l & Hrun & [_ _ Hc _ Hq Hf]).
  destruct (Hf eq_refl) as (Hd & l1 & t' & Hl & Hid).
  { unfold handlers_fail. cbn [proc client_tunnel Z.eqb negb].
    eexists 0, FD_READ, 0, _, _, _.
    split; [reflexivity|]. split; [reflexivity|].
    split; [vm_compute; reflexivity|reflexivity]. }
  exists r, s', l, l1, t'. split; [exact Hrun|]. split; [exact Hc|].
  split; [exact (Hq eq_refl)|]. split; [exact Hd|]. split; [exact Hl|exact Hid].
Defined.

(** The listener of the scenarios is the one the program has after a
    bind request for port 4000. *)
Lemma listener_reached :
  heap listening_state = heap (one_tunnel listener_tunnel 255 []) /\
  all_tunnels listening_state = all_tunnels (one_tunnel listener_tunnel 255 []) /\
  next_ptr listening_state = next_ptr (one_tunnel listener_tunnel 255 []) /\
  last_tid listening_state = last_tid (one_tunnel listener_tunnel 255 []).
Proof. repeat split; vm_compute; reflexivity. Qed.

